(** * Enterprise data pipeline: validation, exceptions, transformation,
      aggregation and orchestration

    A shallow embedding of [src/validator.py], [src/exception_handler.py],
    [src/transformer.py] and [src/pipeline.py].

    Conventions of the embedding:
    - a DataFrame is the list of its rows in order, each paired with its
      index label (what [iterrows] yields);
    - a cell that pandas reads as NaN/None is [None];
    - money amounts are exact numbers of hundredths held in [Z];
    - the validator's [validation_results] list, the database tables and the
      wall clock are threaded explicitly. *)

From Stdlib Require Import ZArith List String Ascii Bool Arith Lia Permutation.
From Stdlib Require Import DecimalString Sorted.
From Stdlib Require OrderedTypeEx.
Import ListNotations.

Open Scope string_scope.
Open Scope list_scope.

(** ** Data model *)

Record SalesRecord := mkSalesRecord {
  order_id   : option string;
  order_date : option string;
  region     : option string;
  product    : option string;
  quantity   : option Z;
  revenue    : option Z
}.

(** A frame: rows in order, each with its index label. *)
Definition DataFrame := list (nat * SalesRecord).

(** [pd.read_csv] labels the rows 0, 1, 2, ... *)
Definition range_index (rows : list SalesRecord) : DataFrame :=
  combine (seq 0 (List.length rows)) rows.

Record Date := mkDate { year : nat; month : nat; day : nat }.

Inductive Status := PASSED | FAILED.

Record ValidationResult := mkValidationResult {
  record_id    : nat;
  stage        : string;
  control_type : string;
  status       : Status;
  reason       : option string
}.

Definition Log := list ValidationResult.

(** ** pandas helpers *)

Definition isna {A} (x : option A) : bool :=
  match x with None => true | Some _ => false end.

Definition notna {A} (x : option A) : bool := negb (isna x).

(** [cell == s] on a cell that may be NaN (NaN equals nothing). *)
Definition cell_eq (x : option string) (s : string) : bool :=
  match x with Some v => String.eqb v s | None => false end.

(** [cell < 0] and [cell <= 0]; a comparison with NaN is False. *)
Definition cell_ltz (x : option Z) : bool :=
  match x with Some v => (v <? 0)%Z | None => false end.

Definition cell_lez (x : option Z) : bool :=
  match x with Some v => (v <=? 0)%Z | None => false end.

Definition valid_regions : list string :=
  ["North"; "South"; "East"; "West"; "Central"].

Definition in_list (s : string) (l : list string) : bool :=
  existsb (String.eqb s) l.

(** [cell not in valid_regions], evaluated only on a non-NaN cell. *)
Definition cell_not_in (x : option string) (l : list string) : bool :=
  match x with Some v => negb (in_list v l) | None => false end.

(** ** Outcomes

    A call returns a value or raises an exception; [Raise e] carries what
    [str(e)] gives. *)

Inductive Result (A : Type) :=
  | Ok (a : A)
  | Raise (e : string).

Arguments Ok {A} a.
Arguments Raise {A} e.

(** A column on which the [.str] accessor can be used: it holds at least
    one string. A column of NaN only is a float column, and [.str] raises
    AttributeError on it. *)
Definition has_string (col : list (option string)) : bool :=
  existsb notna col.

(** ** What the libraries contribute

    [to_datetime s] is [pd.to_datetime(s)] on one string followed by
    [.date()], [None] when the call raises.

    [to_datetime_cell col s] is what [pd.to_datetime(col)] makes of the
    cell [s] of the column [col]: the conversion settles from the column how
    its strings are to be read, so a string that [to_datetime] reads on its
    own may be refused inside a column; the call then raises with the given
    message.

    [float_div_round2 a q] is [(a / q).round(2)] in float64 arithmetic for
    an amount [a] (in hundredths) and a non-zero count [q], again in
    hundredths.

    [str_accessor_error] is the message of the AttributeError of [.str] on
    a column without strings; [index_error requested cols] is [str(e)] for
    the KeyError of [df[requested]] on a frame of columns [cols] that lacks
    some of them; [fmt_revenue] and [fmt_quantity] give the text an f-string
    prints for a revenue and for a quantity. *)
Class PandasOps := {
  to_datetime        : string -> option Date;
  to_datetime_cell   : list (option string) -> string -> Result Date;
  float_div_round2   : Z -> Z -> Z;
  str_accessor_error : string;
  index_error        : list string -> list string -> string;
  fmt_revenue        : Z -> string;
  fmt_quantity       : Z -> string
}.

(** ** validator.py *)

Section Validator.

Context `{PandasOps}.

Definition fmt_cell (f : Z -> string) (x : option Z) : string :=
  match x with Some v => f v | None => "nan" end.

Definition fmt_str (x : option string) : string :=
  match x with Some v => v | None => "nan" end.

Definition _log_validation_failure (rid : nat) (stg ctl rsn : string)
    (validation_results : Log) : Log :=
  validation_results ++ [mkValidationResult rid stg ctl FAILED (Some rsn)].

Definition _log_validation_success (rid : nat) (stg ctl : string)
    (validation_results : Log) : Log :=
  validation_results ++ [mkValidationResult rid stg ctl PASSED None].

Definition _validate_date (date_value : option string) (record_idx : nat)
    (vr : Log) : bool * Log :=
  match date_value with
  | None =>
      (false, _log_validation_failure record_idx "DATE_VALIDATION"
                "MISSING_DATE" "Order date is missing" vr)
  | Some s =>
      if String.eqb s "invalid_date" then
        (false, _log_validation_failure record_idx "DATE_VALIDATION"
                  "INVALID_FORMAT" ("Invalid date format: " ++ s)%string vr)
      else
        match to_datetime s with
        | Some _ => (true, vr)
        | None =>
            (false, _log_validation_failure record_idx "DATE_VALIDATION"
                      "PARSE_ERROR" ("Cannot parse date: " ++ s)%string vr)
        end
  end.

(** The body of the loop of [validate_records]: the flag [record_valid] and
    the log are threaded through the six checks in source order. *)
Definition validate_row (idx : nat) (row : SalesRecord) (vr : Log)
    : bool * Log :=
  let record_valid := true in
  let '(record_valid, vr) :=
    if isna (order_id row) || cell_eq (order_id row) "" then
      (false, _log_validation_failure idx "NULL_CHECK" "MISSING_ORDER_ID"
                "Order ID is null or empty" vr)
    else (record_valid, vr) in
  let '(record_valid, vr) :=
    if isna (region row) || cell_eq (region row) "" then
      (false, _log_validation_failure idx "NULL_CHECK" "MISSING_REGION"
                "Region is null or empty" vr)
    else (record_valid, vr) in
  let '(date_ok, vr) := _validate_date (order_date row) idx vr in
  let record_valid := if negb date_ok then false else record_valid in
  let '(record_valid, vr) :=
    if notna (revenue row) && cell_ltz (revenue row) then
      (false, _log_validation_failure idx "BUSINESS_RULE" "NEGATIVE_REVENUE"
                ("Revenue is negative: " ++ fmt_cell fmt_revenue (revenue row))%string
                vr)
    else (record_valid, vr) in
  let '(record_valid, vr) :=
    if notna (quantity row) && cell_lez (quantity row) then
      (false, _log_validation_failure idx "BUSINESS_RULE" "INVALID_QUANTITY"
                ("Quantity is zero or negative: "
                 ++ fmt_cell fmt_quantity (quantity row))%string vr)
    else (record_valid, vr) in
  let '(record_valid, vr) :=
    if notna (region row) && cell_not_in (region row) valid_regions then
      (false, _log_validation_failure idx "BUSINESS_RULE" "INVALID_REGION"
                ("Invalid region: " ++ fmt_str (region row))%string vr)
    else (record_valid, vr) in
  if record_valid then
    (true, _log_validation_success idx "RECORD_VALIDATION" "PASSED" vr)
  else (false, vr).

(** [validate_records]: the accumulators are the two row lists and the
    validator's log. *)
Fixpoint validate_loop (df : DataFrame)
    (valid_records invalid_records : DataFrame) (vr : Log)
    : DataFrame * DataFrame * Log :=
  match df with
  | [] => (valid_records, invalid_records, vr)
  | (idx, row) :: rest =>
      let '(ok, vr') := validate_row idx row vr in
      if ok then validate_loop rest (valid_records ++ [(idx, row)])
                   invalid_records vr'
      else validate_loop rest valid_records
             (invalid_records ++ [(idx, row)]) vr'
  end.

Definition validate_records (df : DataFrame) (vr : Log)
    : DataFrame * DataFrame * Log :=
  validate_loop df [] [] vr.

(** [validate_schema]: the required columns must all be among the frame's
    columns; a missing one is logged against record 0. *)
Definition required_columns : list string :=
  ["order_id"; "order_date"; "region"; "product"; "quantity"; "revenue"].

(** The text Python prints for a list of strings. *)
Definition py_list_repr (l : list string) : string :=
  ("[" ++ String.concat ", " (map (fun c => "'" ++ c ++ "'") l) ++ "]")%string.

Definition validate_schema (columns : list string) (vr : Log) : bool * Log :=
  let missing_columns :=
    filter (fun col => negb (in_list col columns)) required_columns in
  match missing_columns with
  | _ :: _ =>
      (false, _log_validation_failure 0 "SCHEMA_VALIDATION" "MISSING_COLUMNS"
                ("Missing columns: " ++ py_list_repr missing_columns)%string
                vr)
  | [] => (true, vr)
  end.

(** Equality of two [order_id] cells as [duplicated] sees it (two NaN cells
    count as equal there). *)
Definition key_eqb (a b : option string) : bool :=
  match a, b with
  | Some x, Some y => String.eqb x y
  | None, None => true
  | _, _ => false
  end.

Definition keys_of (df : DataFrame) : list (option string) :=
  map (fun ir => order_id (snd ir)) df.

Definition occurrences (k : option string) (ks : list (option string)) : nat :=
  List.length (filter (key_eqb k) ks).

(** [df.duplicated(subset=['order_id'], keep=False)]: every row whose key
    occurs more than once. *)
Definition duplicated_all (df : DataFrame) : list bool :=
  map (fun ir => (2 <=? occurrences (order_id (snd ir)) (keys_of df))%nat) df.

(** [df.duplicated(subset=['order_id'], keep='first')]: every row whose key
    occurred in an earlier row. *)
Fixpoint duplicated_from (seen : list (option string)) (df : DataFrame)
    : list bool :=
  match df with
  | [] => []
  | (_, row) :: rest =>
      existsb (key_eqb (order_id row)) seen
      :: duplicated_from (order_id row :: seen) rest
  end.

Definition duplicated_first (df : DataFrame) : list bool :=
  duplicated_from [] df.

(** Boolean indexing [df[mask]]. *)
Definition select (df : DataFrame) (mask : list bool) : DataFrame :=
  map fst (filter snd (combine df mask)).

(** [df.drop_duplicates(subset=['order_id'], keep='first')] keeps the rows
    that [duplicated(keep='first')] does not mark; the rows it removes are
    the marked ones. *)
Definition drop_duplicates (df : DataFrame) : DataFrame :=
  select df (map negb (duplicated_first df)).

Definition dropped_duplicates (df : DataFrame) : DataFrame :=
  select df (duplicated_first df).

Definition check_duplicates (df : DataFrame) (vr : Log) : DataFrame * Log :=
  let duplicates := select df (duplicated_all df) in
  let vr :=
    fold_left
      (fun vr ir =>
         _log_validation_failure (fst ir) "DUPLICATE_CHECK" "DUPLICATE_ORDER_ID"
           ("Duplicate order ID: " ++ fmt_str (order_id (snd ir)))%string vr)
      duplicates vr in
  (drop_duplicates df, vr).

(** The pure part of [_validate_data] once the schema check has passed:
    record validation, then the duplicate check on the valid rows. *)
Definition validate_and_dedup (df : DataFrame) (vr : Log)
    : DataFrame * DataFrame * Log :=
  let '(clean_df, invalid_df, vr) := validate_records df vr in
  let '(clean_df, vr) := check_duplicates clean_df vr in
  (clean_df, invalid_df, vr).

End Validator.

(** ** The wall clock

    Every [datetime.now()] reads the clock once; the clock is the sequence
    of its future readings. *)

Record DateTime := mkDateTime { dt_date : Date; dt_time : nat }.

Definition Clock := nat -> DateTime.

Definition now (c : Clock) : DateTime * Clock :=
  (c 0%nat, fun n => c (S n)).

(** A loop whose body reads the clock. *)
Fixpoint map_clock {A B} (f : A -> Clock -> B * Clock) (l : list A)
    (c : Clock) : list B * Clock :=
  match l with
  | [] => ([], c)
  | x :: xs =>
      let '(y, c) := f x c in
      let '(ys, c) := map_clock f xs c in
      (y :: ys, c)
  end.

(** A loop whose body reads the clock and may raise: the loop stops at the
    first turn that raises. *)
Fixpoint map_clock_raising {A B} (f : A -> Clock -> Result B * Clock)
    (l : list A) (c : Clock) : Result (list B) * Clock :=
  match l with
  | [] => (Ok [], c)
  | x :: xs =>
      match f x c with
      | (Ok y, c) =>
          match map_clock_raising f xs c with
          | (Ok ys, c) => (Ok (y :: ys), c)
          | (Raise e, c) => (Raise e, c)
          end
      | (Raise e, c) => (Raise e, c)
      end
  end.

(** ** exception_handler.py *)

Inductive ErrorCategory :=
  | MISSING_REQUIRED_FIELD
  | BUSINESS_RULE_VIOLATION
  | DATA_FORMAT_ERROR
  | DATA_QUALITY_ISSUE.

Record ExceptionRecord := mkExceptionRecord {
  e_run_id           : string;
  original_record_id : nat;
  error_category     : ErrorCategory;
  pipeline_stage     : string;
  error_details      : string;
  e_timestamp        : DateTime;
  raw_data           : SalesRecord
}.

Section ExceptionHandler.

Context `{PandasOps}.

Definition _categorize_error (record : SalesRecord) : ErrorCategory :=
  if isna (order_id record) || cell_eq (order_id record) "" then
    MISSING_REQUIRED_FIELD
  else if notna (revenue record) && cell_ltz (revenue record) then
    BUSINESS_RULE_VIOLATION
  else if isna (order_date record) || cell_eq (order_date record) "invalid_date"
  then DATA_FORMAT_ERROR
  else if notna (quantity record) && cell_lez (quantity record) then
    BUSINESS_RULE_VIOLATION
  else DATA_QUALITY_ISSUE.

Definition _generate_error_details (record : SalesRecord) : string :=
  let errors := [] in
  let errors :=
    if isna (order_id record) || cell_eq (order_id record) ""
    then errors ++ ["Missing order ID"] else errors in
  let errors :=
    if isna (region record) || cell_eq (region record) ""
    then errors ++ ["Missing region"] else errors in
  let errors :=
    if isna (order_date record) then errors ++ ["Missing order date"]
    else if cell_eq (order_date record) "invalid_date"
         then errors ++ ["Invalid date format"] else errors in
  let errors :=
    if notna (revenue record) && cell_ltz (revenue record)
    then errors ++ [("Negative revenue: "
                     ++ fmt_cell fmt_revenue (revenue record))%string]
    else errors in
  let errors :=
    if notna (quantity record) && cell_lez (quantity record)
    then errors ++ [("Invalid quantity: "
                     ++ fmt_cell fmt_quantity (quantity record))%string]
    else errors in
  let errors :=
    if notna (region record) && cell_not_in (region record) valid_regions
    then errors ++ [("Invalid region: " ++ fmt_str (region record))%string]
    else errors in
  match errors with
  | [] => "Unknown error"
  | _ :: _ => String.concat "; " errors
  end.

(** The loop of [handle_exceptions]: one exception record per row of
    [invalid_records], in order. *)
Definition exception_record (run_id pipeline_stage : string)
    (ir : nat * SalesRecord) (c : Clock) : ExceptionRecord * Clock :=
  let error_category := _categorize_error (snd ir) in
  let error_details := _generate_error_details (snd ir) in
  let '(ts, c) := now c in
  (mkExceptionRecord run_id (fst ir) error_category pipeline_stage
     error_details ts (snd ir), c).

Definition exception_data (run_id pipeline_stage : string)
    (invalid_records : DataFrame) (c : Clock)
    : list ExceptionRecord * Clock :=
  map_clock (exception_record run_id pipeline_stage) invalid_records c.

End ExceptionHandler.

(** ** transformer.py *)

(** The result of a float division (hundredths when finite). *)
Inductive Float :=
  | NaN
  | Inf (negative : bool)
  | Fin (hundredths : Z).

(** [a / b] for [b <> 0] as an exact quotient, rounded to the nearest
    integer, ties to even. *)
Definition div_round_half_even (a b : Z) : Z :=
  let '(a, b) := if (b <? 0)%Z then ((- a)%Z, (- b)%Z) else (a, b) in
  let d := (a / b)%Z in
  let m := (a mod b)%Z in
  if (2 * m <? b)%Z then d
  else if (b <? 2 * m)%Z then (d + 1)%Z
  else if Z.even d then d else (d + 1)%Z.

Definition is_upper (c : ascii) : bool :=
  let n := nat_of_ascii c in ((65 <=? n) && (n <=? 90))%nat.

Definition is_lower (c : ascii) : bool :=
  let n := nat_of_ascii c in ((97 <=? n) && (n <=? 122))%nat.

Definition to_upper (c : ascii) : ascii :=
  if is_lower c then ascii_of_nat (nat_of_ascii c - 32) else c.

Definition to_lower (c : ascii) : ascii :=
  if is_upper c then ascii_of_nat (nat_of_ascii c + 32) else c.

(** [str.title()]: a letter that follows a letter is lowered, any other
    letter is raised. *)
Fixpoint title_from (previous_is_cased : bool) (s : string) : string :=
  match s with
  | EmptyString => EmptyString
  | String c rest =>
      String (if previous_is_cased then to_lower c else to_upper c)
        (title_from (is_upper c || is_lower c) rest)
  end.

Definition str_title (s : string) : string := title_from false s.

Record TransformedRecord := mkTransformedRecord {
  t_order_id            : option string;
  t_order_date          : option Date;
  t_region              : option string;
  t_product             : option string;
  t_quantity            : option Z;
  t_revenue             : option Z;
  revenue_per_unit      : Float;
  t_run_id              : string;
  processed_timestamp   : DateTime
}.

Definition TransformedFrame := list (nat * TransformedRecord).

Record SummaryRow := mkSummaryRow {
  s_run_id          : string;
  total_revenue     : Z;
  total_orders      : nat;
  s_region          : string;
  s_product         : string;
  daily_sales       : Z;
  calculation_date  : Date;
  created_timestamp : DateTime
}.

(** [Series.sum()] skips NaN; [count] counts the non-NaN cells. *)
Definition sum_cells (l : list (option Z)) : Z :=
  fold_right (fun x acc => match x with Some v => (v + acc)%Z | None => acc end)
    0%Z l.

Definition count_cells {A} (l : list (option A)) : nat :=
  List.length (filter notna l).

Definition date_compare (a b : Date) : comparison :=
  match Nat.compare (year a) (year b) with
  | Eq => match Nat.compare (month a) (month b) with
          | Eq => Nat.compare (day a) (day b)
          | o => o
          end
  | o => o
  end.

(** ** groupby(key).agg({'revenue': 'sum', 'order_id': 'count'})

    One group per distinct non-NaN key, the groups in increasing key
    order. *)
Section GroupBy.

Context {R K : Type}.
Variable cmp : K -> K -> comparison.
Variable key : R -> option K.
Variable rev : R -> option Z.
Variable oid : R -> option string.

Fixpoint insert_key (k : K) (l : list K) : list K :=
  match l with
  | [] => [k]
  | x :: xs =>
      match cmp k x with
      | Lt => k :: l
      | Eq => l
      | Gt => x :: insert_key k xs
      end
  end.

Definition group_keys (df : list R) : list K :=
  fold_right
    (fun r acc => match key r with Some k => insert_key k acc | None => acc end)
    [] df.

Definition in_group (k : K) (r : R) : bool :=
  match key r with
  | Some k' => match cmp k k' with Eq => true | _ => false end
  | None => false
  end.

Definition groupby_agg (df : list R) : list (K * Z * nat) :=
  map (fun k =>
         let g := filter (in_group k) df in
         (k, sum_cells (map rev g), count_cells (map oid g)))
      (group_keys df).

End GroupBy.

Section Transformer.

Context `{PandasOps}.

(** [(revenue / quantity).round(2)] on one row: NaN when an operand is NaN,
    an infinity (or NaN for 0/0) when the quantity is zero. *)
Definition divide_round2 (rev qty : option Z) : Float :=
  match rev, qty with
  | Some r, Some q =>
      if (q =? 0)%Z then (if (r =? 0)%Z then NaN else Inf (r <? 0)%Z)
      else Fin (float_div_round2 r q)
  | _, _ => NaN
  end.

(** [pd.to_datetime(column).dt.date]: NaN stays NaN (NaT); every string is
    read as a cell of the column, and the call raises as soon as one is
    refused. *)
Fixpoint to_datetime_cells (col cells : list (option string))
    : Result (list (option Date)) :=
  match cells with
  | [] => Ok []
  | None :: rest =>
      match to_datetime_cells col rest with
      | Ok dates => Ok (None :: dates)
      | Raise e => Raise e
      end
  | Some s :: rest =>
      match to_datetime_cell col s with
      | Ok d =>
          match to_datetime_cells col rest with
          | Ok dates => Ok (Some d :: dates)
          | Raise e => Raise e
          end
      | Raise e => Raise e
      end
  end.

Definition to_datetime_column (col : list (option string))
    : Result (list (option Date)) :=
  to_datetime_cells col col.

Definition transform_row (run_id : string) (ts : DateTime)
    (ird : nat * SalesRecord * option Date) : nat * TransformedRecord :=
  let '(idx, row, d) := ird in
  (idx,
   mkTransformedRecord (order_id row) d (option_map str_title (region row))
     (product row) (quantity row) (revenue row)
     (divide_round2 (revenue row) (quantity row)) run_id ts).

(** The frame [transform_clean_data] builds from a non-empty [clean_df]
    before it is saved: the date conversion, then [.str.title()] on the
    region column, then the division, then the one clock reading. Either
    of the first two may raise. *)
Definition transform_frame (run_id : string) (clean_df : DataFrame)
    (c : Clock) : Result TransformedFrame * Clock :=
  match to_datetime_column (map (fun ir => order_date (snd ir)) clean_df) with
  | Raise e => (Raise e, c)
  | Ok dates =>
      if has_string (map (fun ir => region (snd ir)) clean_df) then
        let '(ts, c) := now c in
        (Ok (map (transform_row run_id ts) (combine clean_df dates)), c)
      else (Raise str_accessor_error, c)
  end.

(** The list [summaries] of [_generate_analytics_summaries]. *)
Definition group_summary_region (run_id : string) (g : string * Z * nat)
    (c : Clock) : SummaryRow * Clock :=
  let '(k, r, n) := g in
  let '(cd, c) := now c in
  let '(ts, c) := now c in
  (mkSummaryRow run_id r n k "ALL" r (dt_date cd) ts, c).

Definition group_summary_product (run_id : string) (g : string * Z * nat)
    (c : Clock) : SummaryRow * Clock :=
  let '(k, r, n) := g in
  let '(cd, c) := now c in
  let '(ts, c) := now c in
  (mkSummaryRow run_id r n "ALL" k r (dt_date cd) ts, c).

Definition group_summary_daily (run_id : string) (g : Date * Z * nat)
    (c : Clock) : SummaryRow * Clock :=
  let '(k, r, n) := g in
  let '(ts, c) := now c in
  (mkSummaryRow run_id r n "ALL" "ALL" r k ts, c).

Definition analytics_summaries (run_id : string) (df : TransformedFrame)
    (c : Clock) : list SummaryRow * Clock :=
  let rows := map snd df in
  let revenue_sum := sum_cells (map t_revenue rows) in
  let '(cd, c) := now c in
  let '(ts, c) := now c in
  let total_summary :=
    mkSummaryRow run_id revenue_sum (List.length df) "ALL" "ALL" revenue_sum
      (dt_date cd) ts in
  let summaries := [total_summary] in
  let regional_summary :=
    groupby_agg String.compare t_region t_revenue t_order_id rows in
  let '(regional, c) :=
    map_clock (group_summary_region run_id) regional_summary c in
  let summaries := summaries ++ regional in
  let product_summary :=
    groupby_agg String.compare t_product t_revenue t_order_id rows in
  let '(products, c) :=
    map_clock (group_summary_product run_id) product_summary c in
  let summaries := summaries ++ products in
  let daily_summary :=
    groupby_agg date_compare t_order_date t_revenue t_order_id rows in
  let '(daily, c) := map_clock (group_summary_daily run_id) daily_summary c in
  (summaries ++ daily, c).

End Transformer.

(** ** pipeline.py: the summaries of [_generate_basic_analytics] *)

Definition is_space (c : ascii) : bool :=
  let n := nat_of_ascii c in ((n =? 32) || ((9 <=? n) && (n <=? 13)))%nat.

Fixpoint skip_spaces (s : string) : string :=
  match s with
  | String c rest => if is_space c then skip_spaces rest else s
  | EmptyString => EmptyString
  end.

Fixpoint take_word (s : string) : string :=
  match s with
  | String c rest => if is_space c then EmptyString else String c (take_word rest)
  | EmptyString => EmptyString
  end.

(** [s.split()[0]] for a string that holds a word. *)
Definition first_word (s : string) : string := take_word (skip_spaces s).

(** [sub in s]: some suffix of [s] starts with [sub]. *)
Fixpoint contains (sub s : string) : bool :=
  String.prefix sub s
  || match s with
     | EmptyString => false
     | String _ rest => contains sub rest
     end.

(** [Series.str.contains(word, na=False)] on one cell. *)
Definition cell_contains (x : option string) (word : string) : bool :=
  match x with Some v => contains word v | None => false end.

Definition regions : list string :=
  ["North"; "South"; "East"; "West"; "Central"].

Definition products : list string :=
  ["Tomato Ketchup 500g"; "Chicken Biryani Ready Meal"; "Paneer 200g";
   "Potato Chips 50g"; "Mango Juice 1L"].

Definition frame_revenue (df : DataFrame) : Z :=
  sum_cells (map (fun ir => revenue (snd ir)) df).

Definition basic_total (run_id : string) (current_date : Date)
    (clean_df : DataFrame) (c : Clock) : SummaryRow * Clock :=
  let empty := match clean_df with [] => true | _ => false end in
  let revenue := if negb empty then frame_revenue clean_df else 0%Z in
  let orders := if negb empty then List.length clean_df else 0%nat in
  let '(ts, c) := now c in
  (mkSummaryRow run_id revenue orders "ALL" "ALL" revenue current_date ts, c).

Definition basic_region (run_id : string) (current_date : Date)
    (clean_df : DataFrame) (region_name : string) (c : Clock)
    : SummaryRow * Clock :=
  let '(revenue, orders) :=
    match clean_df with
    | _ :: _ =>
        let region_data :=
          filter (fun ir => cell_eq (region (snd ir)) region_name) clean_df in
        match region_data with
        | _ :: _ => (frame_revenue region_data, List.length region_data)
        | [] => (0%Z, 0%nat)
        end
    | [] => (0%Z, 0%nat)
    end in
  let '(ts, c) := now c in
  (mkSummaryRow run_id revenue orders region_name "ALL" revenue current_date ts,
   c).

Section BasicAnalytics.

Context `{PandasOps}.

(** One turn of the product loop. On a frame with rows the selection uses
    [.str.contains] on the product column, which raises before anything
    else is done when the column holds no string. *)
Definition basic_product (run_id : string) (current_date : Date)
    (clean_df : DataFrame) (product_name : string) (c : Clock)
    : Result SummaryRow * Clock :=
  let selected :=
    match clean_df with
    | _ :: _ =>
        if has_string (map (fun ir => product (snd ir)) clean_df) then
          let product_data :=
            filter (fun ir => cell_contains (product (snd ir))
                                (first_word product_name)) clean_df in
          match product_data with
          | _ :: _ => Ok (frame_revenue product_data, List.length product_data)
          | [] => Ok (0%Z, 0%nat)
          end
        else Raise str_accessor_error
    | [] => Ok (0%Z, 0%nat)
    end in
  match selected with
  | Raise e => (Raise e, c)
  | Ok (revenue, orders) =>
      let '(ts, c) := now c in
      (Ok (mkSummaryRow run_id revenue orders "ALL" product_name revenue
             current_date ts), c)
  end.

(** The list [summaries] of [_generate_basic_analytics] when the three
    loops have run, or what the product loop raised. *)
Definition basic_summaries (run_id : string) (clean_df : DataFrame)
    (c : Clock) : Result (list SummaryRow) * Clock :=
  let '(cd, c) := now c in
  let current_date := dt_date cd in
  let '(total_summary, c) := basic_total run_id current_date clean_df c in
  let summaries := [total_summary] in
  let '(regional, c) :=
    map_clock (basic_region run_id current_date clean_df) regions c in
  let summaries := summaries ++ regional in
  match map_clock_raising (basic_product run_id current_date clean_df)
          products c with
  | (Ok by_product, c) => (Ok (summaries ++ by_product), c)
  | (Raise e, c) => (Raise e, c)
  end.

End BasicAnalytics.

(** ** The persistent store (database.py) *)

Record RawRow := mkRawRow {
  raw_run_id          : string;
  ingestion_timestamp : DateTime;
  source_name         : string;
  raw_record          : SalesRecord
}.

Record ValidationRow := mkValidationRow {
  v_run_id    : string;
  v_result    : ValidationResult;
  v_timestamp : DateTime
}.

Record AuditEvent := mkAuditEvent {
  a_run_id          : string;
  event_type        : string;
  event_description : string;
  record_count      : nat;
  a_timestamp       : DateTime
}.

Record Store := mkStore {
  raw_sales          : list RawRow;
  validation_results : list ValidationRow;
  clean_sales        : list TransformedRecord;
  exceptions         : list ExceptionRecord;
  audit_log          : list AuditEvent;
  analytics_summary  : list SummaryRow
}.

Definition empty_store : Store := mkStore [] [] [] [] [] [].

(** What the columns of [raw_sales] can hold: [VARCHAR(n)] a text of at
    most [n] characters, [INTEGER] a 32-bit number, [DECIMAL(p,2)] an amount
    of at most [p] digits, hundredths included; NULL fits everywhere. *)
Definition fits_varchar (n : nat) (x : option string) : bool :=
  match x with Some s => (String.length s <=? n)%nat | None => true end.

Definition fits_integer (x : option Z) : bool :=
  match x with
  | Some v => ((- 2147483648 <=? v) && (v <=? 2147483647))%Z
  | None => true
  end.

Definition fits_decimal (p : nat) (x : option Z) : bool :=
  match x with Some v => (Z.abs v <? 10 ^ Z.of_nat p)%Z | None => true end.

Definition fits_raw_sales (run_id source_name : string) (row : SalesRecord)
    : bool :=
  fits_varchar 50 (Some run_id)
  && fits_varchar 100 (Some source_name)
  && fits_varchar 50 (order_id row)
  && fits_varchar 50 (order_date row)
  && fits_varchar 50 (region row)
  && fits_varchar 200 (product row)
  && fits_integer (quantity row)
  && fits_decimal 10 (revenue row).

(** [DELETE FROM ... WHERE run_id = :run_id] *)
Definition delete_run {A} (rid : A -> string) (run_id : string) (t : list A)
    : list A :=
  filter (fun r => negb (String.eqb (rid r) run_id)) t.

(** The rows a query [WHERE run_id = :run_id] returns. *)
Definition rows_of_run {A} (rid : A -> string) (run_id : string) (t : list A)
    : list A :=
  filter (fun r => String.eqb (rid r) run_id) t.

Definition set_raw_sales (f : list RawRow -> list RawRow) (s : Store) :=
  mkStore (f (raw_sales s)) (validation_results s) (clean_sales s)
    (exceptions s) (audit_log s) (analytics_summary s).

Definition set_validation_results
    (f : list ValidationRow -> list ValidationRow) (s : Store) :=
  mkStore (raw_sales s) (f (validation_results s)) (clean_sales s)
    (exceptions s) (audit_log s) (analytics_summary s).

Definition set_clean_sales
    (f : list TransformedRecord -> list TransformedRecord) (s : Store) :=
  mkStore (raw_sales s) (validation_results s) (f (clean_sales s))
    (exceptions s) (audit_log s) (analytics_summary s).

Definition set_exceptions
    (f : list ExceptionRecord -> list ExceptionRecord) (s : Store) :=
  mkStore (raw_sales s) (validation_results s) (clean_sales s)
    (f (exceptions s)) (audit_log s) (analytics_summary s).

Definition set_audit_log (f : list AuditEvent -> list AuditEvent) (s : Store) :=
  mkStore (raw_sales s) (validation_results s) (clean_sales s)
    (exceptions s) (f (audit_log s)) (analytics_summary s).

Definition set_analytics_summary
    (f : list SummaryRow -> list SummaryRow) (s : Store) :=
  mkStore (raw_sales s) (validation_results s) (clean_sales s)
    (exceptions s) (audit_log s) (f (analytics_summary s)).

(** ** The world of one run and the monad of the orchestrator

    The world holds the database, the files, the clock, and what the
    environment will do to the next input/output operations: each database
    or file operation consumes one entry of [faults] and raises its message
    when the entry is [Some]. Whether an operation is refused is the
    environment's to say: a connection is lost, a file cannot be written,
    or a table refuses what it is sent (a column it does not have, a value
    its column cannot hold). *)

Record CsvFile := mkCsvFile {
  columns : list string;
  records : list SalesRecord
}.

Record World := mkWorld {
  db     : Store;
  fs     : string -> option CsvFile;
  clock  : Clock;
  faults : list (option string)
}.

Definition M (A : Type) := World -> Result A * World.

Definition ret {A} (a : A) : M A := fun w => (Ok a, w).

Definition raise {A} (e : string) : M A := fun w => (Raise e, w).

Definition bind {A B} (m : M A) (k : A -> M B) : M B :=
  fun w =>
    match m w with
    | (Ok a, w') => k a w'
    | (Raise e, w') => (Raise e, w')
    end.

(** [try: m  except Exception as e: handler(e)] *)
Definition try_except {A} (m : M A) (handler : string -> M A) : M A :=
  fun w =>
    match m w with
    | (Ok a, w') => (Ok a, w')
    | (Raise e, w') => handler e w'
    end.

Declare Scope pipeline_scope.
Delimit Scope pipeline_scope with pipeline.

Notation "x <- m ;; k" := (bind m (fun x => k))
  (at level 61, m at next level, right associativity) : pipeline_scope.
Notation "' p <- m ;; k" := (bind m (fun p => k))
  (at level 61, p pattern, m at next level, right associativity)
  : pipeline_scope.
Notation "m ;; k" := (bind m (fun _ => k))
  (at level 61, right associativity) : pipeline_scope.

Open Scope pipeline_scope.

(** One database or file operation. *)
Definition external : M unit :=
  fun w =>
    match faults w with
    | [] => (Ok tt, w)
    | None :: rest => (Ok tt, mkWorld (db w) (fs w) (clock w) rest)
    | Some e :: rest => (Raise e, mkWorld (db w) (fs w) (clock w) rest)
    end.

Definition update_db (f : Store -> Store) : M unit :=
  fun w => (Ok tt, mkWorld (f (db w)) (fs w) (clock w) (faults w)).

Definition get_db : M Store := fun w => (Ok (db w), w).

(** Run a computation that reads the clock. *)
Definition with_clock {A} (f : Clock -> A * Clock) : M A :=
  fun w =>
    let '(a, c) := f (clock w) in
    (Ok a, mkWorld (db w) (fs w) c (faults w)).

(** Run a computation that reads the clock and may raise. *)
Definition with_clock_try {A} (f : Clock -> Result A * Clock) : M A :=
  fun w =>
    let '(r, c) := f (clock w) in
    (r, mkWorld (db w) (fs w) c (faults w)).

Definition lookup_file (path : string) : M (option CsvFile) :=
  fun w => (Ok (fs w path), w).

(** ** audit_logger.py *)

Definition string_of_nat (n : nat) : string :=
  NilEmpty.string_of_uint (Nat.to_uint n).

(** A failure to write the audit row is caught inside [_log_to_db]. *)
Definition _log_to_db (run_id event description : string) (count : nat)
    : M unit :=
  try_except
    (external ;;
     ts <- with_clock now ;;
     update_db
       (set_audit_log
          (fun t => t ++ [mkAuditEvent run_id event description count ts])))
    (fun _ => ret tt).

Definition log_pipeline_start (run_id : string) : M unit :=
  _log_to_db run_id "PIPELINE_START"
    ("Pipeline started - Run ID: " ++ run_id)%string 0.

Definition log_pipeline_end (run_id : string) (total_records : nat) : M unit :=
  _log_to_db run_id "PIPELINE_END"
    ("Pipeline completed - Run ID: " ++ run_id ++ ", Total records: "
     ++ string_of_nat total_records)%string total_records.

Definition log_ingestion (run_id : string) (count : nat) (source_file : string)
    : M unit :=
  _log_to_db run_id "DATA_INGESTION"
    ("Data ingested from " ++ source_file ++ " - " ++ string_of_nat count
     ++ " records")%string count.

Definition log_validation_summary (run_id : string)
    (passed_count failed_count : nat) : M unit :=
  _log_to_db run_id "VALIDATION_SUMMARY"
    ("Validation completed - Passed: " ++ string_of_nat passed_count
     ++ ", Failed: " ++ string_of_nat failed_count)%string
    (passed_count + failed_count).

Definition log_transformation (run_id : string) (count : nat) : M unit :=
  _log_to_db run_id "DATA_TRANSFORMATION"
    ("Data transformation completed - " ++ string_of_nat count
     ++ " records processed")%string count.

Definition log_exception (run_id error_message : string) (count : nat)
    : M unit :=
  _log_to_db run_id "SYSTEM_ERROR"
    ("Exception occurred: " ++ error_message)%string count.

(** ** The run summary *)

Record ValidationSummary := mkValidationSummary {
  vs_run_id          : string;
  total_checks       : nat;
  passed_checks      : nat;
  failed_checks      : nat;
  failure_percentage : Z;
  failure_breakdown  : list (string * nat);
  vs_timestamp       : DateTime
}.

Inductive RunSummary :=
  | Success (run_id : string) (total_records clean_records invalid_records : nat)
            (validation_summary : ValidationSummary)
  | Failure (run_id : string) (error : string).

Definition rs_status (s : RunSummary) : string :=
  match s with
  | Success _ _ _ _ _ => "SUCCESS"
  | Failure _ _ => "FAILED"
  end.


Definition is_failed (r : ValidationResult) : bool :=
  match status r with FAILED => true | PASSED => false end.

(** [d[k] = d.get(k, 0) + 1] on a dict kept in insertion order. *)
Fixpoint bump (k : string) (d : list (string * nat)) : list (string * nat) :=
  match d with
  | [] => [(k, 1%nat)]
  | (k', n) :: rest =>
      if String.eqb k k' then (k', S n) :: rest else (k', n) :: bump k rest
  end.

(** The summary [generate_validation_summary] returns. The percentage is
    kept in hundredths and is rounded here from the exact ratio; the code
    rounds the float64 product, which gives the neighbouring hundredth for
    some ratios that end in a 5. *)
Definition validation_summary_of (run_id : string) (vr : Log) (ts : DateTime)
    : ValidationSummary :=
  let total_checks := List.length vr in
  let failed_checks := List.length (filter is_failed vr) in
  let passed_checks := (total_checks - failed_checks)%nat in
  let failure_percentage :=
    match total_checks with
    | O => 0%Z
    | _ => div_round_half_even (Z.of_nat failed_checks * 10000)
             (Z.of_nat total_checks)
    end in
  let failure_breakdown :=
    fold_left
      (fun d r => if is_failed r then bump (control_type r) d else d) vr [] in
  mkValidationSummary run_id total_checks passed_checks failed_checks
    failure_percentage failure_breakdown ts.

(** ** The effectful stages *)

Section Pipeline.

Context `{PandasOps}.

Definition save_validation_results (run_id : string) (vr : Log) : M unit :=
  match vr with
  | [] => ret tt
  | _ :: _ =>
      external ;;
      rows <- with_clock
                (map_clock
                   (fun r c => let '(ts, c) := now c in
                               (mkValidationRow run_id r ts, c)) vr) ;;
      update_db (set_validation_results (fun t => t ++ rows))
  end.

Definition generate_validation_summary (run_id : string) (vr : Log)
    : M ValidationSummary :=
  ts <- with_clock now ;;
  external ;;
  ret (validation_summary_of run_id vr ts).

Definition _save_exceptions_to_db (data : list ExceptionRecord) : M unit :=
  external ;;
  update_db (set_exceptions (fun t => t ++ data)).

Definition _save_exceptions_to_csv (data : list ExceptionRecord) : M unit :=
  match data with
  | [] => ret tt
  | _ :: _ => _ <- with_clock now ;; external
  end.

Definition handle_exceptions (run_id : string) (invalid_records : DataFrame)
    : M unit :=
  match invalid_records with
  | [] => ret tt
  | _ :: _ =>
      data <- with_clock (exception_data run_id "VALIDATION" invalid_records) ;;
      _save_exceptions_to_db data ;;
      _save_exceptions_to_csv data
  end.

Definition _save_clean_data (run_id : string) (df : TransformedFrame)
    : M unit :=
  external ;;
  update_db (set_clean_sales (delete_run t_run_id run_id)) ;;
  external ;;
  update_db (set_clean_sales (fun t => t ++ map snd df)).

Definition _generate_analytics_summaries (run_id : string)
    (df : TransformedFrame) : M unit :=
  summaries <- with_clock (analytics_summaries run_id df) ;;
  external ;;
  update_db (set_analytics_summary (delete_run s_run_id run_id)) ;;
  external ;;
  update_db (set_analytics_summary (fun t => t ++ summaries)).

Definition transform_clean_data (run_id : string) (clean_df : DataFrame)
    : M TransformedFrame :=
  match clean_df with
  | [] => ret []
  | _ :: _ =>
      transformed_df <- with_clock_try (transform_frame run_id clean_df) ;;
      _save_clean_data run_id transformed_df ;;
      _generate_analytics_summaries run_id transformed_df ;;
      log_transformation run_id (List.length transformed_df) ;;
      ret transformed_df
  end.

Definition _generate_basic_analytics (run_id : string)
    (raw_df clean_df invalid_df : DataFrame) : M unit :=
  external ;;
  update_db (set_analytics_summary (delete_run s_run_id run_id)) ;;
  summaries <- with_clock_try (basic_summaries run_id clean_df) ;;
  match summaries with
  | [] => ret tt
  | _ :: _ =>
      external ;;
      update_db (set_analytics_summary (fun t => t ++ summaries))
  end.

Definition read_csv (path : string) : M CsvFile :=
  f <- lookup_file path ;;
  match f with
  | None =>
      raise ("[Errno 2] No such file or directory: '" ++ path ++ "'")%string
  | Some file => external ;; ret file
  end.

Definition original_columns : list string :=
  ["order_id"; "order_date"; "region"; "product"; "quantity"; "revenue"].

(** The columns [_ingest_data] adds to the frame it has read. *)
Definition ingestion_columns : list string :=
  ["run_id"; "ingestion_timestamp"; "source_name"].

(** The columns of the frame once they are assigned: those of the file,
    then the added ones the file does not have already. *)
Definition ingested_columns (file : CsvFile) : list string :=
  columns file
  ++ filter (fun col => negb (in_list col (columns file))) ingestion_columns.

Definition _ingest_data (run_id source_file : string) : M DataFrame :=
  try_except
    (file <- read_csv source_file ;;
     let df := range_index (records file) in
     ts <- with_clock now ;;
     external ;;
     update_db
       (set_raw_sales
          (fun t => t ++ map (fun ir => mkRawRow run_id ts source_file (snd ir))
                          df)) ;;
     log_ingestion run_id (List.length df) source_file ;;
     match filter (fun col => negb (in_list col (columns file)))
             original_columns with
     | [] => ret df
     | _ :: _ =>
         raise (index_error original_columns (ingested_columns file))
     end)
    (fun e =>
       log_exception run_id ("Data ingestion failed: " ++ e)%string 0 ;;
       raise e).

Definition _validate_data (run_id : string) (cols : list string)
    (df : DataFrame) (vr : Log) : M (DataFrame * DataFrame * Log) :=
  try_except
    (let '(schema_ok, vr) := validate_schema cols vr in
     if negb schema_ok then raise "Schema validation failed"
     else
       let '(clean_df, invalid_df, vr) := validate_records df vr in
       let '(clean_df, vr) := check_duplicates clean_df vr in
       save_validation_results run_id vr ;;
       log_validation_summary run_id (List.length clean_df)
         (List.length invalid_df) ;;
       ret (clean_df, invalid_df, vr))
    (fun e =>
       log_exception run_id ("Data validation failed: " ++ e)%string 0 ;;
       raise e).

(** The [try] block of [run_pipeline]. *)
Definition pipeline_steps (run_id source_file : string) : M RunSummary :=
  log_pipeline_start run_id ;;
  raw_df <- _ingest_data run_id source_file ;;
  '(clean_df, invalid_df, vr) <-
     _validate_data run_id original_columns raw_df [] ;;
  handle_exceptions run_id invalid_df ;;
  final_df <- transform_clean_data run_id clean_df ;;
  _generate_basic_analytics run_id raw_df clean_df invalid_df ;;
  validation_summary <- generate_validation_summary run_id vr ;;
  log_pipeline_end run_id (List.length raw_df) ;;
  ret (Success run_id (List.length raw_df) (List.length clean_df)
         (List.length invalid_df) validation_summary).

(** The inner [try] of the handler; the bare [except: pass] discards
    whatever it raises. *)
Definition fallback_analytics (run_id source_file : string) : M unit :=
  f <- lookup_file source_file ;;
  raw_df <- match f with
            | Some _ =>
                file <- read_csv source_file ;;
                ret (range_index (records file))
            | None => ret []
            end ;;
  _generate_basic_analytics run_id raw_df [] [].

Definition run_pipeline (run_id source_file : string) : M RunSummary :=
  try_except (pipeline_steps run_id source_file)
    (fun e =>
       log_exception run_id e 0 ;;
       try_except (fallback_analytics run_id source_file) (fun _ => ret tt) ;;
       ret (Failure run_id e)).

End Pipeline.

(** ** The rule set, as the specification words it

    Used to state that the log of [validate_row] is complete: these
    predicates are written from the rule list, not from the code. *)

Inductive Rule :=
  | IdentifierPresent
  | RegionPresent
  | DateValid
  | NonNegativeRevenue
  | PositiveQuantity
  | RegionMember.

Definition all_rules : list Rule :=
  [IdentifierPresent; RegionPresent; DateValid; NonNegativeRevenue;
   PositiveQuantity; RegionMember].

Definition rule_eqb (a b : Rule) : bool :=
  match a, b with
  | IdentifierPresent, IdentifierPresent
  | RegionPresent, RegionPresent
  | DateValid, DateValid
  | NonNegativeRevenue, NonNegativeRevenue
  | PositiveQuantity, PositiveQuantity
  | RegionMember, RegionMember => true
  | _, _ => false
  end.

Definition five_regions : list string :=
  ["North"; "South"; "East"; "West"; "Central"].

Section RuleSet.

Context `{PandasOps}.

Definition missing_or_empty (x : option string) : bool :=
  match x with None => true | Some s => String.eqb s "" end.

Definition violates (r : Rule) (row : SalesRecord) : bool :=
  match r with
  | IdentifierPresent => missing_or_empty (order_id row)
  | RegionPresent => missing_or_empty (region row)
  | DateValid =>
      match order_date row with
      | None => true
      | Some s =>
          String.eqb s "invalid_date"
          || match to_datetime s with Some _ => false | None => true end
      end
  | NonNegativeRevenue =>
      match revenue row with Some v => (v <? 0)%Z | None => false end
  | PositiveQuantity =>
      match quantity row with Some v => (v <=? 0)%Z | None => false end
  | RegionMember =>
      match region row with
      | Some s => negb (existsb (String.eqb s) five_regions)
      | None => false
      end
  end.

Definition violated_rules (row : SalesRecord) : list Rule :=
  filter (fun r => violates r row) all_rules.

(** The rule a logged control type belongs to. *)
Definition rule_of_control (ctl : string) : option Rule :=
  if String.eqb ctl "MISSING_ORDER_ID" then Some IdentifierPresent
  else if String.eqb ctl "MISSING_REGION" then Some RegionPresent
  else if String.eqb ctl "MISSING_DATE" then Some DateValid
  else if String.eqb ctl "INVALID_FORMAT" then Some DateValid
  else if String.eqb ctl "PARSE_ERROR" then Some DateValid
  else if String.eqb ctl "NEGATIVE_REVENUE" then Some NonNegativeRevenue
  else if String.eqb ctl "INVALID_QUANTITY" then Some PositiveQuantity
  else if String.eqb ctl "INVALID_REGION" then Some RegionMember
  else None.

(** The verdict of the date check and what it appends to an empty log. *)
Definition date_ok (d : option string) : bool :=
  fst (_validate_date d 0 []).

Definition date_entries (d : option string) (idx : nat) : Log :=
  snd (_validate_date d idx []).

(** What one pass of the loop body appends to an empty log, and its
    verdict. *)
Definition row_entries (idx : nat) (row : SalesRecord) : Log :=
  snd (validate_row idx row []).

Definition accepted (row : SalesRecord) : bool :=
  fst (validate_row 0 row []).

(** The rules the FAILED entries of a record name, in log order. *)
Definition reported_rules (idx : nat) (row : SalesRecord) : list Rule :=
  flat_map
    (fun e =>
       if is_failed e then
         match rule_of_control (control_type e) with
         | Some r => [r]
         | None => []
         end
       else [])
    (row_entries idx row).

End RuleSet.

(** ** A concrete library, for the examples

    Dates of the shape YYYY-MM-DD, optionally followed by a blank and a
    time of day; amounts printed with two decimals. *)

Definition digit (c : ascii) : option nat :=
  let n := nat_of_ascii c in
  if ((48 <=? n) && (n <=? 57))%nat then Some (n - 48)%nat else None.

Definition two_digits (a b : ascii) : option nat :=
  match digit a, digit b with
  | Some x, Some y => Some (10 * x + y)%nat
  | _, _ => None
  end.

Definition iso_date (s : string) : option Date :=
  match s with
  | String y1 (String y2 (String y3 (String y4 (String "-"
      (String m1 (String m2 (String "-" (String d1 (String d2 rest))))))))) =>
      match two_digits y1 y2, two_digits y3 y4, two_digits m1 m2,
            two_digits d1 d2 with
      | Some yh, Some yl, Some m, Some d =>
          if ((1 <=? m) && (m <=? 12) && (1 <=? d) && (d <=? 31))%nat
             && match rest with
                | EmptyString => true
                | String c _ => Ascii.eqb c " "
                end
          then Some (mkDate (100 * yh + yl) m d)
          else None
      | _, _, _, _ => None
      end
  | _ => None
  end.

Definition string_of_Z (z : Z) : string :=
  NilEmpty.string_of_int (Z.to_int z).

Definition two_places (n : Z) : string :=
  ((if (n <? 10)%Z then "0" else "") ++ string_of_Z n)%string.

Definition fmt_hundredths (z : Z) : string :=
  ((if (z <? 0)%Z then "-" else "")
   ++ string_of_Z (Z.abs z / 100) ++ "." ++ two_places (Z.abs z mod 100))%string.

(** A column is read in the shape of its first string: a date alone, or a
    date with a time of day. *)
Definition has_time (s : string) : bool := (10 <? String.length s)%nat.

Fixpoint first_string (col : list (option string)) : option string :=
  match col with
  | [] => None
  | Some s :: _ => Some s
  | None :: rest => first_string rest
  end.

Definition iso_cell (col : list (option string)) (s : string) : Result Date :=
  match iso_date s, first_string col with
  | Some d, Some s0 =>
      if Bool.eqb (has_time s) (has_time s0) then Ok d
      else Raise ("time data does not match the format of the column: " ++ s)
  | _, _ => Raise ("Unknown datetime string format, unable to parse: " ++ s)
  end.

Definition dquote : string := String (ascii_of_nat 34) EmptyString.

Definition iso_index_error (requested cols : list string) : string :=
  let missing := filter (fun col => negb (in_list col cols)) requested in
  (dquote
   ++ (if (List.length missing =? List.length requested)%nat
       then "None of [Index(" ++ py_list_repr requested
            ++ ", dtype='object')] are in the [columns]"
       else py_list_repr missing ++ " not in index")
   ++ dquote)%string.

(** The quotient is rounded here as an exact number; float64 arithmetic
    gives another hundredth for some quotients that end in a 5. *)
Definition iso_pandas : PandasOps :=
  {| to_datetime := iso_date;
     to_datetime_cell := iso_cell;
     float_div_round2 := div_round_half_even;
     str_accessor_error := "Can only use .str accessor with string values!";
     index_error := iso_index_error;
     fmt_revenue := fmt_hundredths;
     fmt_quantity := string_of_Z |}.

(** A clock for the examples: the same day, one tick per reading. *)
Definition example_clock : Clock :=
  fun n => mkDateTime (mkDate 2024 6 1) n.

Definition rec (id date reg prod : string) (qty rev : Z) : SalesRecord :=
  mkSalesRecord (Some id) (Some date) (Some reg) (Some prod) (Some qty)
    (Some rev).

(** A record with its identifier replaced. *)
Definition with_id (id : string) (r : SalesRecord) : SalesRecord :=
  mkSalesRecord (Some id) (order_date r) (region r) (product r) (quantity r)
    (revenue r).

(** How many rows of a frame carry the index label [i]. *)
Definition member_count (i : nat) (df : DataFrame) : nat :=
  count_occ Nat.eq_dec (map fst df) i.

(** The quantity of a record is either absent or strictly positive. *)
Definition quantity_absent_or_positive (row : SalesRecord) : Prop :=
  match quantity row with
  | Some q => (0 < q)%Z
  | None => True
  end.

(** The division of the transform stage did not divide by zero: a divisor
    that is present is positive and the quotient of two present operands is
    a number; with an absent operand the quotient is NaN. *)
Definition no_zero_division (t : TransformedRecord) : Prop :=
  match t_quantity t, t_revenue t with
  | Some q, Some _ => (0 < q)%Z /\ exists v, revenue_per_unit t = Fin v
  | Some q, None => (0 < q)%Z /\ revenue_per_unit t = NaN
  | None, _ => revenue_per_unit t = NaN
  end.

(** A record that passes every rule but has no quantity. *)
Definition record_without_quantity : SalesRecord :=
  mkSalesRecord (Some "A") (Some "2024-01-05") (Some "North")
    (Some "Tomato Ketchup 500g") None (Some 10000%Z).

(** The date is missing or is the literal the categorizer knows. *)
Definition date_missing_or_sentinel (row : SalesRecord) : bool :=
  match order_date row with
  | None => true
  | Some s => String.eqb s "invalid_date"
  end.

(** The priority order of the categorizer, as far as it goes: [None] for
    a record that gets to the date test with a date string that is not the
    literal and does not parse, about which nothing is said here. *)
Definition priority_category `{PandasOps} (record : SalesRecord)
    : option ErrorCategory :=
  if violates IdentifierPresent record then Some MISSING_REQUIRED_FIELD
  else if violates NonNegativeRevenue record then Some BUSINESS_RULE_VIOLATION
  else if date_missing_or_sentinel record then Some DATA_FORMAT_ERROR
  else if violates DateValid record then None
  else if violates PositiveQuantity record then Some BUSINESS_RULE_VIOLATION
  else Some DATA_QUALITY_ISSUE.

(** A record with a zero quantity and no date. *)
Definition record_zero_quantity_no_date : SalesRecord :=
  mkSalesRecord (Some "A") None (Some "North") (Some "Paneer 200g")
    (Some 0%Z) (Some 10000%Z).

(** A record whose only defect is a date that does not parse. *)
Definition record_unparseable_date : SalesRecord :=
  rec "B" "31/31/2024" "North" "Paneer 200g" 2 5000.

(** What a summary row says, apart from its two time stamps. *)
Definition summary_values (r : SummaryRow)
    : string * string * string * Z * nat * Z :=
  (s_run_id r, s_region r, s_product r, total_revenue r, total_orders r,
   daily_sales r).

(** The rows of a frame in one region, and those whose product holds the
    first word of a reference product. *)
Definition region_rows (clean_df : DataFrame) (region_name : string)
    : DataFrame :=
  filter (fun ir => cell_eq (region (snd ir)) region_name) clean_df.

Definition product_rows (clean_df : DataFrame) (product_name : string)
    : DataFrame :=
  filter (fun ir => cell_contains (product (snd ir)) (first_word product_name))
    clean_df.

(** A file whose frame the raw table can take as it is: it has no column
    beyond the six, and each of its rows fits. *)
Definition storable_file (run_id source_file : string) (file : CsvFile)
    : bool :=
  forallb (fun col => in_list col original_columns) (columns file)
  && forallb (fits_raw_sales run_id source_file) (records file).

(** The product loop of [_generate_basic_analytics] can run on a frame:
    the frame has no rows, or its product column holds a string. *)
Definition product_loop_runs (clean_df : DataFrame) : bool :=
  match clean_df with
  | [] => true
  | _ :: _ => has_string (map (fun ir => product (snd ir)) clean_df)
  end.

(** The values of the rows [_generate_basic_analytics] writes: the grand
    total, then the five regions, then the five reference products. *)
Definition basic_values (run_id : string) (clean_df : DataFrame)
    : list (string * string * string * Z * nat * Z) :=
  (run_id, "ALL", "ALL", frame_revenue clean_df, List.length clean_df,
   frame_revenue clean_df)
  :: map (fun r => (run_id, r, "ALL", frame_revenue (region_rows clean_df r),
                    List.length (region_rows clean_df r),
                    frame_revenue (region_rows clean_df r))) regions
  ++ map (fun p => (run_id, "ALL", p, frame_revenue (product_rows clean_df p),
                    List.length (product_rows clean_df p),
                    frame_revenue (product_rows clean_df p))) products.

(** The rows a computation of summaries has to write (none when it
    raised), and what its caller returns. *)
Definition rows_of_result {A} (r : Result (list A)) : list A :=
  match r with Ok rows => rows | Raise _ => [] end.

Definition outcome_of {A} (r : Result A) : Result unit :=
  match r with Ok _ => Ok tt | Raise e => Raise e end.

(** The values of the rows [_generate_analytics_summaries] writes: the
    grand total, then one row per region present, per product present and
    per date present. *)
Definition analytics_values (run_id : string) (df : TransformedFrame)
    : list (string * string * string * Z * nat * Z) :=
  let rows := map snd df in
  (run_id, "ALL", "ALL", sum_cells (map t_revenue rows), List.length df,
   sum_cells (map t_revenue rows))
  :: map (fun g : string * Z * nat =>
            (run_id, fst (fst g), "ALL", snd (fst g), snd g, snd (fst g)))
       (groupby_agg String.compare t_region t_revenue t_order_id rows)
  ++ map (fun g : string * Z * nat =>
            (run_id, "ALL", fst (fst g), snd (fst g), snd g, snd (fst g)))
       (groupby_agg String.compare t_product t_revenue t_order_id rows)
  ++ map (fun g : Date * Z * nat =>
            (run_id, "ALL", "ALL", snd (fst g), snd g, snd (fst g)))
       (groupby_agg date_compare t_order_date t_revenue t_order_id rows).

(** A per-date row: region and product ALL, dated [d]. *)
Definition is_daily_row (d : Date) (r : SummaryRow) : Prop :=
  s_region r = "ALL" /\ s_product r = "ALL" /\ calculation_date r = d.

(** The world with its clock set to [c]. *)
Definition at_clock (c : Clock) (w : World) : World :=
  mkWorld (db w) (fs w) c (faults w).

(** Worlds for the examples: one source file, an empty database. *)
Definition world_of (file : CsvFile) (oracle : list (option string)) : World :=
  mkWorld empty_store
    (fun path => if String.eqb path "sales.csv" then Some file else None)
    example_clock oracle.

Definition north_row : SalesRecord :=
  rec "A" "2024-01-05" "North" "Tomato Ketchup 500g" 5 10000.

Definition north_file : CsvFile := mkCsvFile original_columns [north_row].

Definition north_transformed : TransformedFrame :=
  [(0%nat,
    mkTransformedRecord (Some "A") (Some (mkDate 2024 1 5)) (Some "North")
      (Some "Tomato Ketchup 500g") (Some 5%Z) (Some 10000%Z) (Fin 2000)
      "run1" (mkDateTime (mkDate 2024 6 1) 5))].

(** A file with the same identifier twice. *)
Definition duplicate_file : CsvFile :=
  mkCsvFile original_columns
    [north_row; rec "A" "2024-01-06" "North" "Paneer 200g" 3 6000].

(** The batch of the end-to-end scenario: two records with identifier A
    and one with an empty identifier. *)
Definition scenario_file : CsvFile :=
  mkCsvFile original_columns
    [rec "A" "2024-01-05" "North" "Tomato Ketchup 500g" 5 10000;
     rec "A" "2024-01-05" "North" "Tomato Ketchup 500g" 3 6000;
     mkSalesRecord None (Some "2024-01-05") (Some "South")
       (Some "Paneer 200g") (Some 2%Z) (Some 2000%Z)].

(** The count a failure breakdown holds for the control type [k]. *)
Definition key_total (k : string) (d : list (string * nat)) : nat :=
  list_sum (map snd (filter (fun p => String.eqb (fst p) k) d)).

(** Sums of a column of per-group results. *)
Definition sumZ (l : list Z) : Z := fold_right Z.add 0%Z l.

(** The rows of a frame whose key cell is not NaN. *)
Definition keyed {R K} (key : R -> option K) (df : list R) : list R :=
  filter (fun r => notna (key r)) df.

(** What it is for the rows [out] to summarise the frame [rows] by the key
    [key], the key of a summary row being its [label]: the labels are in
    strictly increasing order, they are the keys that occur in the frame,
    and the revenues and order counts of [out] add up to those of the rows
    that have a key. *)
Definition summarises {K} (cmp : K -> K -> comparison)
    (key : TransformedRecord -> option K) (label : SummaryRow -> K)
    (rows : list TransformedRecord) (out : list SummaryRow) : Prop :=
  StronglySorted (fun a b => cmp a b = Lt) (map label out) /\
  (forall k, In k (map label out) <-> exists t, In t rows /\ key t = Some k) /\
  sumZ (map total_revenue out) = sum_cells (map t_revenue (keyed key rows)) /\
  list_sum (map total_orders out)
  = count_cells (map t_order_id (keyed key rows)).

(** The cells the transformer copies from a clean row. *)
Definition copied_cells (idx : nat) (row : SalesRecord)
    : nat * option string * option string * option string * option Z * option Z :=
  (idx, order_id row, region row, product row, quantity row, revenue row).

Definition transformed_cells (it : nat * TransformedRecord)
    : nat * option string * option string * option string * option Z * option Z :=
  (fst it, t_order_id (snd it), t_region (snd it), t_product (snd it),
   t_quantity (snd it), t_revenue (snd it)).

(** [t'] is [t] followed by rows that all carry the run identifier. *)
Definition appended {A} (rid : A -> string) (run_id : string) (t t' : list A)
    : Prop :=
  exists added, t' = t ++ added /\ Forall (fun r => rid r = run_id) added.

(** What a run may do to the database: append rows of its own to the four
    accumulating tables, and leave the rows of every other run in the two
    replaced tables as they are. *)
Definition only_own_rows (run_id : string) (s s' : Store) : Prop :=
  appended raw_run_id run_id (raw_sales s) (raw_sales s') /\
  appended v_run_id run_id (validation_results s) (validation_results s') /\
  appended e_run_id run_id (exceptions s) (exceptions s') /\
  appended a_run_id run_id (audit_log s) (audit_log s') /\
  delete_run t_run_id run_id (clean_sales s')
  = delete_run t_run_id run_id (clean_sales s) /\
  delete_run s_run_id run_id (analytics_summary s')
  = delete_run s_run_id run_id (analytics_summary s).

(** A computation that, from any world, leaves the database so. *)
Definition confined (run_id : string) {A} (m : M A) : Prop :=
  forall w, only_own_rows run_id (db w) (db (snd (m w))).

(** The worlds a fault-free stage may leave: no fault pending, the same
    files. *)
Definition calm (w w' : World) : Prop := faults w' = [] /\ fs w' = fs w.

(** A computation that leaves a part of the database as it is, whatever it
    returns or raises. *)
Definition keeps {T A} (part : Store -> T) (m : M A) : Prop :=
  forall w, part (db (snd (m w))) = part (db w).

(** The records of a batch that violate a rule, under the index labels of
    the batch and in its order; and the records that violate none but are
    dropped by the duplicate check. *)
Definition rule_rejected `{PandasOps} (rows : list SalesRecord) : DataFrame :=
  filter (fun ir => match violated_rules (snd ir) with
                    | [] => false
                    | _ :: _ => true
                    end) (range_index rows).

Definition duplicate_dropped `{PandasOps} (rows : list SalesRecord)
    : DataFrame :=
  dropped_duplicates
    (filter (fun ir => match violated_rules (snd ir) with
                       | [] => true
                       | _ :: _ => false
                       end) (range_index rows)).

(** * Properties *)

(** ** The record validator *)

Section ValidatorFacts.

Context `{PandasOps}.

Ltac split_ifs :=
  repeat first
    [ progress cbv beta iota
    | match goal with
      | |- context [if ?b then _ else _] => destruct b eqn:?
      end ].

(** The date check only appends to the log. *)
Lemma _validate_date_appends d idx vr :
  _validate_date d idx vr = (date_ok d, vr ++ date_entries d idx).
Proof.
  unfold date_ok, date_entries, _validate_date, _log_validation_failure.
  destruct d as [s|]; [|reflexivity].
  destruct (String.eqb s "invalid_date"); [reflexivity|].
  destruct (to_datetime s); cbn [fst snd app]; now rewrite ?app_nil_r.
Qed.

Ltac run_row :=
  unfold validate_row, _log_validation_failure, _log_validation_success;
  repeat first
    [ progress cbv beta iota
    | rewrite _validate_date_appends
    | match goal with
      | |- context [if ?b then _ else _] => destruct b eqn:?
      end ].

(** The loop body only appends to the log, and neither the verdict nor the
    appended entries depend on what the log already holds. *)
Lemma validate_row_appends idx row vr :
  validate_row idx row vr = (accepted row, vr ++ row_entries idx row).
Proof.
  unfold accepted, row_entries. run_row; cbn [fst snd];
    rewrite <- ?app_assoc; cbn [app]; rewrite ?app_nil_r; reflexivity.
Qed.

Lemma id_check_spec (x : option string) :
  isna x || cell_eq x "" = missing_or_empty x.
Proof. now destruct x. Qed.

Lemma revenue_check_spec (x : option Z) :
  notna x && cell_ltz x
  = match x with Some v => (v <? 0)%Z | None => false end.
Proof. now destruct x. Qed.

Lemma quantity_check_spec (x : option Z) :
  notna x && cell_lez x
  = match x with Some v => (v <=? 0)%Z | None => false end.
Proof. now destruct x. Qed.

Lemma region_check_spec (x : option string) :
  notna x && cell_not_in x valid_regions
  = match x with
    | Some s => negb (existsb (String.eqb s) five_regions)
    | None => false
    end.
Proof. now destruct x. Qed.

(** The date check fails exactly when the date rule is violated, and then
    logs one FAILED entry of the date rule. *)
Lemma date_check_spec row idx :
  date_ok (order_date row) = negb (violates DateValid row) /\
  map record_id (date_entries (order_date row) idx)
  = (if violates DateValid row then [idx] else []) /\
  map is_failed (date_entries (order_date row) idx)
  = (if violates DateValid row then [true] else []) /\
  map (fun e => rule_of_control (control_type e))
    (date_entries (order_date row) idx)
  = (if violates DateValid row then [Some DateValid] else []).
Proof.
  unfold date_ok, date_entries, _validate_date, violates,
    _log_validation_failure.
  destruct (order_date row) as [s|]; [|repeat split].
  destruct (String.eqb s "invalid_date"); [repeat split|].
  destruct (to_datetime s); repeat split.
Qed.

Lemma reported_rules_app (l1 l2 : Log) :
  flat_map
    (fun e =>
       if is_failed e then
         match rule_of_control (control_type e) with
         | Some r => [r]
         | None => []
         end
       else []) (l1 ++ l2)
  = flat_map
      (fun e =>
         if is_failed e then
           match rule_of_control (control_type e) with
           | Some r => [r]
           | None => []
           end
         else []) l1
    ++ flat_map
         (fun e =>
            if is_failed e then
              match rule_of_control (control_type e) with
              | Some r => [r]
              | None => []
              end
            else []) l2.
Proof. apply flat_map_app. Qed.

Lemma reported_rules_date row idx :
  flat_map
    (fun e =>
       if is_failed e then
         match rule_of_control (control_type e) with
         | Some r => [r]
         | None => []
         end
       else []) (date_entries (order_date row) idx)
  = if violates DateValid row then [DateValid] else [].
Proof.
  destruct (date_check_spec row idx) as (_ & _ & F & R).
  destruct (date_entries (order_date row) idx) as [|e [|e' l]];
    destruct (violates DateValid row); try discriminate; [reflexivity|].
  cbn in F, R |- *. injection F as ->. injection R as ->. reflexivity.
Qed.

(** Case analysis on the six rules of one record, after the conditions of
    the loop body have been restated as rule violations. *)
Ltac row_cases row idx :=
  let D := fresh "D" in
  destruct (date_check_spec row idx) as (D & _);
  unfold accepted, validate_row;
  rewrite !id_check_spec, ?revenue_check_spec, ?quantity_check_spec,
    ?region_check_spec;
  change (missing_or_empty (order_id row)) with (violates IdentifierPresent row);
  change (missing_or_empty (region row)) with (violates RegionPresent row);
  change (match revenue row with Some v => (v <? 0)%Z | None => false end)
    with (violates NonNegativeRevenue row);
  change (match quantity row with Some v => (v <=? 0)%Z | None => false end)
    with (violates PositiveQuantity row);
  change (match region row with
          | Some s => negb (existsb (String.eqb s) five_regions)
          | None => false
          end) with (violates RegionMember row);
  unfold _log_validation_failure, _log_validation_success;
  destruct (violates DateValid row) eqn:?;
  repeat first
    [ progress cbv beta iota
    | rewrite _validate_date_appends
    | rewrite D
    | progress cbn [negb]
    | match goal with
      | |- context [if violates ?r row then _ else _] =>
          destruct (violates r row) eqn:?
      end ];
  cbn [negb fst snd].

Ltac use_violations :=
  repeat match goal with
         | E : violates _ _ = _ |- _ => rewrite E
         end.

(** The FAILED entries of a record name exactly the violated rules, each
    once, in rule order. *)
Lemma reported_rules_spec idx row :
  reported_rules idx row = violated_rules row.
Proof.
  unfold reported_rules, row_entries, violated_rules, all_rules.
  cbn [filter].
  row_cases row idx;
    rewrite ?reported_rules_app, ?reported_rules_date; use_violations;
    reflexivity.
Qed.

(** The loop body accepts a record exactly when no rule is violated. *)
Lemma accepted_spec row :
  accepted row = match violated_rules row with [] => true | _ => false end.
Proof.
  unfold violated_rules, all_rules. cbn [filter].
  row_cases row 0%nat; use_violations; reflexivity.
Qed.

(** An accepted record gets its PASSED entry and nothing else. *)
Lemma row_entries_accepted idx row :
  accepted row = true ->
  row_entries idx row
  = [mkValidationResult idx "RECORD_VALIDATION" "PASSED" PASSED None].
Proof.
  rewrite accepted_spec. unfold violated_rules, all_rules, row_entries.
  cbn [filter].
  destruct (date_check_spec row idx) as (_ & _ & F & _).
  row_cases row idx; use_violations; try discriminate.
  intros _.
  destruct (date_entries (order_date row) idx); [reflexivity|discriminate].
Qed.

(** A rejected record gets FAILED entries only: one per violated rule. *)
Lemma row_entries_rejected idx row :
  accepted row = false ->
  map is_failed (row_entries idx row)
  = repeat true (List.length (violated_rules row)).
Proof.
  rewrite accepted_spec. unfold violated_rules, all_rules, row_entries.
  cbn [filter].
  destruct (date_check_spec row idx) as (_ & _ & F & _).
  row_cases row idx; use_violations; try discriminate; intros _;
    rewrite ?map_app, F; reflexivity.
Qed.

(** Every entry of a record carries the record's index. *)
Lemma row_entries_record_id idx row :
  map record_id (row_entries idx row)
  = repeat idx (List.length (row_entries idx row)).
Proof.
  unfold row_entries.
  destruct (date_check_spec row idx) as (_ & R & _).
  row_cases row idx; rewrite ?length_app, ?map_app, ?R;
    rewrite <- ?(length_map record_id (date_entries _ _)), ?R;
    reflexivity.
Qed.

Lemma row_entries_length idx row :
  List.length (row_entries idx row)
  = ((if accepted row then 1 else 0) + List.length (violated_rules row))%nat.
Proof.
  destruct (accepted row) eqn:A.
  - rewrite (row_entries_accepted idx row A).
    rewrite accepted_spec in A.
    now destruct (violated_rules row).
  - rewrite <- (length_map is_failed), (row_entries_rejected idx row A).
    now rewrite repeat_length.
Qed.

Lemma reported_rule_complete idx row r :
  existsb (rule_eqb r) (reported_rules idx row) = violates r row.
Proof.
  rewrite reported_rules_spec. unfold violated_rules, all_rules.
  cbn [filter].
  destruct r;
    destruct (violates IdentifierPresent row), (violates RegionPresent row),
      (violates DateValid row), (violates NonNegativeRevenue row),
      (violates PositiveQuantity row), (violates RegionMember row);
    reflexivity.
Qed.

(** C6. One pass of the validation loop evaluates every rule of the rule
    set, whatever the other rules found: the FAILED entries it appends name
    exactly the violated rules (each rule is reported if and only if the
    record violates it), and the record is accepted if and only if no rule
    is violated. *)
Theorem validate_row_exhaustive (idx : nat) (row : SalesRecord) (vr : Log) :
  validate_row idx row vr = (accepted row, vr ++ row_entries idx row) /\
  reported_rules idx row = violated_rules row /\
  (forall r, existsb (rule_eqb r) (reported_rules idx row) = violates r row) /\
  (accepted row = true <-> violated_rules row = []).
Proof.
  split; [apply validate_row_appends|].
  split; [apply reported_rules_spec|].
  split; [intro r; apply reported_rule_complete|].
  rewrite accepted_spec. destruct (violated_rules row); split; congruence.
Qed.

(** The whole loop: the accepted rows, the rejected rows and the log, each
    in batch order. *)
Lemma validate_loop_spec df : forall valid invalid vr,
  validate_loop df valid invalid vr
  = (valid ++ filter (fun ir => accepted (snd ir)) df,
     invalid ++ filter (fun ir => negb (accepted (snd ir))) df,
     vr ++ flat_map (fun ir => row_entries (fst ir) (snd ir)) df).
Proof.
  induction df as [|[idx row] df IH]; intros valid invalid vr; cbn.
  - now rewrite !app_nil_r.
  - rewrite validate_row_appends.
    destruct (accepted row); cbn; rewrite IH, <- !app_assoc; reflexivity.
Qed.

Lemma validate_records_spec df vr :
  validate_records df vr
  = (filter (fun ir => accepted (snd ir)) df,
     filter (fun ir => negb (accepted (snd ir))) df,
     vr ++ flat_map (fun ir => row_entries (fst ir) (snd ir)) df).
Proof. unfold validate_records. now rewrite validate_loop_spec. Qed.

Lemma flat_map_entries_length df :
  List.length (flat_map (fun ir => row_entries (fst ir) (snd ir)) df)
  = (List.length (filter (fun ir => accepted (snd ir)) df)
     + list_sum (map (fun ir => List.length (violated_rules (snd ir))) df))%nat.
Proof.
  induction df as [|[idx row] df IH]; [reflexivity|].
  cbn [flat_map filter map list_sum fst snd].
  rewrite length_app, row_entries_length, IH.
  destruct (accepted row); cbn [List.length];
    unfold list_sum; cbn [fold_right]; fold (list_sum
      (map (fun ir : nat * SalesRecord =>
              List.length (violated_rules (snd ir))) df)); lia.
Qed.

(** C10. The record-validation pass appends, in batch order, one PASSED
    entry (and nothing else) for each accepted record and FAILED entries
    only, one per violated rule, for each rejected record; the number of
    entries it appends is the number of accepted records plus the number of
    rule violations of the batch. *)
Theorem validate_records_log_count (df : DataFrame) (vr0 : Log) :
  let '(valid, invalid, vr) := validate_records df vr0 in
  vr = vr0 ++ flat_map (fun ir => row_entries (fst ir) (snd ir)) df /\
  Forall (fun ir =>
            row_entries (fst ir) (snd ir)
            = [mkValidationResult (fst ir) "RECORD_VALIDATION" "PASSED"
                 PASSED None]) valid /\
  Forall (fun ir =>
            map is_failed (row_entries (fst ir) (snd ir))
            = repeat true (List.length (violated_rules (snd ir)))) invalid /\
  List.length vr
  = (List.length vr0 + List.length valid
     + list_sum (map (fun ir => List.length (violated_rules (snd ir))) df))%nat.
Proof.
  rewrite validate_records_spec. repeat split.
  - apply Forall_forall. intros ir [_ A]%filter_In.
    now apply row_entries_accepted.
  - apply Forall_forall. intros ir [_ A]%filter_In.
    apply row_entries_rejected. now destruct (accepted (snd ir)).
  - rewrite length_app, flat_map_entries_length. lia.
Qed.

End ValidatorFacts.

(** ** The duplicate check *)

Lemma duplicated_from_length df : forall seen,
  List.length (duplicated_from seen df) = List.length df.
Proof.
  induction df as [|[i r] df IH]; intros seen; cbn; [reflexivity|].
  now rewrite IH.
Qed.

Lemma duplicated_from_snoc df : forall seen ir,
  duplicated_from seen (df ++ [ir])
  = duplicated_from seen df
    ++ [existsb (key_eqb (order_id (snd ir))) (rev (keys_of df) ++ seen)].
Proof.
  induction df as [|[i r] df IH]; intros seen [j q]; cbn; [reflexivity|].
  rewrite IH. cbn. now rewrite <- app_assoc.
Qed.

Lemma existsb_rev_keys (p : option string -> bool) l :
  existsb p (rev l ++ []) = existsb p l.
Proof.
  rewrite app_nil_r. induction l as [|x l IH]; [reflexivity|].
  cbn. rewrite existsb_app, IH. cbn. rewrite orb_false_r. apply orb_comm.
Qed.

Lemma combine_snoc {A B} (l : list A) : forall (m : list B) x y,
  List.length m = List.length l ->
  combine (l ++ [x]) (m ++ [y]) = combine l m ++ [(x, y)].
Proof.
  induction l as [|a l IH]; intros [|b m] x y L; try discriminate L;
    cbn; [reflexivity|].
  rewrite IH; [reflexivity|]. now injection L.
Qed.

Lemma select_snoc df mask ir b :
  List.length mask = List.length df ->
  select (df ++ [ir]) (mask ++ [b]) = select df mask ++ (if b then [ir] else []).
Proof.
  intros L. unfold select.
  rewrite combine_snoc by exact L.
  rewrite filter_app, map_app. now destruct b.
Qed.

Lemma select_map (f : nat * SalesRecord -> bool) df :
  select df (map f df) = filter f df.
Proof.
  unfold select. induction df as [|x df IH]; [reflexivity|].
  cbn. destruct (f x); cbn; now rewrite IH.
Qed.

Lemma drop_duplicates_snoc df ir :
  drop_duplicates (df ++ [ir])
  = drop_duplicates df
    ++ (if existsb (key_eqb (order_id (snd ir))) (keys_of df) then [] else [ir]).
Proof.
  unfold drop_duplicates, duplicated_first.
  rewrite duplicated_from_snoc, map_app, existsb_rev_keys. cbn [map].
  rewrite select_snoc by now rewrite length_map, duplicated_from_length.
  now destruct (existsb _ _).
Qed.

Lemma dropped_duplicates_snoc df ir :
  dropped_duplicates (df ++ [ir])
  = dropped_duplicates df
    ++ (if existsb (key_eqb (order_id (snd ir))) (keys_of df) then [ir] else []).
Proof.
  unfold dropped_duplicates, duplicated_first.
  rewrite duplicated_from_snoc, existsb_rev_keys.
  now rewrite select_snoc by now rewrite duplicated_from_length.
Qed.

Lemma drop_duplicates_partition df :
  Permutation df (drop_duplicates df ++ dropped_duplicates df).
Proof.
  induction df as [|ir df IH] using rev_ind; [constructor|].
  rewrite drop_duplicates_snoc, dropped_duplicates_snoc.
  destruct (existsb _ _); rewrite ?app_nil_r.
  - rewrite app_assoc. now apply Permutation_app_tail.
  - rewrite <- app_assoc. apply Permutation_trans with
      (l' := (drop_duplicates df ++ dropped_duplicates df) ++ [ir]).
    + now apply Permutation_app_tail.
    + rewrite <- app_assoc. apply Permutation_app_head, Permutation_app_comm.
Qed.

Lemma duplicate_log (duplicates : DataFrame) : forall vr,
  fold_left
    (fun vr ir =>
       _log_validation_failure (fst ir) "DUPLICATE_CHECK" "DUPLICATE_ORDER_ID"
         ("Duplicate order ID: " ++ fmt_str (order_id (snd ir)))%string vr)
    duplicates vr
  = vr ++ map (fun ir =>
                 mkValidationResult (fst ir) "DUPLICATE_CHECK"
                   "DUPLICATE_ORDER_ID" FAILED
                   (Some ("Duplicate order ID: "
                          ++ fmt_str (order_id (snd ir)))%string)) duplicates.
Proof.
  induction duplicates as [|ir l IH]; intros vr; cbn.
  - now rewrite app_nil_r.
  - rewrite IH. unfold _log_validation_failure. now rewrite <- app_assoc.
Qed.

(** C7. Duplicate resolution is first-wins in batch order: going through
    the batch, a row is kept when its identifier has not occurred before and
    dropped otherwise; every row whose identifier occurs more than once,
    the kept first one included, gets a DUPLICATE_ORDER_ID entry in the log;
    for the identifiers A, B, A, A the first A and B are kept and the second
    and third A are dropped. *)
Theorem check_duplicates_first_wins (df : DataFrame) (vr : Log) :
  check_duplicates df vr
  = (drop_duplicates df,
     vr ++ map (fun ir =>
                  mkValidationResult (fst ir) "DUPLICATE_CHECK"
                    "DUPLICATE_ORDER_ID" FAILED
                    (Some ("Duplicate order ID: "
                           ++ fmt_str (order_id (snd ir)))%string))
             (filter (fun ir =>
                        (2 <=? occurrences (order_id (snd ir)) (keys_of df))%nat)
                     df)) /\
  (forall ir,
     drop_duplicates (df ++ [ir])
     = drop_duplicates df
       ++ (if existsb (key_eqb (order_id (snd ir))) (keys_of df)
           then [] else [ir])) /\
  (forall ir,
     dropped_duplicates (df ++ [ir])
     = dropped_duplicates df
       ++ (if existsb (key_eqb (order_id (snd ir))) (keys_of df)
           then [ir] else [])) /\
  Permutation df (drop_duplicates df ++ dropped_duplicates df) /\
  (forall a1 b a2 a3 : SalesRecord,
     let batch :=
       range_index [with_id "A" a1; with_id "B" b; with_id "A" a2;
                    with_id "A" a3] in
     drop_duplicates batch = [(0, with_id "A" a1); (1, with_id "B" b)]%nat /\
     dropped_duplicates batch = [(2, with_id "A" a2); (3, with_id "A" a3)]%nat /\
     map record_id (snd (check_duplicates batch [])) = [0; 2; 3]%nat).
Proof.
  split.
  { unfold check_duplicates, duplicated_all.
    now rewrite duplicate_log, select_map. }
  split; [intro; apply drop_duplicates_snoc|].
  split; [intro; apply dropped_duplicates_snoc|].
  split; [apply drop_duplicates_partition|].
  intros a1 b a2 a3. repeat split.
Qed.

(** ** Validation followed by the duplicate check *)

Section Partition.

Context `{PandasOps}.

Lemma range_index_labels (rows : list SalesRecord) : forall start,
  map fst (combine (seq start (List.length rows)) rows)
  = seq start (List.length rows).
Proof.
  induction rows as [|r rows IH]; intros start; cbn; [reflexivity|].
  now rewrite IH.
Qed.

Lemma range_index_length (rows : list SalesRecord) : List.length (range_index rows) = List.length rows.
Proof.
  unfold range_index. rewrite length_combine, length_seq. apply Nat.min_id.
Qed.

Lemma filter_partition {A} (f : A -> bool) l :
  Permutation l (filter f l ++ filter (fun x => negb (f x)) l).
Proof.
  induction l as [|x l IH]; [constructor|].
  cbn. destruct (f x); cbn.
  - now constructor.
  - now apply Permutation_cons_app.
Qed.

Lemma validate_and_dedup_spec df vr :
  validate_and_dedup df vr
  = (drop_duplicates (fst (fst (validate_records df vr))),
     snd (fst (validate_records df vr)),
     snd (check_duplicates (fst (fst (validate_records df vr)))
            (snd (validate_records df vr)))).
Proof.
  unfold validate_and_dedup.
  destruct (validate_records df vr) as [[clean invalid] vr'].
  reflexivity.
Qed.

(** C2. After record validation and the duplicate check every record of
    the batch is in exactly one of: kept, dropped as a duplicate, rejected;
    the three populations together are the batch, and their sizes add up to
    the size of the batch. *)
Theorem validation_dedup_partition (rows : list SalesRecord) (vr0 : Log) :
  let df := range_index rows in
  let clean := fst (fst (validate_records df vr0)) in
  let dropped := dropped_duplicates clean in
  let '(kept, rejected, _) := validate_and_dedup df vr0 in
  Permutation df (kept ++ dropped ++ rejected) /\
  (List.length kept + List.length dropped + List.length rejected
   = List.length rows)%nat /\
  Forall (fun ir =>
            (member_count (fst ir) kept + member_count (fst ir) dropped
             + member_count (fst ir) rejected = 1)%nat) df.
Proof.
  intros df clean dropped. rewrite validate_and_dedup_spec.
  fold clean. subst dropped.
  assert (P : Permutation df
                (drop_duplicates clean ++ dropped_duplicates clean
                 ++ snd (fst (validate_records df vr0)))).
  { subst clean. rewrite validate_records_spec. cbn [fst snd].
    rewrite app_assoc.
    eapply Permutation_trans; [apply (filter_partition
      (fun ir => accepted (snd ir)))|].
    apply Permutation_app_tail, drop_duplicates_partition. }
  split; [exact P|]. split.
  - apply Permutation_length in P.
    rewrite !length_app in P. subst df. rewrite range_index_length in P. lia.
  - apply Forall_forall. intros ir I.
    unfold member_count. rewrite <- !count_occ_app, <- !map_app, <- app_assoc.
    rewrite <- (proj1 (Permutation_count_occ Nat.eq_dec (map fst df) _)
                  (Permutation_map fst P)).
    apply NoDup_count_occ'.
    + subst df. unfold range_index. rewrite range_index_labels. apply seq_NoDup.
    + now apply in_map.
Qed.

End Partition.

(** ** What reaches the transformer *)

Section TransformInput.

Context `{PandasOps}.

Lemma accepted_no_violation row r :
  accepted row = true -> violates r row = false.
Proof.
  intros A. rewrite <- (reported_rule_complete 0 row r), reported_rules_spec.
  rewrite accepted_spec in A. now destruct (violated_rules row).
Qed.

Lemma select_incl df : forall mask ir, In ir (select df mask) -> In ir df.
Proof.
  unfold select. intros mask ir I.
  apply in_map_iff in I as ([x b] & <- & I). apply filter_In in I as [I _].
  now apply in_combine_l in I.
Qed.

Lemma kept_accepted df vr ir :
  In ir (fst (fst (validate_and_dedup df vr))) -> accepted (snd ir) = true.
Proof.
  rewrite validate_and_dedup_spec, validate_records_spec. cbn [fst snd].
  intros I. apply select_incl in I. now apply filter_In in I.
Qed.

Lemma to_datetime_cells_length col : forall cells dates,
  to_datetime_cells col cells = Ok dates ->
  List.length dates = List.length cells.
Proof.
  induction cells as [|x cells IH]; intros dates E; cbn in E.
  - injection E as <-. reflexivity.
  - destruct x as [s|].
    + destruct (to_datetime_cell col s) as [d|e]; [|discriminate E].
      destruct (to_datetime_cells col cells) as [ds|e]; [|discriminate E].
      injection E as <-. cbn. now rewrite (IH ds).
    + destruct (to_datetime_cells col cells) as [ds|e]; [|discriminate E].
      injection E as <-. cbn. now rewrite (IH ds).
Qed.

(** What [transform_frame] returns, when it returns: one row per clean
    row and converted date, stamped with one clock reading. *)
Lemma transform_frame_ok run_id clean c transformed :
  fst (transform_frame run_id clean c) = Ok transformed ->
  exists dates,
    to_datetime_column (map (fun ir => order_date (snd ir)) clean) = Ok dates
    /\ List.length dates = List.length clean
    /\ has_string (map (fun ir => region (snd ir)) clean) = true
    /\ transformed = map (transform_row run_id (c 0%nat)) (combine clean dates).
Proof.
  unfold transform_frame. intros E.
  destruct (to_datetime_column _) as [dates|e] eqn:D; [|discriminate E].
  destruct (has_string _) eqn:R; [|discriminate E].
  cbn in E. injection E as <-. exists dates. repeat split.
  apply to_datetime_cells_length in D. now rewrite D, length_map.
Qed.

Lemma accepted_quantity row :
  accepted row = true -> quantity_absent_or_positive row.
Proof.
  intros A. pose proof (accepted_no_violation row PositiveQuantity A) as V.
  unfold quantity_absent_or_positive. cbn in V.
  destruct (quantity row) as [q|]; [|exact I].
  apply Z.leb_gt in V. exact V.
Qed.

Lemma divide_round2_safe row run_id ts idx d :
  quantity_absent_or_positive row ->
  no_zero_division (snd (transform_row run_id ts (idx, row, d))).
Proof.
  unfold quantity_absent_or_positive, no_zero_division, transform_row,
    divide_round2.
  cbn [snd revenue_per_unit t_revenue t_quantity].
  destruct (revenue row) as [r|], (quantity row) as [q|]; intros Q;
    try reflexivity; try (split; [exact Q|reflexivity]).
  destruct (q =? 0)%Z eqn:E; [apply Z.eqb_eq in E; lia|].
  split; [exact Q|]. now exists (float_div_round2 r q).
Qed.

Lemma combine_map_fst {A B C} (f : A -> C) (l : list A) : forall (m : list B),
  List.length m = List.length l ->
  map (fun p => f (fst p)) (combine l m) = map f l.
Proof.
  induction l as [|x l IH]; intros [|y m] L; try discriminate L;
    [reflexivity|].
  cbn. rewrite IH; [reflexivity|]. now injection L.
Qed.

(** C3 (as the code has it). Every record that reaches the transformer has
    a quantity that is absent or strictly positive, never zero; so whenever
    the transformer builds its frame from these records, every row keeps
    its index and quantity and the division revenue / quantity has not
    divided by zero. *)
Theorem transformer_quantity_never_zero (rows : list SalesRecord) (vr0 : Log)
    (run_id : string) (c : Clock) :
  let kept := fst (fst (validate_and_dedup (range_index rows) vr0)) in
  Forall (fun ir => quantity_absent_or_positive (snd ir)) kept /\
  forall transformed,
    fst (transform_frame run_id kept c) = Ok transformed ->
    map (fun it => (fst it, t_quantity (snd it))) transformed
    = map (fun ir => (fst ir, quantity (snd ir))) kept /\
    Forall (fun it => no_zero_division (snd it)) transformed.
Proof.
  intros kept.
  assert (A : forall ir, In ir kept -> accepted (snd ir) = true)
    by (intros ir; apply kept_accepted).
  split.
  { apply Forall_forall. intros ir I. now apply accepted_quantity, A. }
  intros transformed E.
  apply transform_frame_ok in E as (dates & _ & L & _ & ->). split.
  - rewrite map_map.
    rewrite <- (combine_map_fst (fun ir => (fst ir, quantity (snd ir))) kept
                  dates L).
    apply map_ext. now intros [[idx row] d].
  - apply Forall_forall. intros it I.
    apply in_map_iff in I as ([[idx row] d] & <- & I).
    apply divide_round2_safe. apply in_combine_l in I.
    now apply accepted_quantity, (A (idx, row)).
Qed.

End TransformInput.

(** C3, as stated, fails: a record whose quantity is absent passes every
    rule, is kept, and reaches the transformer, which builds its row with a
    unit revenue that is NaN. *)
Lemma absent_quantity_reaches_transformer :
  quantity record_without_quantity = None /\
  fst (fst (@validate_and_dedup iso_pandas
              (range_index [record_without_quantity]) []))
  = [(0%nat, record_without_quantity)] /\
  match fst (@transform_frame iso_pandas "run"
               [(0%nat, record_without_quantity)] example_clock) with
  | Ok transformed =>
      map (fun it => (t_quantity (snd it), revenue_per_unit (snd it)))
        transformed
  | Raise _ => []
  end
  = [(None, NaN)].
Proof. repeat split. Qed.

(** ** The exception categorizer *)

Section Categorizer.

Context `{PandasOps}.

(** C1 (as the code has it). The categorizer returns one category, chosen
    in this order: MISSING_REQUIRED_FIELD when the identifier is missing or
    empty; otherwise BUSINESS_RULE_VIOLATION when the revenue is negative;
    otherwise DATA_FORMAT_ERROR when the date is missing or is the literal
    invalid_date; otherwise, for a record whose date parses,
    BUSINESS_RULE_VIOLATION when the quantity is not positive and
    DATA_QUALITY_ISSUE when it is. *)
Theorem categorize_priority (record : SalesRecord) :
  match priority_category record with
  | Some category => _categorize_error record = category
  | None => True
  end.
Proof.
  unfold priority_category, _categorize_error, date_missing_or_sentinel.
  rewrite id_check_spec, revenue_check_spec, quantity_check_spec.
  cbn [violates].
  destruct (missing_or_empty (order_id record)); [reflexivity|].
  destruct (revenue record) as [v|]; [destruct (v <? 0)%Z; [reflexivity|]|];
    (destruct (order_date record) as [s|]; [|reflexivity];
     cbn [isna cell_eq orb];
     destruct (String.eqb s "invalid_date"); [reflexivity|];
     cbn [orb]; destruct (to_datetime s); [|exact I];
     now destruct (quantity record) as [q|]; [destruct (q <=? 0)%Z|]).
Qed.

End Categorizer.

(** The identifier rule wins over a negative revenue. *)
Example missing_identifier_wins :
  _categorize_error
    (mkSalesRecord None (Some "2024-01-05") (Some "North") (Some "Paneer 200g")
       (Some 2%Z) (Some (-5000)%Z))
  = MISSING_REQUIRED_FIELD.
Proof. reflexivity. Qed.

(** C1, as stated, fails: with a zero quantity and a missing date the
    category is DATA_FORMAT_ERROR, not BUSINESS_RULE_VIOLATION. *)
Lemma categorize_not_claimed_priority :
  @violates iso_pandas PositiveQuantity record_zero_quantity_no_date = true /\
  @violates iso_pandas DateValid record_zero_quantity_no_date = true /\
  _categorize_error record_zero_quantity_no_date = DATA_FORMAT_ERROR /\
  DATA_FORMAT_ERROR <> BUSINESS_RULE_VIOLATION.
Proof. repeat split; discriminate. Qed.

(** A date string that does not parse is rejected by the validator's date
    check, but the categorizer does not look for it: with no other defect
    the record falls through to the last branch. *)
Example unparseable_date_falls_through :
  @violated_rules iso_pandas record_unparseable_date = [DateValid] /\
  map control_type (@row_entries iso_pandas 0 record_unparseable_date)
  = ["PARSE_ERROR"] /\
  _categorize_error record_unparseable_date = DATA_QUALITY_ISSUE /\
  @priority_category iso_pandas record_unparseable_date = None.
Proof. repeat split. Qed.

(** ** Aggregation *)

Lemma map_clock_fst {A B C} (f : A -> Clock -> B * Clock) (g : B -> C)
    (h : A -> C) :
  (forall x c, g (fst (f x c)) = h x) ->
  forall l c, map g (fst (map_clock f l c)) = map h l.
Proof.
  intros E l. induction l as [|x l IH]; intros c; cbn; [reflexivity|].
  specialize (E x c). destruct (f x c) as [y c1]. specialize (IH c1).
  destruct (map_clock f l c1) as [ys c2]. cbn in *. now rewrite E, IH.
Qed.

Lemma map_clock_length {A B} (f : A -> Clock -> B * Clock) l : forall c,
  List.length (fst (map_clock f l c)) = List.length l.
Proof.
  induction l as [|x l IH]; intros c; cbn; [reflexivity|].
  destruct (f x c) as [y c1]. specialize (IH c1).
  destruct (map_clock f l c1) as [ys c2]. cbn in *. now rewrite IH.
Qed.

Lemma basic_total_values run_id d clean c :
  summary_values (fst (basic_total run_id d clean c))
  = (run_id, "ALL", "ALL", frame_revenue clean, List.length clean,
     frame_revenue clean).
Proof. now destruct clean. Qed.

Lemma basic_region_values run_id d clean r c :
  summary_values (fst (basic_region run_id d clean r c))
  = (run_id, r, "ALL", frame_revenue (region_rows clean r),
     List.length (region_rows clean r), frame_revenue (region_rows clean r)).
Proof.
  unfold basic_region, region_rows. destruct clean as [|x clean]; [reflexivity|].
  now destruct (filter _ (x :: clean)).
Qed.

Lemma map_clock_raising_fst {A B C} (f : A -> Clock -> Result B * Clock)
    (g : B -> C) (h : A -> C) :
  (forall x c y, fst (f x c) = Ok y -> g y = h x) ->
  forall l c ys, fst (map_clock_raising f l c) = Ok ys -> map g ys = map h l.
Proof.
  intros E l. induction l as [|x l IH]; intros c ys; cbn.
  - intros [= <-]. reflexivity.
  - specialize (E x c). destruct (f x c) as [[y|e] c1]; [|discriminate].
    specialize (IH c1). destruct (map_clock_raising f l c1) as [[zs|e] c2];
      [|discriminate].
    cbn in *. intros [= <-]. cbn. now rewrite (E y), (IH zs).
Qed.

Lemma map_clock_raising_runs {A B} (f : A -> Clock -> Result B * Clock) l :
  (forall x c, exists y, fst (f x c) = Ok y) ->
  forall c, exists ys, fst (map_clock_raising f l c) = Ok ys.
Proof.
  intros T. induction l as [|x l IH]; intros c; cbn; [now exists []|].
  destruct (T x c) as (y & E). destruct (f x c) as [r c1]. cbn in E. subst r.
  destruct (IH c1) as (ys & E). destruct (map_clock_raising f l c1) as [r c2].
  cbn in E. subst r. now exists (y :: ys).
Qed.

Section BasicFacts.

Context `{PandasOps}.

Lemma basic_product_inv run_id d clean p c row :
  fst (basic_product run_id d clean p c) = Ok row ->
  summary_values row
  = (run_id, "ALL", p, frame_revenue (product_rows clean p),
     List.length (product_rows clean p), frame_revenue (product_rows clean p))
  /\ calculation_date row = d.
Proof.
  unfold basic_product, product_rows.
  destruct clean as [|x clean]; [now intros [= <-]|].
  destruct (has_string _); [|discriminate].
  destruct (filter _ (x :: clean)); now intros [= <-].
Qed.

Lemma basic_product_runs run_id d clean p c :
  product_loop_runs clean = true ->
  exists row, fst (basic_product run_id d clean p c) = Ok row.
Proof.
  unfold basic_product, product_loop_runs.
  destruct clean as [|x clean]; [now eexists|].
  intros ->. destruct (filter _ (x :: clean)); now eexists.
Qed.

Lemma basic_product_raises run_id d clean p c :
  product_loop_runs clean = false ->
  basic_product run_id d clean p c = (Raise str_accessor_error, c).
Proof.
  unfold basic_product, product_loop_runs.
  destruct clean as [|x clean]; [discriminate|]. now intros ->.
Qed.

(** What [basic_summaries] returns, when it returns. *)
Lemma basic_summaries_inv run_id clean c out :
  fst (basic_summaries run_id clean c) = Ok out ->
  map summary_values out = basic_values run_id clean /\
  map calculation_date out = repeat (dt_date (c 0%nat)) 11.
Proof.
  unfold basic_summaries, basic_values, now.
  pose proof (basic_total_values run_id (dt_date (c 0%nat)) clean
                (fun n => c (S n))) as T.
  assert (T' : forall c', calculation_date
                 (fst (basic_total run_id (dt_date (c 0%nat)) clean c'))
               = dt_date (c 0%nat)) by reflexivity.
  specialize (T' (fun n => c (S n))).
  destruct (basic_total _ _ _ _) as [t c1]. cbn [fst] in T, T'.
  pose proof (map_clock_fst (basic_region run_id (dt_date (c 0%nat)) clean)
                summary_values _
                (basic_region_values run_id (dt_date (c 0%nat)) clean)
                regions c1) as R.
  assert (R' : forall r c', calculation_date
                 (fst (basic_region run_id (dt_date (c 0%nat)) clean r c'))
               = dt_date (c 0%nat)).
  { intros r c'. unfold basic_region. destruct clean as [|x clean];
      [reflexivity|]. now destruct (filter _ (x :: clean)). }
  pose proof (map_clock_fst _ calculation_date _ R' regions c1) as R''.
  destruct (map_clock _ regions c1) as [rs c2]. cbn [fst] in R, R''.
  pose proof (map_clock_raising_fst
                (basic_product run_id (dt_date (c 0%nat)) clean)
                summary_values _
                (fun p c' row E => proj1 (basic_product_inv _ _ _ p c' row E))
                products c2) as P.
  pose proof (map_clock_raising_fst
                (basic_product run_id (dt_date (c 0%nat)) clean)
                calculation_date (fun _ => dt_date (c 0%nat))
                (fun p c' row E => proj2 (basic_product_inv _ _ _ p c' row E))
                products c2) as P'.
  destruct (map_clock_raising _ products c2) as [[ps|e] c3]; [|discriminate].
  specialize (P ps eq_refl). specialize (P' ps eq_refl).
  cbn [fst]. intros [= <-]. cbn [map]. rewrite !map_app.
  rewrite T, T', R, R'', P, P'. split; reflexivity.
Qed.

Lemma basic_summaries_runs run_id clean c :
  product_loop_runs clean = true ->
  exists out, fst (basic_summaries run_id clean c) = Ok out.
Proof.
  intros P. unfold basic_summaries, now.
  destruct (basic_total _ _ _ _) as [t c1].
  destruct (map_clock _ regions c1) as [rs c2].
  destruct (map_clock_raising_runs
              (basic_product run_id (dt_date (c 0%nat)) clean) products
              (fun p c' => basic_product_runs _ _ _ p c' P) c2) as (ps & E).
  destruct (map_clock_raising _ products c2) as [r c3]. cbn in E. subst r.
  now eexists.
Qed.

Lemma basic_summaries_raises run_id clean c :
  product_loop_runs clean = false ->
  fst (basic_summaries run_id clean c) = Raise str_accessor_error.
Proof.
  intros P. unfold basic_summaries, now.
  destruct (basic_total _ _ _ _) as [t c1].
  destruct (map_clock _ regions c1) as [rs c2].
  unfold products. cbn [map_clock_raising].
  now rewrite (basic_product_raises _ _ _ _ _ P).
Qed.

Lemma basic_summaries_run_id run_id clean c out :
  fst (basic_summaries run_id clean c) = Ok out ->
  Forall (fun r => s_run_id r = run_id) out.
Proof.
  intros E. apply basic_summaries_inv in E as [V _].
  assert (F : Forall (fun v : string * string * string * Z * nat * Z =>
                        fst (fst (fst (fst (fst v)))) = run_id)
                (basic_values run_id clean)).
  { unfold basic_values. constructor; [reflexivity|].
    apply Forall_app. split; apply Forall_map, Forall_forall; reflexivity. }
  rewrite <- V in F. apply Forall_map in F. exact F.
Qed.

End BasicFacts.

(** ** The stages in a world where no operation fails *)

Lemma external_ok w : faults w = [] -> external w = (Ok tt, w).
Proof. intros F. unfold external. now rewrite F. Qed.

Lemma rows_of_run_replace {A} (rid : A -> string) run_id (t rows : list A) :
  Forall (fun r => rid r = run_id) rows ->
  rows_of_run rid run_id (delete_run rid run_id t ++ rows) = rows.
Proof.
  intros R. unfold rows_of_run, delete_run. rewrite filter_app.
  replace (filter _ (filter _ t)) with (@nil A).
  - cbn. induction R as [|r rows E _ IH]; [reflexivity|].
    cbn. rewrite E, String.eqb_refl. now rewrite IH.
  - induction t as [|r t IH]; [reflexivity|].
    cbn. destruct (String.eqb (rid r) run_id) eqn:E; cbn; [exact IH|].
    now rewrite E.
Qed.

Lemma delete_run_replace {A} (rid : A -> string) run_id (t rows : list A) :
  Forall (fun r => rid r = run_id) rows ->
  delete_run rid run_id (delete_run rid run_id t ++ rows)
  = delete_run rid run_id t.
Proof.
  intros R. unfold delete_run. rewrite filter_app.
  replace (filter _ rows) with (@nil A).
  - rewrite app_nil_r. induction t as [|r t IH]; [reflexivity|].
    cbn. destruct (String.eqb (rid r) run_id) eqn:E; cbn; [exact IH|].
    now rewrite E, IH.
  - induction R as [|r rows E _ IH]; [reflexivity|].
    cbn. rewrite E, String.eqb_refl. exact IH.
Qed.

Lemma values_run_id run_id (rows : list SummaryRow)
    (vals : list (string * string * string * Z * nat * Z)) :
  map summary_values rows = vals ->
  Forall (fun v => fst (fst (fst (fst (fst v)))) = run_id) vals ->
  Forall (fun r => s_run_id r = run_id) rows.
Proof.
  intros <- F. apply Forall_map in F. exact F.
Qed.

Lemma analytics_summaries_values run_id df c :
  map summary_values (fst (analytics_summaries run_id df c))
  = analytics_values run_id df.
Proof.
  unfold analytics_summaries, analytics_values, now.
  set (c0 := fun n => c (S (S n))).
  pose proof (map_clock_fst (group_summary_region run_id) summary_values
                (fun g => (run_id, fst (fst g), "ALL", snd (fst g), snd g,
                           snd (fst g)))) as R.
  specialize (R (fun g c => match g with (k, r, n) => eq_refl end)).
  specialize (R (groupby_agg String.compare t_region t_revenue t_order_id
                   (map snd df)) c0).
  destruct (map_clock (group_summary_region run_id) _ c0) as [rs c1].
  pose proof (map_clock_fst (group_summary_product run_id) summary_values
                (fun g => (run_id, "ALL", fst (fst g), snd (fst g), snd g,
                           snd (fst g)))) as P.
  specialize (P (fun g c => match g with (k, r, n) => eq_refl end)).
  specialize (P (groupby_agg String.compare t_product t_revenue t_order_id
                   (map snd df)) c1).
  destruct (map_clock (group_summary_product run_id) _ c1) as [ps c2].
  pose proof (map_clock_fst (group_summary_daily run_id) summary_values
                (fun g => (run_id, "ALL", "ALL", snd (fst g), snd g,
                           snd (fst g)))) as D.
  specialize (D (fun g c => match g with (k, r, n) => eq_refl end)).
  specialize (D (groupby_agg date_compare t_order_date t_revenue t_order_id
                   (map snd df)) c2).
  destruct (map_clock (group_summary_daily run_id) _ c2) as [ds c3].
  cbn [fst] in *. rewrite !map_app. cbn [app map].
  now rewrite R, P, D, <- app_assoc.
Qed.

Lemma analytics_summaries_run_id run_id df c :
  Forall (fun r => s_run_id r = run_id) (fst (analytics_summaries run_id df c)).
Proof.
  apply (values_run_id _ _ _ (analytics_summaries_values run_id df c)).
  unfold analytics_values. constructor; [reflexivity|].
  repeat (apply Forall_app; split); apply Forall_map, Forall_forall;
    reflexivity.
Qed.

Lemma date_compare_eq a b : date_compare a b = Eq -> a = b.
Proof.
  destruct a as [y m d], b as [y' m' d']. unfold date_compare. cbn.
  destruct (Nat.compare_spec y y'); try discriminate.
  destruct (Nat.compare_spec m m'); try discriminate.
  destruct (Nat.compare_spec d d'); try discriminate.
  intros _. congruence.
Qed.

Lemma insert_key_in {K} (cmp : K -> K -> comparison) k x l :
  (forall a b, cmp a b = Eq -> a = b) ->
  In x (k :: l) -> In x (insert_key cmp k l).
Proof.
  intros E. induction l as [|y l IH]; cbn; [tauto|].
  destruct (cmp k y) eqn:C; cbn.
  - apply E in C. subst y. tauto.
  - tauto.
  - intros [->|[->|I]]; [right; apply IH; now left|now left|].
    right. apply IH. now right.
Qed.

Lemma group_keys_in {R K} (cmp : K -> K -> comparison) (key : R -> option K)
    (df : list R) r k :
  (forall a b, cmp a b = Eq -> a = b) ->
  In r df -> key r = Some k -> In k (group_keys cmp key df).
Proof.
  intros E. induction df as [|x df IH]; [contradiction|].
  intros [->|I] Kr; cbn.
  - rewrite Kr. apply insert_key_in; [exact E|now left].
  - specialize (IH I Kr). destruct (key x); [|exact IH].
    apply insert_key_in; [exact E|now right].
Qed.

(** The transformer's summaries hold a per-date row for every date of the
    batch. *)
Lemma analytics_summaries_daily run_id df c it d :
  In it df -> t_order_date (snd it) = Some d ->
  exists r, In r (fst (analytics_summaries run_id df c)) /\ is_daily_row d r.
Proof.
  intros I D. unfold analytics_summaries, now.
  set (c0 := fun n => c (S (S n))).
  destruct (map_clock (group_summary_region run_id) _ c0) as [rs c1].
  destruct (map_clock (group_summary_product run_id) _ c1) as [ps c2].
  pose proof (map_clock_fst (group_summary_daily run_id)
                (fun r => (s_region r, s_product r, calculation_date r))
                (fun g => ("ALL", "ALL", fst (fst g)))) as M.
  specialize (M (fun g c => match g with (k, r, n) => eq_refl end)).
  specialize (M (groupby_agg date_compare t_order_date t_revenue t_order_id
                   (map snd df)) c2).
  destruct (map_clock (group_summary_daily run_id) _ c2) as [ds c3].
  cbn [fst] in *.
  assert (K : In ("ALL", "ALL", d)
                (map (fun r => (s_region r, s_product r, calculation_date r))
                   ds)).
  { rewrite M. unfold groupby_agg. rewrite map_map. cbn [fst].
    apply in_map_iff. exists d. split; [reflexivity|].
    apply (group_keys_in date_compare t_order_date (map snd df) (snd it));
      [apply date_compare_eq|now apply in_map|exact D]. }
  apply in_map_iff in K as (r & E & Ir). exists r. split.
  - apply in_or_app. now right.
  - injection E as E1 E2 E3. now repeat split.
Qed.

Section Stages.

Context `{PandasOps}.

(** The orchestrator's aggregation in a world that refuses nothing: the
    run's rows are deleted, and replaced when the summaries are computed. *)
Lemma basic_analytics_calm run_id raw clean invalid w :
  faults w = [] ->
  _generate_basic_analytics run_id raw clean invalid w
  = (outcome_of (fst (basic_summaries run_id clean (clock w))),
     mkWorld
       (set_analytics_summary
          (fun t => delete_run s_run_id run_id t
                    ++ rows_of_result
                         (fst (basic_summaries run_id clean (clock w))))
          (db w))
       (fs w) (snd (basic_summaries run_id clean (clock w))) []).
Proof.
  intros F. unfold _generate_basic_analytics, bind, update_db, with_clock_try.
  rewrite (external_ok w F). cbn [clock db fs faults].
  pose proof (basic_summaries_inv run_id clean (clock w)) as V.
  destruct (basic_summaries run_id clean (clock w)) as [[out|e] c'];
    cbn [fst snd outcome_of rows_of_result].
  - destruct (V out eq_refl) as [V' _]. destruct out as [|s rows];
      [discriminate V'|].
    unfold external. cbn [faults clock db fs fst snd]. rewrite F.
    reflexivity.
  - unfold set_analytics_summary. cbn [analytics_summary].
    now rewrite app_nil_r, F.
Qed.

Lemma basic_rows_run_id run_id clean c :
  Forall (fun r => s_run_id r = run_id)
    (rows_of_result (fst (basic_summaries run_id clean c))).
Proof.
  pose proof (basic_summaries_run_id run_id clean c) as R.
  destruct (fst (basic_summaries run_id clean c)) as [out|e]; cbn;
    [now apply R|constructor].
Qed.

(** Whether the summaries are computed, and their values, do not depend on
    the clock. *)
Lemma basic_rows_values run_id clean c :
  outcome_of (fst (basic_summaries run_id clean c))
  = (if product_loop_runs clean then Ok tt else Raise str_accessor_error) /\
  map summary_values (rows_of_result (fst (basic_summaries run_id clean c)))
  = (if product_loop_runs clean then basic_values run_id clean else []).
Proof.
  destruct (product_loop_runs clean) eqn:P.
  - destruct (basic_summaries_runs run_id clean c P) as (out & E).
    rewrite E. cbn. split; [reflexivity|].
    now apply basic_summaries_inv in E.
  - now rewrite (basic_summaries_raises run_id clean c P).
Qed.

Lemma analytics_summaries_ok run_id df w :
  faults w = [] ->
  _generate_analytics_summaries run_id df w
  = (Ok tt,
     mkWorld
       (set_analytics_summary
          (fun t => delete_run s_run_id run_id t
                    ++ fst (analytics_summaries run_id df (clock w))) (db w))
       (fs w) (snd (analytics_summaries run_id df (clock w))) []).
Proof.
  intros F. unfold _generate_analytics_summaries, bind, update_db, with_clock.
  destruct (analytics_summaries run_id df (clock w)) as [rows c'].
  unfold external. cbn [faults clock db fs fst snd]. rewrite F.
  reflexivity.
Qed.

(** C9. Running either aggregation step a second time for the same run
    identifier and input replaces the run's rows: the values of the run's
    rows are those of the first run (none twice, none changed), the rows of
    other runs are untouched, and under the same clock readings the whole
    table is the one a single run leaves. The transformer's step returns
    both times; the orchestrator's step ends the second time as it did the
    first, and it returns whenever its product loop can run. *)
Theorem aggregation_rerun_replaces (run_id : string) (df : TransformedFrame)
    (raw clean invalid : DataFrame) (w : World) :
  faults w = [] ->
  let agg := _generate_analytics_summaries run_id df in
  let basic := _generate_basic_analytics run_id raw clean invalid in
  let run_rows := fun w' =>
    rows_of_run s_run_id run_id (analytics_summary (db w')) in
  let other_rows := fun w' =>
    delete_run s_run_id run_id (analytics_summary (db w')) in
  (fst (agg (snd (agg w))) = Ok tt /\
   map summary_values (run_rows (snd (agg (snd (agg w)))))
   = map summary_values (run_rows (snd (agg w))) /\
   other_rows (snd (agg (snd (agg w)))) = other_rows (snd (agg w)) /\
   analytics_summary (db (snd (agg (at_clock (clock w) (snd (agg w))))))
   = analytics_summary (db (snd (agg w)))) /\
  (fst (basic (snd (basic w))) = fst (basic w) /\
   (product_loop_runs clean = true -> fst (basic w) = Ok tt) /\
   map summary_values (run_rows (snd (basic (snd (basic w)))))
   = map summary_values (run_rows (snd (basic w))) /\
   other_rows (snd (basic (snd (basic w)))) = other_rows (snd (basic w)) /\
   analytics_summary (db (snd (basic (at_clock (clock w) (snd (basic w))))))
   = analytics_summary (db (snd (basic w)))).
Proof.
  intros F agg basic run_rows other_rows. subst agg basic run_rows other_rows.
  cbv beta. split.
  - rewrite (analytics_summaries_ok run_id df w F).
    cbn [snd]. rewrite !analytics_summaries_ok by reflexivity.
    cbn [fst snd db analytics_summary set_analytics_summary clock at_clock].
    rewrite !rows_of_run_replace by apply analytics_summaries_run_id.
    rewrite !delete_run_replace by apply analytics_summaries_run_id.
    rewrite !analytics_summaries_values. repeat split.
  - rewrite (basic_analytics_calm run_id raw clean invalid w F).
    cbn [snd]. rewrite !basic_analytics_calm by reflexivity.
    cbn [fst snd db analytics_summary set_analytics_summary clock at_clock].
    rewrite !rows_of_run_replace by apply basic_rows_run_id.
    rewrite !delete_run_replace by apply basic_rows_run_id.
    rewrite !(proj1 (basic_rows_values run_id clean _)).
    rewrite !(proj2 (basic_rows_values run_id clean _)).
    repeat split. now intros ->.
Qed.

(** C4 (as the code has it). When the transformer's aggregation and then
    the orchestrator's aggregation run for a run identifier, on a batch in
    which some record has a product, the transformer writes a per-date row
    for every date of its batch, and the orchestrator's step replaces the
    run's rows by eleven rows dated with the current date: the grand total
    (ALL, ALL), one row per region of the five-region list and one row per
    product of the reference list, with zero revenue and zero count where
    nothing matches. *)
Theorem final_summaries_zero_filled (run_id : string) (df : TransformedFrame)
    (raw clean invalid : DataFrame) (w : World) :
  faults w = [] ->
  has_string (map (fun ir => product (snd ir)) clean) = true ->
  let w1 := snd (_generate_analytics_summaries run_id df w) in
  let w2 := snd (_generate_basic_analytics run_id raw clean invalid w1) in
  let out := rows_of_run s_run_id run_id (analytics_summary (db w2)) in
  Forall (fun it =>
            match t_order_date (snd it) with
            | Some d =>
                exists r,
                  In r (rows_of_run s_run_id run_id
                          (analytics_summary (db w1)))
                  /\ is_daily_row d r
            | None => True
            end) df /\
  map summary_values out = basic_values run_id clean /\
  map calculation_date out = repeat (dt_date (clock w1 0%nat)) 11 /\
  Forall (fun r =>
            region_rows clean r = [] ->
            In (run_id, r, "ALL", 0%Z, 0%nat, 0%Z) (map summary_values out))
    regions /\
  Forall (fun p =>
            product_rows clean p = [] ->
            In (run_id, "ALL", p, 0%Z, 0%nat, 0%Z) (map summary_values out))
    products.
Proof.
  intros F P w1 w2 out. subst w1 w2 out.
  assert (L : product_loop_runs clean = true).
  { destruct clean as [|x clean]; [discriminate P|exact P]. }
  rewrite (analytics_summaries_ok run_id df w F). cbn [snd].
  rewrite basic_analytics_calm by reflexivity.
  cbn [fst snd db analytics_summary set_analytics_summary clock].
  rewrite !rows_of_run_replace
    by first [apply basic_rows_run_id|apply analytics_summaries_run_id].
  destruct (basic_summaries_runs run_id clean
              (snd (analytics_summaries run_id df (clock w))) L) as (out & E).
  rewrite E. cbn [rows_of_result].
  apply basic_summaries_inv in E as [V D]. rewrite V, D.
  split.
  { apply Forall_forall. intros it I.
    destruct (t_order_date (snd it)) as [d|] eqn:T; [|exact Logic.I].
    now apply (analytics_summaries_daily run_id df (clock w) it d). }
  split; [reflexivity|]. split; [reflexivity|]. split.
  - apply Forall_forall. intros r I E. unfold basic_values. right.
    apply in_or_app. left. apply in_map_iff. exists r. now rewrite E.
  - apply Forall_forall. intros p I E. unfold basic_values. right.
    apply in_or_app. right. apply in_map_iff. exists p. now rewrite E.
Qed.

End Stages.

Lemma aggregation_rerun_replaces_witness :
  faults (world_of north_file []) = [] /\
  map summary_values
    (rows_of_run s_run_id "run1"
       (analytics_summary
          (db (snd (@_generate_basic_analytics iso_pandas "run1" []
                      [(0%nat, north_row)] []
                      (snd (@_generate_basic_analytics iso_pandas "run1" []
                              [(0%nat, north_row)] []
                              (world_of north_file [])))))))) 
  = basic_values "run1" [(0%nat, north_row)].
Proof.
  split; [reflexivity|].
  destruct (@aggregation_rerun_replaces iso_pandas "run1" north_transformed []
              [(0%nat, north_row)] [] (world_of north_file []) eq_refl)
    as (_ & _ & _ & V & _).
  cbv beta zeta in V. rewrite V. reflexivity.
Defined.

Lemma final_summaries_zero_filled_witness :
  faults (world_of north_file []) = [] /\
  has_string (map (fun ir => product (snd ir)) [(0%nat, north_row)]) = true /\
  let w1 := snd (_generate_analytics_summaries "run1" north_transformed
                   (world_of north_file [])) in
  let w2 := snd (@_generate_basic_analytics iso_pandas "run1" []
                   [(0%nat, north_row)] [] w1) in
  map summary_values
    (rows_of_run s_run_id "run1" (analytics_summary (db w2)))
  = [("run1", "ALL", "ALL", 10000%Z, 1%nat, 10000%Z);
     ("run1", "North", "ALL", 10000%Z, 1%nat, 10000%Z);
     ("run1", "South", "ALL", 0%Z, 0%nat, 0%Z);
     ("run1", "East", "ALL", 0%Z, 0%nat, 0%Z);
     ("run1", "West", "ALL", 0%Z, 0%nat, 0%Z);
     ("run1", "Central", "ALL", 0%Z, 0%nat, 0%Z);
     ("run1", "ALL", "Tomato Ketchup 500g", 10000%Z, 1%nat, 10000%Z);
     ("run1", "ALL", "Chicken Biryani Ready Meal", 0%Z, 0%nat, 0%Z);
     ("run1", "ALL", "Paneer 200g", 0%Z, 0%nat, 0%Z);
     ("run1", "ALL", "Potato Chips 50g", 0%Z, 0%nat, 0%Z);
     ("run1", "ALL", "Mango Juice 1L", 0%Z, 0%nat, 0%Z)].
Proof.
  split; [reflexivity|]. split; [reflexivity|].
  destruct (@final_summaries_zero_filled iso_pandas "run1" north_transformed
              [] [(0%nat, north_row)] [] (world_of north_file []) eq_refl
              eq_refl)
    as (_ & V & _).
  cbv beta zeta in V |- *. rewrite V. reflexivity.
Defined.

(** C4, as stated, fails: after a whole run over a batch of one North
    record dated 2024-01-05 the run's summaries are the eleven rows of the
    orchestrator's step, all dated with the day of the run (2024-06-01);
    there is no row for the date of the data. *)
Lemma no_daily_row_after_run :
  let result := @run_pipeline iso_pandas "run1" "sales.csv"
                  (world_of north_file []) in
  option_map rs_status
    (match fst result with Ok s => Some s | Raise _ => None end)
  = Some "SUCCESS" /\
  map t_order_date (clean_sales (db (snd result)))
  = [Some (mkDate 2024 1 5)] /\
  map (fun r => (s_region r, s_product r, calculation_date r))
    (rows_of_run s_run_id "run1" (analytics_summary (db (snd result))))
  = [("ALL", "ALL", mkDate 2024 6 1);
     ("North", "ALL", mkDate 2024 6 1);
     ("South", "ALL", mkDate 2024 6 1);
     ("East", "ALL", mkDate 2024 6 1);
     ("West", "ALL", mkDate 2024 6 1);
     ("Central", "ALL", mkDate 2024 6 1);
     ("ALL", "Tomato Ketchup 500g", mkDate 2024 6 1);
     ("ALL", "Chicken Biryani Ready Meal", mkDate 2024 6 1);
     ("ALL", "Paneer 200g", mkDate 2024 6 1);
     ("ALL", "Potato Chips 50g", mkDate 2024 6 1);
     ("ALL", "Mango Juice 1L", mkDate 2024 6 1)].
Proof. vm_compute. repeat split. Qed.

(** ** The exception handler *)

Lemma unique_label {A} (l : list (nat * A)) i a b :
  NoDup (map fst l) -> In (i, a) l -> In (i, b) l -> a = b.
Proof.
  induction l as [|[j x] l IH]; [contradiction|].
  cbn. intros N Ia Ib. inversion N as [|? ? Nj Nl]; subst.
  destruct Ia as [Ea|Ia], Ib as [Eb|Ib].
  - congruence.
  - injection Ea as -> ->. exfalso. apply Nj.
    change i with (fst (i, b)). now apply in_map.
  - injection Eb as -> ->. exfalso. apply Nj.
    change i with (fst (i, a)). now apply in_map.
  - now apply IH.
Qed.

Lemma map_pair_id {A B} (l : list (A * B)) :
  map (fun x => (fst x, snd x)) l = l.
Proof. induction l as [|[a b] l IH]; cbn; now rewrite ?IH. Qed.

Section Exceptions.

Context `{PandasOps}.

Lemma exception_data_rows run_id stg invalid c :
  map (fun e => (original_record_id e, raw_data e))
    (fst (exception_data run_id stg invalid c))
  = invalid.
Proof.
  unfold exception_data.
  rewrite (map_clock_fst (exception_record run_id stg)
             (fun e => (original_record_id e, raw_data e))
             (fun ir => (fst ir, snd ir))) by reflexivity.
  apply map_pair_id.
Qed.

Lemma exception_data_fields run_id stg invalid : forall c,
  Forall (fun e =>
            e_run_id e = run_id
            /\ error_category e = _categorize_error (raw_data e)
            /\ error_details e = _generate_error_details (raw_data e)
            /\ pipeline_stage e = stg)
    (fst (exception_data run_id stg invalid c)).
Proof.
  unfold exception_data.
  induction invalid as [|ir l IH]; intros c; cbn; [constructor|].
  specialize (IH (fun n => c (S n))).
  destruct (map_clock _ l _) as [es c']. cbn in *.
  constructor; [now repeat split|exact IH].
Qed.

End Exceptions.

(** ** The orchestrator *)

Lemma bind_ok_inv {A B} (m : M A) (k : A -> M B) w b w' :
  bind m k w = (Ok b, w') ->
  exists a w1, m w = (Ok a, w1) /\ k a w1 = (Ok b, w').
Proof.
  unfold bind. destruct (m w) as [[a|e] w1]; [|discriminate].
  intros E. now exists a, w1.
Qed.

(** The audit logger never raises: a failed write is caught inside. *)
Lemma _log_to_db_total run_id event description count w :
  exists w', _log_to_db run_id event description count w = (Ok tt, w').
Proof.
  unfold _log_to_db, try_except, bind, external, with_clock, update_db, ret.
  destruct (faults w) as [|[e|] rest]; cbn; eauto.
Qed.


Section Orchestrator.

Context `{PandasOps}.


End Orchestrator.

(** A run over a missing file: the summary is FAILED with the error of the
    read, and the fallback leaves the eleven zero rows. *)
Example run_on_missing_file :
  let result := @run_pipeline iso_pandas "run1" "nofile.csv"
                  (world_of north_file []) in
  fst result
  = Ok (Failure "run1" "[Errno 2] No such file or directory: 'nofile.csv'") /\
  map summary_values (analytics_summary (db (snd result)))
  = basic_values "run1" [].
Proof. vm_compute. repeat split. Qed.

(** A run in which the database fails for good after the ingestion:
    saving the validation results raises, the fallback raises too, and the
    run still returns a FAILED summary. *)
Example run_with_failing_fallback :
  let result := @run_pipeline iso_pandas "run1" "sales.csv"
                  (world_of north_file
                     ([None; None; None; None]
                      ++ repeat (Some "connection refused") 10)) in
  fst result = Ok (Failure "run1" "connection refused") /\
  analytics_summary (db (snd result)) = [].
Proof. vm_compute. repeat split. Qed.

(** ** Worked examples *)

(** A batch whose two dates are each read by the validator but differ in
    shape: both records are kept, the conversion of the date column raises
    in the transformer, nothing reaches the clean table, and the run is
    FAILED with the eleven zero rows of the fallback. *)
Example run_on_two_date_shapes :
  let file :=
    mkCsvFile original_columns
      [rec "A" "2024-01-05" "North" "Paneer 200g" 2 5000;
       rec "B" "2024-01-06 10:00:00" "South" "Paneer 200g" 1 2500] in
  let result := @run_pipeline iso_pandas "run1" "sales.csv" (world_of file [])
  in
  map fst (fst (fst (@validate_and_dedup iso_pandas
                       (range_index (records file)) [])))
  = [0%nat; 1%nat] /\
  option_map rs_status
    (match fst result with Ok s => Some s | Raise _ => None end)
  = Some "FAILED" /\
  clean_sales (db (snd result)) = [] /\
  map summary_values (analytics_summary (db (snd result)))
  = basic_values "run1" [].
Proof. vm_compute. repeat split. Qed.

(** A batch in which no record has a product: the record is kept and
    transformed, the product loop of the orchestrator's aggregation raises,
    and the run is FAILED; the fallback leaves the eleven zero rows although
    the clean table holds the record. *)
Example run_without_product :
  let file :=
    mkCsvFile original_columns
      [mkSalesRecord (Some "A") (Some "2024-01-05") (Some "North") None
         (Some 5%Z) (Some 10000%Z)] in
  let result := @run_pipeline iso_pandas "run1" "sales.csv" (world_of file [])
  in
  fst result = Ok (Failure "run1" (@str_accessor_error iso_pandas)) /\
  map t_order_id (clean_sales (db (snd result))) = [Some "A"] /\
  map summary_values (analytics_summary (db (snd result)))
  = basic_values "run1" [].
Proof. vm_compute. repeat split. Qed.

(** A record with a negative revenue and a region outside the list gets
    both entries. *)
Example negative_revenue_and_invalid_region :
  let row := rec "A" "2024-01-05" "Mars" "Paneer 200g" 1 (-100) in
  @reported_rules iso_pandas 7 row = [NonNegativeRevenue; RegionMember] /\
  map control_type (@row_entries iso_pandas 7 row)
  = ["NEGATIVE_REVENUE"; "INVALID_REGION"] /\
  @accepted iso_pandas row = false.
Proof. repeat split. Qed.

(** Quantity 5 and revenue 100.00 give a unit revenue of 20.00. *)
Example revenue_per_unit_example :
  @divide_round2 iso_pandas (Some 10000%Z) (Some 5%Z) = Fin 2000.
Proof. reflexivity. Qed.

Example str_title_example :
  str_title "north" = "North" /\ str_title "NORTH east" = "North East".
Proof. split; reflexivity. Qed.

(** The end-to-end scenario: the first A is kept, the second A is dropped
    as a duplicate, the record without identifier is rejected as
    MISSING_REQUIRED_FIELD, and the grand total is 100.00 over one order. *)
Example end_to_end_scenario :
  let result := @run_pipeline iso_pandas "run1" "sales.csv"
                  (world_of scenario_file []) in
  option_map
    (fun s => match s with
              | Success _ total clean invalid _ => (total, clean, invalid)
              | Failure _ _ => (0, 0, 0)%nat
              end)
    (match fst result with Ok s => Some s | Raise _ => None end)
  = Some (3, 1, 1)%nat /\
  map t_quantity (clean_sales (db (snd result))) = [Some 5%Z] /\
  map (fun e => (original_record_id e, error_category e))
    (exceptions (db (snd result)))
  = [(2%nat, MISSING_REQUIRED_FIELD)] /\
  map summary_values
    (filter (fun r => String.eqb (s_region r) "ALL"
                      && String.eqb (s_product r) "ALL")
       (analytics_summary (db (snd result))))
  = [("run1", "ALL", "ALL", 10000%Z, 1%nat, 10000%Z)].
Proof. vm_compute. repeat split. Qed.

(** ** Further properties of the validator *)

Lemma in_list_In s l : in_list s l = true <-> In s l.
Proof.
  unfold in_list. rewrite existsb_exists. split.
  - intros (x & I & E). apply String.eqb_eq in E. now subst.
  - intros I. exists s. split; [exact I|apply String.eqb_refl].
Qed.

Lemma filter_nil_forallb {A} (f : A -> bool) l :
  filter (fun x => negb (f x)) l = [] <-> forallb f l = true.
Proof.
  induction l as [|x l IH]; cbn; [tauto|].
  destruct (f x); cbn; [exact IH|]. split; discriminate.
Qed.

(** X1. The schema check passes exactly when each of the six required
    columns is among the frame's columns, whatever their order and whatever
    other columns there are; a passing check leaves the log alone, a failing
    one appends a single FAILED entry against record 0 that lists the
    missing columns. *)
Theorem validate_schema_required_columns (cols : list string) (vr : Log) :
  (fst (validate_schema cols vr) = true
   <-> forall c, In c required_columns -> In c cols) /\
  snd (validate_schema cols vr)
  = (if fst (validate_schema cols vr) then vr
     else vr ++ [mkValidationResult 0 "SCHEMA_VALIDATION" "MISSING_COLUMNS"
                   FAILED
                   (Some ("Missing columns: "
                          ++ py_list_repr
                               (filter (fun c => negb (in_list c cols))
                                  required_columns))%string)]).
Proof.
  unfold validate_schema, _log_validation_failure.
  destruct (filter (fun col => negb (in_list col cols)) required_columns)
    as [|m ms] eqn:E; cbn [fst snd]; split; try reflexivity.
  - split; [intros _|reflexivity].
    apply filter_nil_forallb in E. rewrite forallb_forall in E.
    intros c I. now apply in_list_In, E.
  - split; [discriminate|]. intros A. exfalso.
    assert (I : In m (filter (fun col => negb (in_list col cols))
                        required_columns)) by (rewrite E; now left).
    apply filter_In in I as [I N]. apply A, in_list_In in I.
    now rewrite I in N.
Qed.

(** ** Further properties of the duplicate check *)

Lemma key_eqb_eq a b : key_eqb a b = true <-> a = b.
Proof.
  destruct a as [x|], b as [y|]; cbn; try (split; congruence).
  rewrite String.eqb_eq. split; congruence.
Qed.

Lemma existsb_key_In k ks : existsb (key_eqb k) ks = true <-> In k ks.
Proof.
  rewrite existsb_exists. split.
  - intros (x & I & E). apply key_eqb_eq in E. now subst.
  - intros I. exists k. split; [exact I|now apply key_eqb_eq].
Qed.

Lemma keys_of_app a b : keys_of (a ++ b) = keys_of a ++ keys_of b.
Proof. unfold keys_of. apply map_app. Qed.

Lemma drop_duplicates_keys df k :
  In k (keys_of (drop_duplicates df)) <-> In k (keys_of df).
Proof.
  induction df as [|ir df IH] using rev_ind; [reflexivity|].
  rewrite drop_duplicates_snoc, !keys_of_app, !in_app_iff, IH.
  destruct (existsb _ _) eqn:E; cbn; [|tauto].
  apply existsb_key_In in E. split; [tauto|].
  intros [I|[<-|[]]]; tauto.
Qed.

Lemma NoDup_snoc {A} (l : list A) x : NoDup l -> ~ In x l -> NoDup (l ++ [x]).
Proof.
  intros N I. apply (Permutation_NoDup (l := x :: l)).
  - apply Permutation_cons_append.
  - now constructor.
Qed.

Lemma NoDup_snoc_inv {A} (l : list A) x :
  NoDup (l ++ [x]) -> NoDup l /\ ~ In x l.
Proof.
  intros N. apply NoDup_remove in N. now rewrite app_nil_r in N.
Qed.

Lemma drop_duplicates_nodup df : NoDup (keys_of (drop_duplicates df)).
Proof.
  induction df as [|ir df IH] using rev_ind; [constructor|].
  rewrite drop_duplicates_snoc.
  destruct (existsb _ _) eqn:E; [now rewrite app_nil_r|].
  rewrite keys_of_app. apply NoDup_snoc; [exact IH|].
  rewrite drop_duplicates_keys, <- existsb_key_In. now rewrite E.
Qed.

Lemma drop_duplicates_unique df :
  NoDup (keys_of df) -> drop_duplicates df = df.
Proof.
  induction df as [|ir df IH] using rev_ind; [reflexivity|].
  rewrite keys_of_app. intros [N I]%NoDup_snoc_inv.
  rewrite drop_duplicates_snoc, (IH N).
  destruct (existsb _ _) eqn:E; [|reflexivity].
  now apply existsb_key_In in E.
Qed.

(** X2. The frame the duplicate check returns has no identifier twice,
    holds exactly the identifiers of its input, and is left unchanged by a
    second duplicate check. *)
Theorem drop_duplicates_unique_ids (df : DataFrame) (vr : Log) :
  let kept := fst (check_duplicates df vr) in
  NoDup (keys_of kept) /\
  (forall k, In k (keys_of kept) <-> In k (keys_of df)) /\
  fst (check_duplicates kept (snd (check_duplicates df vr))) = kept.
Proof.
  cbn. split; [apply drop_duplicates_nodup|].
  split; [intro k; apply drop_duplicates_keys|].
  apply drop_duplicates_unique, drop_duplicates_nodup.
Qed.

Lemma occurrences_absent k ks : ~ In k ks -> occurrences k ks = 0%nat.
Proof.
  unfold occurrences. induction ks as [|x ks IH]; [reflexivity|].
  cbn. intros N. destruct (key_eqb k x) eqn:E.
  - apply key_eqb_eq in E. subst. tauto.
  - apply IH. tauto.
Qed.

Lemma occurrences_nodup k ks : NoDup ks -> (occurrences k ks <= 1)%nat.
Proof.
  induction 1 as [|x ks I N IH]; [cbn; lia|].
  unfold occurrences in *. cbn. destruct (key_eqb k x) eqn:E; [|exact IH].
  apply key_eqb_eq in E. subst x.
  pose proof (occurrences_absent k ks I) as Z. unfold occurrences in Z.
  cbn. lia.
Qed.

Lemma filter_none {A} (f : A -> bool) l :
  (forall x, In x l -> f x = false) -> filter f l = [].
Proof.
  induction l as [|x l IH]; intros N; [reflexivity|].
  cbn. rewrite (N x) by now left. apply IH. intros y I. apply N. now right.
Qed.

(** X3. On a frame whose identifiers are all different the duplicate check
    returns the frame as it is and logs nothing. *)
Theorem check_duplicates_without_duplicates (df : DataFrame) (vr : Log) :
  NoDup (keys_of df) -> check_duplicates df vr = (df, vr).
Proof.
  intros N. unfold check_duplicates, duplicated_all.
  rewrite select_map, (drop_duplicates_unique df N).
  rewrite filter_none; [reflexivity|].
  intros ir _.
  pose proof (occurrences_nodup (order_id (snd ir)) (keys_of df) N).
  apply Nat.leb_gt. lia.
Qed.

Lemma check_duplicates_without_duplicates_witness :
  check_duplicates (range_index [north_row; with_id "B" north_row]) []
  = (range_index [north_row; with_id "B" north_row], []).
Proof.
  apply check_duplicates_without_duplicates. cbn.
  repeat constructor; cbn; intuition discriminate.
Defined.

(** ** The validation summary *)

Lemma div_round_half_even_pos a b :
  (0 < b)%Z ->
  (2 * Z.abs (div_round_half_even a b * b - a) <= b)%Z /\
  (2 * (a mod b) = b -> Z.even (div_round_half_even a b) = true)%Z.
Proof.
  intros B. unfold div_round_half_even.
  destruct (b <? 0)%Z eqn:N; [apply Z.ltb_lt in N; lia|].
  pose proof (Z.div_mod a b ltac:(lia)) as D.
  pose proof (Z.mod_pos_bound a b B) as M.
  destruct (2 * (a mod b) <? b)%Z eqn:L1;
    [apply Z.ltb_lt in L1|apply Z.ltb_ge in L1].
  { split; [nia|lia]. }
  destruct (b <? 2 * (a mod b))%Z eqn:L2;
    [apply Z.ltb_lt in L2|apply Z.ltb_ge in L2].
  { split; [nia|lia]. }
  destruct (Z.even (a / b)) eqn:Ev.
  - split; [nia|now intros _].
  - split; [nia|intros _].
    rewrite Z.add_1_r, Z.even_succ, <- Z.negb_even, Ev. reflexivity.
Qed.



Lemma list_sum_cons x l : list_sum (x :: l) = (x + list_sum l)%nat.
Proof. reflexivity. Qed.

Lemma bump_sum k d : list_sum (map snd (bump k d)) = S (list_sum (map snd d)).
Proof.
  induction d as [|[k' n] d IH]; [reflexivity|].
  cbn [bump]. destruct (String.eqb k k'); cbn [map snd];
    rewrite !list_sum_cons; [lia|]. rewrite IH. lia.
Qed.

Lemma bump_total k k' d :
  key_total k' (bump k d)
  = (key_total k' d + (if String.eqb k k' then 1 else 0))%nat.
Proof.
  unfold key_total. induction d as [|[k0 n] d IH].
  - cbn. rewrite String.eqb_sym. destruct (String.eqb k' k); cbn; lia.
  - cbn [bump]. destruct (String.eqb k k0) eqn:E.
    + apply String.eqb_eq in E. subst k0. cbn [filter fst].
      rewrite (String.eqb_sym k k').
      destruct (String.eqb k' k); cbn [map snd]; rewrite ?list_sum_cons; lia.
    + cbn [filter fst]. destruct (String.eqb k0 k') eqn:E'.
      * cbn [map snd]. rewrite !list_sum_cons, IH. lia.
      * exact IH.
Qed.

Lemma bump_keys k d x :
  In x (map fst (bump k d)) <-> x = k \/ In x (map fst d).
Proof.
  induction d as [|[k' n] d IH]; cbn; [intuition|].
  destruct (String.eqb k k') eqn:E; cbn.
  - apply String.eqb_eq in E. subst. intuition.
  - rewrite IH. intuition.
Qed.

Lemma bump_nodup k d : NoDup (map fst d) -> NoDup (map fst (bump k d)).
Proof.
  induction d as [|[k' n] d IH]; cbn; intros N.
  - repeat constructor. intros [].
  - inversion N as [|? ? I N']; subst.
    destruct (String.eqb k k') eqn:E; cbn; [now constructor|].
    constructor; [|now apply IH].
    rewrite bump_keys. intros [->|J]; [|contradiction].
    now rewrite String.eqb_refl in E.
Qed.

Lemma breakdown_invariant (vr : Log) : forall d,
  let d' := fold_left
              (fun d r => if is_failed r then bump (control_type r) d else d)
              vr d in
  list_sum (map snd d')
  = (list_sum (map snd d) + List.length (filter is_failed vr))%nat /\
  (NoDup (map fst d) -> NoDup (map fst d')) /\
  forall k,
    key_total k d'
    = (key_total k d
       + List.length
           (filter (fun r => is_failed r && String.eqb (control_type r) k)
              vr))%nat.
Proof.
  induction vr as [|r vr IH]; intros d; cbn [fold_left filter].
  - cbn. repeat split; intros; lia || assumption.
  - specialize (IH (if is_failed r then bump (control_type r) d else d)).
    cbv zeta in IH |- *. destruct IH as (T & N & K).
    destruct (is_failed r); cbn [andb].
    + repeat split.
      * rewrite T, bump_sum. cbn [List.length]. lia.
      * intros D. now apply N, bump_nodup.
      * intros k. rewrite K, bump_total.
        destruct (String.eqb (control_type r) k); cbn [List.length]; lia.
    + repeat split; [exact T|exact N|exact K].
Qed.

(** X5. The validation summary is consistent with the log: the passed and
    failed checks add up to the number of entries, the failure breakdown
    has one line per control type, each line counts the FAILED entries of
    its control type, the lines add up to the failed checks, and the failure
    percentage lies between 0 and 100. *)
Theorem validation_summary_consistent (run_id : string) (vr : Log)
    (ts : DateTime) :
  let s := validation_summary_of run_id vr ts in
  total_checks s = List.length vr /\
  (passed_checks s + failed_checks s = total_checks s)%nat /\
  NoDup (map fst (failure_breakdown s)) /\
  (forall k,
     key_total k (failure_breakdown s)
     = List.length
         (filter (fun r => is_failed r && String.eqb (control_type r) k) vr)) /\
  list_sum (map snd (failure_breakdown s)) = failed_checks s /\
  (0 <= failure_percentage s <= 10000)%Z.
Proof.
  cbn. pose proof (filter_length_le is_failed vr) as L.
  destruct (breakdown_invariant vr []) as (T & N & K). cbv zeta in T, N, K.
  split; [reflexivity|]. split; [lia|]. split; [apply N; constructor|].
  split; [intro k; apply K|]. split; [exact T|].
  destruct (List.length vr) as [|n] eqn:E; [lia|].
  destruct (div_round_half_even_pos
              (Z.of_nat (List.length (filter is_failed vr)) * 10000)
              (Z.of_nat (S n)) ltac:(lia)) as [B _].
  nia.
Qed.

(** ** The detail text of an exception *)

Section ErrorDetails.

Context `{PandasOps}.

(** X6. The detail text of a record is "Unknown error" exactly when the
    record has an identifier, a region of the list, no negative revenue, a
    quantity that is absent or positive, and a date that is neither missing
    nor the literal invalid_date. So a rejected record whose only defect is
    a date that does not parse is reported as "Unknown error". *)
Theorem error_details_unknown (record : SalesRecord) :
  _generate_error_details record = "Unknown error"
  <-> (violates IdentifierPresent record = false
       /\ violates RegionPresent record = false
       /\ date_missing_or_sentinel record = false
       /\ violates NonNegativeRevenue record = false
       /\ violates PositiveQuantity record = false
       /\ violates RegionMember record = false).
Proof.
  unfold _generate_error_details, date_missing_or_sentinel.
  rewrite !id_check_spec, revenue_check_spec, quantity_check_spec,
    region_check_spec.
  change (missing_or_empty (order_id record))
    with (violates IdentifierPresent record).
  change (missing_or_empty (region record))
    with (violates RegionPresent record).
  change (match revenue record with Some v => (v <? 0)%Z | None => false end)
    with (violates NonNegativeRevenue record).
  change (match quantity record with Some v => (v <=? 0)%Z | None => false end)
    with (violates PositiveQuantity record).
  change (match region record with
          | Some s => negb (existsb (String.eqb s) five_regions)
          | None => false
          end) with (violates RegionMember record).
  unfold isna, cell_eq.
  destruct (violates IdentifierPresent record),
    (violates RegionPresent record), (violates NonNegativeRevenue record),
    (violates PositiveQuantity record), (violates RegionMember record);
    destruct (order_date record) as [s|];
    try destruct (String.eqb s "invalid_date");
    cbn; (split; [intros E; try discriminate E; now repeat split
                 |intros (? & ? & ? & ? & ? & ?); congruence]).
Qed.

End ErrorDetails.

(** The record of X6's last sentence. *)
Example unparseable_date_unknown_error :
  @accepted iso_pandas record_unparseable_date = false /\
  @_generate_error_details iso_pandas record_unparseable_date
  = "Unknown error".
Proof. split; reflexivity. Qed.

(** ** Grouping *)

Lemma sumZ_cons a l : sumZ (a :: l) = (a + sumZ l)%Z.
Proof. reflexivity. Qed.

Section GroupFacts.

Context {R K : Type}.
Variable cmp : K -> K -> comparison.
Variable key : R -> option K.
Variable rev : R -> option Z.
Variable oid : R -> option string.

Hypothesis cmp_eq : forall a b, cmp a b = Eq -> a = b.
Hypothesis cmp_antisym : forall a b, cmp a b = CompOpp (cmp b a).
Hypothesis cmp_trans : forall a b c, cmp a b = Lt -> cmp b c = Lt -> cmp a c = Lt.

Lemma cmp_refl a : cmp a a = Eq.
Proof. pose proof (cmp_antisym a a) as E. now destruct (cmp a a). Qed.

Lemma insert_key_elements k l x :
  In x (insert_key cmp k l) <-> x = k \/ In x l.
Proof.
  induction l as [|y l IH]; cbn; [intuition|].
  destruct (cmp k y) eqn:C; cbn.
  - apply cmp_eq in C. subst. intuition.
  - intuition.
  - rewrite IH. intuition.
Qed.

Lemma insert_key_sorted k l :
  StronglySorted (fun a b => cmp a b = Lt) l -> StronglySorted (fun a b => cmp a b = Lt) (insert_key cmp k l).
Proof.
  induction 1 as [|y l S IH F]; cbn; [repeat constructor|].
  destruct (cmp k y) eqn:C.
  - now constructor.
  - constructor; [now constructor|]. constructor; [exact C|].
    rewrite Forall_forall in F |- *. intros z I.
    apply (cmp_trans k y z C), F, I.
  - constructor; [exact IH|]. rewrite Forall_forall in F |- *.
    intros z [->|I]%insert_key_elements; [|now apply F].
    rewrite cmp_antisym, C. reflexivity.
Qed.

Lemma group_keys_sorted df : StronglySorted (fun a b => cmp a b = Lt) (group_keys cmp key df).
Proof.
  induction df as [|r df IH]; cbn; [constructor|].
  destruct (key r); [now apply insert_key_sorted|exact IH].
Qed.

Lemma sorted_nodup l : StronglySorted (fun a b => cmp a b = Lt) l -> NoDup l.
Proof.
  induction 1 as [|y l S IH F]; constructor; [|exact IH].
  intros I. rewrite Forall_forall in F. specialize (F y I).
  now rewrite cmp_refl in F.
Qed.

Lemma group_keys_elements df k :
  In k (group_keys cmp key df) <-> exists r, In r df /\ key r = Some k.
Proof.
  induction df as [|r df IH]; cbn.
  - split; [intros []|intros (r & [] & _)].
  - destruct (key r) as [k'|] eqn:E.
    + rewrite insert_key_elements, IH. split.
      * intros [->|(q & I & Q)]; [exists r; now split; [left|]|].
        exists q. split; [now right|exact Q].
      * intros (q & [<-|I] & Q); [left; congruence|].
        right. now exists q.
    + rewrite IH. split.
      * intros (q & I & Q). exists q. split; [now right|exact Q].
      * intros (q & [<-|I] & Q); [congruence|]. now exists q.
Qed.

(** A row that has a key lies in the group of that key and in no other
    group of a duplicate-free key list. *)
Lemma one_group (f : list R -> Z) (ks : list K) (r : R) (k0 : K) (x : Z)
    (df : list R) :
  (forall g, f (r :: g) = (x + f g)%Z) ->
  key r = Some k0 -> NoDup ks -> In k0 ks ->
  sumZ (map (fun k => f (filter (in_group cmp key k) (r :: df))) ks)
  = (x + sumZ (map (fun k => f (filter (in_group cmp key k) df)) ks))%Z.
Proof.
  intros F E N. induction N as [|k ks I N IH]; [intros []|].
  rewrite !map_cons, !sumZ_cons.
  change (filter (in_group cmp key k) (r :: df))
    with (if in_group cmp key k r then r :: filter (in_group cmp key k) df
          else filter (in_group cmp key k) df).
  unfold in_group at 1. rewrite E. intros [->|J].
  - rewrite cmp_refl, F.
    assert (Z : sumZ (map (fun k => f (filter (in_group cmp key k) (r :: df)))
                        ks)
                = sumZ (map (fun k => f (filter (in_group cmp key k) df)) ks)).
    { f_equal. apply map_ext_in. intros k J. cbn [filter]. unfold in_group at 1.
      rewrite E. destruct (cmp k k0) eqn:C; try reflexivity.
      apply cmp_eq in C. subst. contradiction. }
    rewrite Z. lia.
  - rewrite (IH J). destruct (cmp k k0) eqn:C; try lia.
    apply cmp_eq in C. subst. contradiction.
Qed.

Lemma no_group (f : list R -> Z) (ks : list K) (r : R) (df : list R) :
  key r = None ->
  sumZ (map (fun k => f (filter (in_group cmp key k) (r :: df))) ks)
  = sumZ (map (fun k => f (filter (in_group cmp key k) df)) ks).
Proof.
  intros E. f_equal. apply map_ext. intros k. cbn [filter].
  unfold in_group at 1. now rewrite E.
Qed.

Lemma groups_conserve (f : list R -> Z) (x : R -> Z) (ks : list K) :
  f [] = 0%Z -> (forall r g, f (r :: g) = (x r + f g)%Z) ->
  NoDup ks ->
  forall df,
    (forall r k, In r df -> key r = Some k -> In k ks) ->
    sumZ (map (fun k => f (filter (in_group cmp key k) df)) ks)
    = f (keyed key df).
Proof.
  intros F0 F N df. induction df as [|r df IH]; intros C.
  - unfold keyed. cbn [filter]. rewrite F0. clear N C.
    induction ks as [|k ks IHk]; [reflexivity|].
    rewrite map_cons, sumZ_cons, IHk. reflexivity.
  - destruct (key r) as [k0|] eqn:E.
    + rewrite (one_group f ks r k0 (x r) df (F r) E N);
        [|apply (C r); [now left|exact E]].
      rewrite IH by (intros q k I; apply C; now right).
      unfold keyed. cbn [filter]. rewrite E. cbn [notna isna negb].
      now rewrite F.
    + rewrite (no_group f ks r df E).
      rewrite IH by (intros q k I; apply C; now right).
      unfold keyed. cbn [filter]. now rewrite E.
Qed.

End GroupFacts.

Lemma string_compare_trans a b c :
  String.compare a b = Lt -> String.compare b c = Lt -> String.compare a c = Lt.
Proof.
  intros A B. apply OrderedTypeEx.String_as_OT.cmp_lt.
  apply (OrderedTypeEx.String_as_OT.lt_trans a b c); now apply OrderedTypeEx.String_as_OT.cmp_lt.
Qed.

Lemma date_compare_antisym a b : date_compare a b = CompOpp (date_compare b a).
Proof.
  unfold date_compare.
  rewrite (Nat.compare_antisym (year b) (year a)),
    (Nat.compare_antisym (month b) (month a)),
    (Nat.compare_antisym (day b) (day a)).
  destruct (year b ?= year a)%nat, (month b ?= month a)%nat,
    (day b ?= day a)%nat; reflexivity.
Qed.

Lemma date_compare_lt a b :
  date_compare a b = Lt
  <-> (year a < year b
       \/ (year a = year b
           /\ (month a < month b \/ (month a = month b /\ day a < day b))))%nat.
Proof.
  unfold date_compare.
  destruct (Nat.compare_spec (year a) (year b)),
    (Nat.compare_spec (month a) (month b)),
    (Nat.compare_spec (day a) (day b)); split; intros; try discriminate;
    try reflexivity; lia.
Qed.

Lemma date_compare_trans a b c :
  date_compare a b = Lt -> date_compare b c = Lt -> date_compare a c = Lt.
Proof. rewrite !date_compare_lt. lia. Qed.

Lemma list_sum_sumZ l : Z.of_nat (list_sum l) = sumZ (map Z.of_nat l).
Proof.
  induction l as [|n l IH]; [reflexivity|].
  rewrite list_sum_cons, map_cons, sumZ_cons, <- IH. lia.
Qed.

Lemma count_cells_cons {A} (x : option A) l :
  Z.of_nat (count_cells (x :: l))
  = ((if notna x then 1 else 0) + Z.of_nat (count_cells l))%Z.
Proof.
  unfold count_cells. cbn [filter]. destruct (notna x); cbn [List.length]; lia.
Qed.

(** The rows a loop over a grouping writes summarise the frame. *)
Lemma grouping_summarises {K} (cmp : K -> K -> comparison)
    (key : TransformedRecord -> option K) (label : SummaryRow -> K)
    (rows : list TransformedRecord) (out : list SummaryRow) :
  (forall a b, cmp a b = Eq -> a = b) ->
  (forall a b, cmp a b = CompOpp (cmp b a)) ->
  (forall a b c, cmp a b = Lt -> cmp b c = Lt -> cmp a c = Lt) ->
  map (fun r => (label r, total_revenue r, total_orders r)) out
  = groupby_agg cmp key t_revenue t_order_id rows ->
  summarises cmp key label rows out.
Proof.
  intros E A T M.
  assert (L : map label out = group_keys cmp key rows).
  { transitivity (map (fun g : K * Z * nat => fst (fst g))
                    (map (fun r => (label r, total_revenue r, total_orders r))
                       out)); [now rewrite map_map|].
    rewrite M. unfold groupby_agg. rewrite map_map. apply map_id. }
  assert (V : map total_revenue out
              = map (fun k => sum_cells
                                (map t_revenue
                                   (filter (in_group cmp key k) rows)))
                  (group_keys cmp key rows)).
  { transitivity (map (fun g : K * Z * nat => snd (fst g))
                    (map (fun r => (label r, total_revenue r, total_orders r))
                       out)); [now rewrite map_map|].
    rewrite M. unfold groupby_agg. now rewrite map_map. }
  assert (N : map total_orders out
              = map (fun k => count_cells
                                (map t_order_id
                                   (filter (in_group cmp key k) rows)))
                  (group_keys cmp key rows)).
  { transitivity (map (fun g : K * Z * nat => snd g)
                    (map (fun r => (label r, total_revenue r, total_orders r))
                       out)); [now rewrite map_map|].
    rewrite M. unfold groupby_agg. now rewrite map_map. }
  pose proof (group_keys_sorted cmp key E A T rows) as S.
  pose proof (sorted_nodup cmp A _ S) as D.
  unfold summarises. rewrite L, V, N. split; [exact S|].
  split; [intro k; apply (group_keys_elements cmp key E)|]. split.
  - apply (groups_conserve cmp key E A
             (fun g => sum_cells (map t_revenue g))
             (fun r => match t_revenue r with Some v => v | None => 0%Z end));
      [reflexivity| |exact D|].
    + intros r g. cbn. now destruct (t_revenue r).
    + intros r k I Kr. apply (group_keys_elements cmp key E). now exists r.
  - apply Nat2Z.inj. rewrite list_sum_sumZ, map_map.
    apply (groups_conserve cmp key E A
             (fun g => Z.of_nat (count_cells (map t_order_id g)))
             (fun r => if notna (t_order_id r) then 1%Z else 0%Z));
      [reflexivity| |exact D|].
    + intros r g. cbn [map]. apply count_cells_cons.
    + intros r k I Kr. apply (group_keys_elements cmp key E). now exists r.
Qed.

Lemma map_triple_id {A B C} (l : list (A * B * C)) :
  map (fun g => (fst (fst g), snd (fst g), snd g)) l = l.
Proof. induction l as [|[[a b] c] l IH]; cbn; now rewrite ?IH. Qed.

Lemma map_clock_forall {A B} (f : A -> Clock -> B * Clock) (P : B -> Prop) :
  (forall x c, P (fst (f x c))) ->
  forall l c, Forall P (fst (map_clock f l c)).
Proof.
  intros F l. induction l as [|x l IH]; intros c; cbn; [constructor|].
  specialize (F x c). destruct (f x c) as [y c1]. specialize (IH c1).
  destruct (map_clock f l c1) as [ys c2]. now constructor.
Qed.

(** X7. The summaries the transformer computes are the grand total (ALL,
    ALL: the revenue sum and the number of rows), then the rows by region,
    by product and by date. Each of the three groups has one row per key
    that occurs in the frame, in increasing key order, and its revenues and
    order counts add up to those of the rows that have the key cell. *)
Theorem analytics_summaries_by_group (run_id : string) (df : TransformedFrame)
    (c : Clock) :
  let rows := map snd df in
  exists total regional by_product daily,
    fst (analytics_summaries run_id df c)
    = total :: regional ++ by_product ++ daily /\
    summary_values total
    = (run_id, "ALL", "ALL", sum_cells (map t_revenue rows), List.length df,
       sum_cells (map t_revenue rows)) /\
    summarises String.compare t_region s_region rows regional /\
    Forall (fun r => s_product r = "ALL") regional /\
    summarises String.compare t_product s_product rows by_product /\
    Forall (fun r => s_region r = "ALL") by_product /\
    summarises date_compare t_order_date calculation_date rows daily /\
    Forall (fun r => s_region r = "ALL" /\ s_product r = "ALL") daily.
Proof.
  intros rows. unfold analytics_summaries, now. fold rows.
  set (c0 := fun n => c (S (S n))).
  pose proof (map_clock_fst (group_summary_region run_id)
                (fun r => (s_region r, total_revenue r, total_orders r))
                (fun g => (fst (fst g), snd (fst g), snd g))
                (fun g c => match g with (k, r, n) => eq_refl end)
                (groupby_agg String.compare t_region t_revenue t_order_id rows)
                c0) as R.
  pose proof (map_clock_forall (group_summary_region run_id)
                (fun r => s_product r = "ALL")
                (fun g c => match g with (k, r, n) => eq_refl end)
                (groupby_agg String.compare t_region t_revenue t_order_id rows)
                c0) as R'.
  destruct (map_clock (group_summary_region run_id) _ c0) as [rs c1].
  pose proof (map_clock_fst (group_summary_product run_id)
                (fun r => (s_product r, total_revenue r, total_orders r))
                (fun g => (fst (fst g), snd (fst g), snd g))
                (fun g c => match g with (k, r, n) => eq_refl end)
                (groupby_agg String.compare t_product t_revenue t_order_id rows)
                c1) as P.
  pose proof (map_clock_forall (group_summary_product run_id)
                (fun r => s_region r = "ALL")
                (fun g c => match g with (k, r, n) => eq_refl end)
                (groupby_agg String.compare t_product t_revenue t_order_id rows)
                c1) as P'.
  destruct (map_clock (group_summary_product run_id) _ c1) as [ps c2].
  pose proof (map_clock_fst (group_summary_daily run_id)
                (fun r => (calculation_date r, total_revenue r, total_orders r))
                (fun g => (fst (fst g), snd (fst g), snd g))
                (fun g c => match g with (k, r, n) => eq_refl end)
                (groupby_agg date_compare t_order_date t_revenue t_order_id rows)
                c2) as D.
  pose proof (map_clock_forall (group_summary_daily run_id)
                (fun r => s_region r = "ALL" /\ s_product r = "ALL")
                (fun g c => match g with (k, r, n) => conj eq_refl eq_refl end)
                (groupby_agg date_compare t_order_date t_revenue t_order_id rows)
                c2) as D'.
  destruct (map_clock (group_summary_daily run_id) _ c2) as [ds c3].
  cbn [fst] in *. rewrite map_triple_id in R. rewrite map_triple_id in P.
  rewrite map_triple_id in D.
  eexists _, rs, ps, ds. split; [now rewrite <- app_assoc|].
  split; [reflexivity|].
  split; [exact (grouping_summarises _ _ _ _ _ String.compare_eq_iff
                   String.compare_antisym string_compare_trans R)|].
  split; [exact R'|].
  split; [exact (grouping_summarises _ _ _ _ _ String.compare_eq_iff
                   String.compare_antisym string_compare_trans P)|].
  split; [exact P'|].
  split; [exact (grouping_summarises _ _ _ _ _ date_compare_eq
                   date_compare_antisym date_compare_trans D)|].
  exact D'.
Qed.

(** ** The transformed frame *)

Section TransformFacts.

Context `{PandasOps}.

Lemma accepted_region row :
  accepted row = true -> exists s, region row = Some s /\ In s valid_regions.
Proof.
  intros A.
  pose proof (accepted_no_violation row RegionPresent A) as P.
  pose proof (accepted_no_violation row RegionMember A) as M.
  cbn [violates missing_or_empty] in P, M.
  destruct (region row) as [s|]; [|discriminate P].
  exists s. split; [reflexivity|].
  apply negb_false_iff, existsb_exists in M as (x & I & E).
  apply String.eqb_eq in E. now subst.
Qed.

Lemma str_title_valid_region s : In s valid_regions -> str_title s = s.
Proof.
  intros [<-|[<-|[<-|[<-|[<-|[]]]]]]; reflexivity.
Qed.

Lemma transform_rows_cells run_id ts (df : DataFrame) :
  Forall (fun ir => accepted (snd ir) = true) df ->
  forall dates,
    List.length dates = List.length df ->
    map transformed_cells (map (transform_row run_id ts) (combine df dates))
    = map (fun ir => copied_cells (fst ir) (snd ir)) df
    /\ map (fun it => t_order_date (snd it))
         (map (transform_row run_id ts) (combine df dates))
       = dates.
Proof.
  induction 1 as [|[idx row] df A _ IH]; intros [|d dates] L;
    try discriminate L; [now split|].
  cbn [map combine]. destruct (IH dates) as [C D]; [now injection L|].
  rewrite C, D. split; [|reflexivity]. f_equal.
  unfold transformed_cells, copied_cells, transform_row. cbn.
  destruct (accepted_region row A) as (s & -> & I). cbn.
  now rewrite (str_title_valid_region s I).
Qed.

(** X8. Whenever the transformer builds its frame from the rows kept by
    validation and the duplicate check (the conversion of the date column
    has not raised), the frame is one-to-one and in order: each transformed
    row has the index, identifier, region, product, quantity and revenue of
    its clean row (the title-casing leaves a valid region as it is), the
    date the conversion of the column gives at its position, the run
    identifier, and the one time stamp read for the frame. *)
Theorem transform_frame_keeps_cells (rows : list SalesRecord) (vr0 : Log)
    (run_id : string) (c : Clock) (transformed : TransformedFrame) :
  let kept := fst (fst (validate_and_dedup (range_index rows) vr0)) in
  fst (transform_frame run_id kept c) = Ok transformed ->
  map transformed_cells transformed
  = map (fun ir => copied_cells (fst ir) (snd ir)) kept /\
  to_datetime_column (map (fun ir => order_date (snd ir)) kept)
  = Ok (map (fun it => t_order_date (snd it)) transformed) /\
  Forall (fun it => t_run_id (snd it) = run_id
                    /\ processed_timestamp (snd it) = c 0%nat) transformed.
Proof.
  intros kept E.
  assert (A : Forall (fun ir => accepted (snd ir) = true) kept).
  { apply Forall_forall. intros ir. apply kept_accepted. }
  apply transform_frame_ok in E as (dates & E & L & _ & ->).
  destruct (transform_rows_cells run_id (c 0%nat) kept A dates L) as [C D].
  split; [exact C|]. split; [now rewrite D|].
  apply Forall_forall. intros it I.
  apply in_map_iff in I as ([[idx row] d] & <- & _). now split.
Qed.

End TransformFacts.

Lemma transform_frame_keeps_cells_witness :
  fst (@transform_frame iso_pandas "run1"
         (fst (fst (@validate_and_dedup iso_pandas
                      (range_index (records scenario_file)) [])))
         example_clock)
  = Ok [(0%nat,
         mkTransformedRecord (Some "A") (Some (mkDate 2024 1 5))
           (Some "North") (Some "Tomato Ketchup 500g") (Some 5%Z)
           (Some 10000%Z) (Fin 2000) "run1" (mkDateTime (mkDate 2024 6 1) 0))]
  /\
  map transformed_cells
    [(0%nat,
      mkTransformedRecord (Some "A") (Some (mkDate 2024 1 5))
        (Some "North") (Some "Tomato Ketchup 500g") (Some 5%Z)
        (Some 10000%Z) (Fin 2000) "run1" (mkDateTime (mkDate 2024 6 1) 0))]
  = [(0%nat, Some "A", Some "North", Some "Tomato Ketchup 500g", Some 5%Z,
      Some 10000%Z)].
Proof.
  split; [reflexivity|].
  apply (@transform_frame_keeps_cells iso_pandas (records scenario_file) []
           "run1" example_clock _ eq_refl).
Defined.

(** ** The orchestrator's regional rows *)

Lemma frame_revenue_cons ir df :
  frame_revenue (ir :: df)
  = (match revenue (snd ir) with Some v => v | None => 0%Z end
     + frame_revenue df)%Z.
Proof. unfold frame_revenue. cbn. now destruct (revenue (snd ir)). Qed.

Lemma region_rows_cons ir df r :
  region_rows (ir :: df) r
  = if cell_eq (region (snd ir)) r then ir :: region_rows df r
    else region_rows df r.
Proof. reflexivity. Qed.

(** On a frame whose regions are all of the list, the five regions split
    the frame. *)
Lemma regions_split (df : DataFrame) :
  Forall (fun ir => exists s, region (snd ir) = Some s /\ In s valid_regions)
    df ->
  sumZ (map (fun r => frame_revenue (region_rows df r)) regions)
  = frame_revenue df /\
  list_sum (map (fun r => List.length (region_rows df r)) regions)
  = List.length df.
Proof.
  induction 1 as [|ir df (s & E & I) _ [IHr IHn]]; [split; reflexivity|].
  unfold regions in *. cbn [map] in *.
  rewrite !region_rows_cons, E. rewrite frame_revenue_cons.
  unfold sumZ, list_sum in *. cbn [fold_right] in *.
  destruct I as [<-|[<-|[<-|[<-|[<-|[]]]]]]; cbn [cell_eq];
    repeat match goal with
           | |- context [String.eqb ?a ?b] =>
               let v := eval vm_compute in (String.eqb a b) in
               change (String.eqb a b) with v
           end; cbv iota;
    rewrite ?frame_revenue_cons; cbn [List.length]; split; lia.
Qed.

Lemma filter_map_commute {A B} (f : A -> B) (p : B -> bool) l :
  map f (filter (fun x => p (f x)) l) = filter p (map f l).
Proof.
  induction l as [|x l IH]; [reflexivity|].
  cbn. destruct (p (f x)); cbn; now rewrite IH.
Qed.

Section RegionalRows.

Context `{PandasOps}.

(** X9. In the summaries the orchestrator computes from the rows kept by
    validation and the duplicate check, whenever it computes them (its
    product loop has not raised), the rows of the five regions add up to
    the grand total: their revenues to the revenue of the frame, their
    order counts to its number of rows. *)
Theorem basic_regions_add_up (rows : list SalesRecord) (vr0 : Log)
    (run_id : string) (c : Clock) (out : list SummaryRow) :
  let kept := fst (fst (validate_and_dedup (range_index rows) vr0)) in
  fst (basic_summaries run_id kept c) = Ok out ->
  let regional :=
    filter (fun r => negb (String.eqb (s_region r) "ALL")) out in
  map s_region regional = regions /\
  sumZ (map total_revenue regional) = frame_revenue kept /\
  list_sum (map total_orders regional) = List.length kept.
Proof.
  intros kept E regional.
  assert (V : map summary_values regional
              = map (fun r => (run_id, r, "ALL",
                               frame_revenue (region_rows kept r),
                               List.length (region_rows kept r),
                               frame_revenue (region_rows kept r))) regions).
  { subst regional.
    rewrite (filter_map_commute summary_values
               (fun v => negb (String.eqb (snd (fst (fst (fst (fst v)))))
                                 "ALL"))).
    rewrite (proj1 (basic_summaries_inv run_id kept c out E)). reflexivity. }
  assert (S : Forall (fun ir => exists s, region (snd ir) = Some s
                                          /\ In s valid_regions) kept).
  { apply Forall_forall. intros ir I.
    apply accepted_region, (kept_accepted (range_index rows) vr0 ir I). }
  destruct (regions_split kept S) as [Sr Sn].
  repeat split.
  - transitivity (map (fun v : string * string * string * Z * nat * Z =>
                         snd (fst (fst (fst (fst v)))))
                    (map summary_values regional)); [now rewrite map_map|].
    rewrite V, map_map. apply map_id.
  - transitivity (sumZ (map (fun v : string * string * string * Z * nat * Z =>
                               snd (fst (fst v)))
                          (map summary_values regional)));
      [now rewrite map_map|]. now rewrite V, map_map.
  - transitivity (list_sum
                    (map (fun v : string * string * string * Z * nat * Z =>
                            snd (fst v)) (map summary_values regional)));
      [now rewrite map_map|]. now rewrite V, map_map.
Qed.

End RegionalRows.

Lemma basic_regions_add_up_witness :
  (exists out,
     fst (@basic_summaries iso_pandas "run1"
            (fst (fst (@validate_and_dedup iso_pandas
                         (range_index (records scenario_file)) [])))
            example_clock) = Ok out /\
     map (fun r => (s_region r, total_revenue r, total_orders r))
       (filter (fun r => negb (String.eqb (s_region r) "ALL")) out)
     = [("North", 10000%Z, 1%nat); ("South", 0%Z, 0%nat);
        ("East", 0%Z, 0%nat); ("West", 0%Z, 0%nat);
        ("Central", 0%Z, 0%nat)]) /\
  frame_revenue
    (fst (fst (@validate_and_dedup iso_pandas
                 (range_index (records scenario_file)) [])))
  = 10000%Z.
Proof.
  split; [eexists; split; reflexivity|].
  destruct (@basic_regions_add_up iso_pandas (records scenario_file) []
              "run1" example_clock _ eq_refl) as (_ & R & _).
  cbv zeta in R. rewrite <- R. reflexivity.
Defined.

(** ** What a run writes *)

Lemma appended_refl {A} (rid : A -> string) run_id t : appended rid run_id t t.
Proof. exists []. now rewrite app_nil_r. Qed.

Lemma appended_trans {A} (rid : A -> string) run_id t1 t2 t3 :
  appended rid run_id t1 t2 -> appended rid run_id t2 t3 ->
  appended rid run_id t1 t3.
Proof.
  intros (a & -> & Fa) (b & -> & Fb). exists (a ++ b).
  split; [now rewrite app_assoc|]. apply Forall_app. now split.
Qed.

Lemma appended_rows {A} (rid : A -> string) run_id t rows :
  Forall (fun r => rid r = run_id) rows -> appended rid run_id t (t ++ rows).
Proof. intros F. now exists rows. Qed.

Lemma only_own_rows_refl run_id s : only_own_rows run_id s s.
Proof. repeat split; apply appended_refl. Qed.

Lemma only_own_rows_trans run_id s1 s2 s3 :
  only_own_rows run_id s1 s2 -> only_own_rows run_id s2 s3 ->
  only_own_rows run_id s1 s3.
Proof.
  intros (R1 & V1 & E1 & A1 & C1 & S1) (R2 & V2 & E2 & A2 & C2 & S2).
  repeat split; try (eapply appended_trans; eassumption); congruence.
Qed.

Lemma delete_run_app {A} (rid : A -> string) run_id (t rows : list A) :
  Forall (fun r => rid r = run_id) rows ->
  delete_run rid run_id (t ++ rows) = delete_run rid run_id t.
Proof.
  intros F. unfold delete_run. rewrite filter_app.
  rewrite (filter_none _ rows); [apply app_nil_r|].
  rewrite Forall_forall in F. intros r I. rewrite (F r I), String.eqb_refl.
  reflexivity.
Qed.

Lemma delete_run_twice {A} (rid : A -> string) run_id (t : list A) :
  delete_run rid run_id (delete_run rid run_id t) = delete_run rid run_id t.
Proof.
  unfold delete_run. induction t as [|r t IH]; [reflexivity|].
  cbn. destruct (String.eqb (rid r) run_id) eqn:E; cbn; [exact IH|].
  now rewrite E, IH.
Qed.

Section Confined.

Variable run_id : string.

Lemma confined_ret {A} (a : A) : confined run_id (ret a).
Proof. intros w. apply only_own_rows_refl. Qed.

Lemma confined_raise {A} e : confined run_id (@raise A e).
Proof. intros w. apply only_own_rows_refl. Qed.

Lemma confined_bind {A B} (m : M A) (k : A -> M B) :
  confined run_id m -> (forall a, confined run_id (k a)) ->
  confined run_id (bind m k).
Proof.
  intros Cm Ck w. unfold bind. specialize (Cm w).
  destruct (m w) as [[a|e] w1]; cbn [snd] in *; [|exact Cm].
  eapply only_own_rows_trans; [exact Cm|apply Ck].
Qed.

Lemma confined_try {A} (m : M A) (h : string -> M A) :
  confined run_id m -> (forall e, confined run_id (h e)) ->
  confined run_id (try_except m h).
Proof.
  intros Cm Ch w. unfold try_except. specialize (Cm w).
  destruct (m w) as [[a|e] w1]; cbn [snd] in *; [exact Cm|].
  eapply only_own_rows_trans; [exact Cm|apply Ch].
Qed.

Lemma confined_external : confined run_id external.
Proof.
  intros w. unfold external.
  destruct (faults w) as [|[e|] rest]; apply only_own_rows_refl.
Qed.

Lemma confined_with_clock {A} (f : Clock -> A * Clock) :
  confined run_id (with_clock f).
Proof.
  intros w. unfold with_clock. destruct (f (clock w)).
  apply only_own_rows_refl.
Qed.

Lemma confined_lookup path : confined run_id (lookup_file path).
Proof. intros w. apply only_own_rows_refl. Qed.

Lemma confined_update (f : Store -> Store) :
  (forall s, only_own_rows run_id s (f s)) -> confined run_id (update_db f).
Proof. intros F w. apply F. Qed.

Lemma own_raw rows :
  Forall (fun r => raw_run_id r = run_id) rows ->
  forall s, only_own_rows run_id s (set_raw_sales (fun t => t ++ rows) s).
Proof.
  intros F s. repeat split; try apply appended_refl. now apply appended_rows.
Qed.

Lemma own_validation rows :
  Forall (fun r => v_run_id r = run_id) rows ->
  forall s, only_own_rows run_id s
              (set_validation_results (fun t => t ++ rows) s).
Proof.
  intros F s. repeat split; try apply appended_refl. now apply appended_rows.
Qed.

Lemma own_exceptions rows :
  Forall (fun r => e_run_id r = run_id) rows ->
  forall s, only_own_rows run_id s (set_exceptions (fun t => t ++ rows) s).
Proof.
  intros F s. repeat split; try apply appended_refl. now apply appended_rows.
Qed.

Lemma own_audit ev :
  a_run_id ev = run_id ->
  forall s, only_own_rows run_id s (set_audit_log (fun t => t ++ [ev]) s).
Proof.
  intros F s. repeat split; try apply appended_refl.
  apply appended_rows. now repeat constructor.
Qed.

Lemma own_clean_delete s :
  only_own_rows run_id s (set_clean_sales (delete_run t_run_id run_id) s).
Proof.
  repeat split; try apply appended_refl. cbn. apply delete_run_twice.
Qed.

Lemma own_clean_append rows :
  Forall (fun r => t_run_id r = run_id) rows ->
  forall s, only_own_rows run_id s (set_clean_sales (fun t => t ++ rows) s).
Proof.
  intros F s. repeat split; try apply appended_refl. cbn.
  now apply delete_run_app.
Qed.

Lemma own_summary_delete s :
  only_own_rows run_id s
    (set_analytics_summary (delete_run s_run_id run_id) s).
Proof.
  repeat split; try apply appended_refl. cbn. apply delete_run_twice.
Qed.

Lemma own_summary_append rows :
  Forall (fun r => s_run_id r = run_id) rows ->
  forall s, only_own_rows run_id s
              (set_analytics_summary (fun t => t ++ rows) s).
Proof.
  intros F s. repeat split; try apply appended_refl. cbn.
  now apply delete_run_app.
Qed.

End Confined.

Lemma confined_bind_clock run_id {A B} (f : Clock -> A * Clock)
    (k : A -> M B) :
  (forall c, confined run_id (k (fst (f c)))) ->
  confined run_id (bind (with_clock f) k).
Proof.
  intros Ck w. unfold bind, with_clock. specialize (Ck (clock w)).
  destruct (f (clock w)) as [a c']. cbn [fst] in Ck.
  apply (Ck (mkWorld (db w) (fs w) c' (faults w))).
Qed.

Lemma confined_bind_clock_try run_id {A B} (f : Clock -> Result A * Clock)
    (k : A -> M B) :
  (forall c a, fst (f c) = Ok a -> confined run_id (k a)) ->
  confined run_id (bind (with_clock_try f) k).
Proof.
  intros Ck w. unfold bind, with_clock_try. specialize (Ck (clock w)).
  destruct (f (clock w)) as [[a|e] c']; cbn [fst snd db] in *.
  - apply (Ck a eq_refl (mkWorld (db w) (fs w) c' (faults w))).
  - apply only_own_rows_refl.
Qed.

Ltac confine :=
  repeat lazymatch goal with
         | |- confined _ (ret _) => apply confined_ret
         | |- confined _ (raise _) => apply confined_raise
         | |- confined _ external => apply confined_external
         | |- confined _ (lookup_file _) => apply confined_lookup
         | |- confined _ (with_clock _) => apply confined_with_clock
         | |- confined _ (try_except _ _) => apply confined_try
         | |- confined _ (bind (with_clock _) _) =>
             apply confined_bind_clock; intros ?
         | |- confined _ (bind (with_clock_try _) _) =>
             apply confined_bind_clock_try; intros ? ? ?
         | |- confined _ (bind _ _) => apply confined_bind
         | |- forall _, _ => intros ?
         end.

Lemma confined_log_to_db run_id event description count :
  confined run_id (_log_to_db run_id event description count).
Proof.
  unfold _log_to_db. confine. apply confined_update, own_audit. reflexivity.
Qed.

Section ConfinedStages.

Context `{PandasOps}.
Variable run_id : string.

Lemma confined_save_validation_results vr :
  confined run_id (save_validation_results run_id vr).
Proof.
  unfold save_validation_results. destruct vr as [|r vr]; confine.
  apply confined_update, own_validation.
  apply (map_clock_forall _ (fun r => v_run_id r = run_id)).
  intros x c'. reflexivity.
Qed.

Lemma confined_generate_validation_summary vr :
  confined run_id (generate_validation_summary run_id vr).
Proof. unfold generate_validation_summary. confine. Qed.

Lemma confined_handle_exceptions invalid :
  confined run_id (handle_exceptions run_id invalid).
Proof.
  unfold handle_exceptions, _save_exceptions_to_db, _save_exceptions_to_csv.
  destruct invalid as [|ir l]; confine.
  - apply confined_update, own_exceptions.
    eapply Forall_impl; [|apply exception_data_fields]. now intros e (E & _).
  - destruct (fst (exception_data _ _ _ _)); confine.
Qed.

Lemma confined_save_clean_data df :
  Forall (fun it => t_run_id (snd it) = run_id) df ->
  confined run_id (_save_clean_data run_id df).
Proof.
  intros F. unfold _save_clean_data. confine.
  - apply confined_update, own_clean_delete.
  - apply confined_update, own_clean_append. now apply Forall_map.
Qed.

Lemma confined_analytics_summaries df :
  confined run_id (_generate_analytics_summaries run_id df).
Proof.
  unfold _generate_analytics_summaries. confine.
  - apply confined_update, own_summary_delete.
  - apply confined_update, own_summary_append, analytics_summaries_run_id.
Qed.

Lemma confined_basic_analytics raw clean invalid :
  confined run_id (_generate_basic_analytics run_id raw clean invalid).
Proof.
  unfold _generate_basic_analytics. confine.
  - apply confined_update, own_summary_delete.
  - match goal with
    | E : fst (basic_summaries _ _ _) = Ok ?a |- _ =>
        apply basic_summaries_run_id in E; destruct a
    end; confine.
    now apply confined_update, own_summary_append.
Qed.

Lemma transform_frame_run_id clean c tdf :
  fst (transform_frame run_id clean c) = Ok tdf ->
  Forall (fun it => t_run_id (snd it) = run_id) tdf.
Proof.
  intros E. apply transform_frame_ok in E as (dates & _ & _ & _ & ->).
  apply Forall_forall. intros it I.
  apply in_map_iff in I as ([[idx row] d] & <- & _). reflexivity.
Qed.

Lemma confined_transform_clean_data clean :
  confined run_id (transform_clean_data run_id clean).
Proof.
  unfold transform_clean_data. destruct clean as [|ir l]; confine.
  - match goal with
    | E : fst (transform_frame _ _ _) = Ok _ |- _ =>
        apply confined_save_clean_data, (transform_frame_run_id _ _ _ E)
    end.
  - apply confined_analytics_summaries.
  - apply confined_log_to_db.
Qed.

Lemma confined_read_csv path : confined run_id (read_csv path).
Proof.
  unfold read_csv. confine.
  match goal with f : option CsvFile |- _ => destruct f end; confine.
Qed.

Lemma confined_ingest_data source_file :
  confined run_id (_ingest_data run_id source_file).
Proof.
  unfold _ingest_data. confine.
  - apply confined_read_csv.
  - apply confined_update, own_raw. apply Forall_map, Forall_forall.
    reflexivity.
  - apply confined_log_to_db.
  - destruct (filter _ original_columns); confine.
  - apply confined_log_to_db.
Qed.

Lemma confined_validate_data cols df vr :
  confined run_id (_validate_data run_id cols df vr).
Proof.
  unfold _validate_data. confine.
  - destruct (validate_schema cols vr) as [ok vr1].
    destruct (negb ok); confine.
    destruct (validate_records df vr1) as [[clean invalid] vr2].
    destruct (check_duplicates clean vr2) as [kept vr3]. confine.
    + apply confined_save_validation_results.
    + apply confined_log_to_db.
  - apply confined_log_to_db.
Qed.

Lemma confined_fallback source_file :
  confined run_id (fallback_analytics run_id source_file).
Proof.
  unfold fallback_analytics. confine.
  - match goal with f : option CsvFile |- _ => destruct f end; confine.
    apply confined_read_csv.
  - apply confined_basic_analytics.
Qed.

Lemma confined_pipeline_steps source_file :
  confined run_id (pipeline_steps run_id source_file).
Proof.
  unfold pipeline_steps, log_pipeline_start, log_pipeline_end. confine.
  - apply confined_log_to_db.
  - apply confined_ingest_data.
  - apply confined_validate_data.
  - match goal with
    | p : (DataFrame * DataFrame * Log)%type |- _ =>
        destruct p as [[clean invalid] vr]
    end. confine.
    + apply confined_handle_exceptions.
    + apply confined_transform_clean_data.
    + apply confined_basic_analytics.
    + apply confined_generate_validation_summary.
    + apply confined_log_to_db.
Qed.

(** X10. Whatever the files, the clock and the failures of the database
    do, a run only adds rows carrying its own run identifier to the raw,
    validation, exception and audit tables (nothing there is removed or
    changed), and in the clean-sales and summary tables the rows of every
    other run are exactly as before. *)
Theorem run_pipeline_only_own_rows (source_file : string) (w : World) :
  only_own_rows run_id (db w)
    (db (snd (run_pipeline run_id source_file w))).
Proof.
  revert w. change (confined run_id (run_pipeline run_id source_file)).
  unfold run_pipeline, log_exception. confine.
  - apply confined_pipeline_steps.
  - apply confined_log_to_db.
  - apply confined_fallback.
Qed.

End ConfinedStages.

(** ** The audit logger *)

(** X11. Writing an audit event never raises. When the database accepts the
    write, the audit table gains exactly the event, stamped with the clock
    reading; when it refuses, the table is as before. No other table
    changes either way. *)
Theorem log_to_db_best_effort (run_id event description : string)
    (count : nat) (w : World) :
  exists w',
    _log_to_db run_id event description count w = (Ok tt, w') /\
    audit_log (db w')
    = (match faults w with
       | Some _ :: _ => audit_log (db w)
       | _ => audit_log (db w)
              ++ [mkAuditEvent run_id event description count (clock w 0%nat)]
       end) /\
    raw_sales (db w') = raw_sales (db w) /\
    validation_results (db w') = validation_results (db w) /\
    clean_sales (db w') = clean_sales (db w) /\
    exceptions (db w') = exceptions (db w) /\
    analytics_summary (db w') = analytics_summary (db w).
Proof.
  unfold _log_to_db, try_except, bind, external, with_clock, update_db, ret,
    now.
  destruct (faults w) as [|[e|] rest]; cbn; eexists; repeat split.
Qed.

(** ** What a stage leaves alone *)

Section Keeps.

Context {T : Type}.
Variable part : Store -> T.

Lemma keeps_ret {A} (a : A) : keeps part (ret a).
Proof. now intros w. Qed.

Lemma keeps_raise {A} e : keeps part (@raise A e).
Proof. now intros w. Qed.

Lemma keeps_bind {A B} (m : M A) (k : A -> M B) :
  keeps part m -> (forall a, keeps part (k a)) -> keeps part (bind m k).
Proof.
  intros Km Kk w. unfold bind. specialize (Km w).
  destruct (m w) as [[a|e] w1]; cbn [snd] in *; [|exact Km].
  now rewrite Kk.
Qed.

Lemma keeps_try {A} (m : M A) (h : string -> M A) :
  keeps part m -> (forall e, keeps part (h e)) -> keeps part (try_except m h).
Proof.
  intros Km Kh w. unfold try_except. specialize (Km w).
  destruct (m w) as [[a|e] w1]; cbn [snd] in *; [exact Km|].
  now rewrite Kh.
Qed.

Lemma keeps_external : keeps part external.
Proof. intros w. unfold external. now destruct (faults w) as [|[e|] rest]. Qed.

Lemma keeps_with_clock {A} (f : Clock -> A * Clock) :
  keeps part (with_clock f).
Proof. intros w. unfold with_clock. now destruct (f (clock w)). Qed.

Lemma keeps_with_clock_try {A} (f : Clock -> Result A * Clock) :
  keeps part (with_clock_try f).
Proof. intros w. unfold with_clock_try. now destruct (f (clock w)). Qed.

Lemma keeps_lookup path : keeps part (lookup_file path).
Proof. now intros w. Qed.

Lemma keeps_update (f : Store -> Store) :
  (forall s, part (f s) = part s) -> keeps part (update_db f).
Proof. intros E w. apply E. Qed.

End Keeps.

Ltac keeping :=
  repeat lazymatch goal with
         | |- keeps _ (ret _) => apply keeps_ret
         | |- keeps _ (raise _) => apply keeps_raise
         | |- keeps _ external => apply keeps_external
         | |- keeps _ (lookup_file _) => apply keeps_lookup
         | |- keeps _ (with_clock _) => apply keeps_with_clock
         | |- keeps _ (with_clock_try _) => apply keeps_with_clock_try
         | |- keeps _ (try_except _ _) => apply keeps_try
         | |- keeps _ (bind _ _) => apply keeps_bind
         | |- keeps _ (update_db _) => apply keeps_update; intros ?
         | |- forall _, _ => intros ?
         end.

Section KeepsStages.

Context `{PandasOps}.
Context {T : Type}.
Variable part : Store -> T.
Variable run_id : string.

Lemma keeps_log_to_db event description count :
  (forall f s, part (set_audit_log f s) = part s) ->
  keeps part (_log_to_db run_id event description count).
Proof. intros A. unfold _log_to_db. keeping. apply A. Qed.

Lemma keeps_read_csv path : keeps part (read_csv path).
Proof.
  unfold read_csv. keeping.
  match goal with f : option CsvFile |- _ => destruct f end; keeping.
Qed.

Lemma keeps_ingest_data source_file :
  (forall f s, part (set_audit_log f s) = part s) ->
  (forall f s, part (set_raw_sales f s) = part s) ->
  keeps part (_ingest_data run_id source_file).
Proof.
  intros A R. unfold _ingest_data, log_ingestion, log_exception. keeping.
  - apply keeps_read_csv.
  - apply R.
  - now apply keeps_log_to_db.
  - destruct (filter _ original_columns); keeping.
  - now apply keeps_log_to_db.
Qed.

Lemma keeps_save_validation_results vr :
  (forall f s, part (set_validation_results f s) = part s) ->
  keeps part (save_validation_results run_id vr).
Proof.
  intros V. unfold save_validation_results. destruct vr; keeping. apply V.
Qed.

Lemma keeps_validate_data cols df vr :
  (forall f s, part (set_audit_log f s) = part s) ->
  (forall f s, part (set_validation_results f s) = part s) ->
  keeps part (_validate_data run_id cols df vr).
Proof.
  intros A V. unfold _validate_data, log_validation_summary, log_exception.
  keeping.
  - destruct (validate_schema cols vr) as [ok vr1].
    destruct (negb ok); keeping.
    destruct (validate_records df vr1) as [[clean invalid] vr2].
    destruct (check_duplicates clean vr2) as [kept vr3]. keeping.
    + now apply keeps_save_validation_results.
    + now apply keeps_log_to_db.
  - now apply keeps_log_to_db.
Qed.

Lemma keeps_handle_exceptions invalid :
  (forall f s, part (set_exceptions f s) = part s) ->
  keeps part (handle_exceptions run_id invalid).
Proof.
  intros X.
  unfold handle_exceptions, _save_exceptions_to_db, _save_exceptions_to_csv.
  destruct invalid; keeping; [apply X|].
  match goal with a : list ExceptionRecord |- _ => destruct a end; keeping.
Qed.

Lemma keeps_transform_clean_data clean :
  (forall f s, part (set_audit_log f s) = part s) ->
  (forall f s, part (set_clean_sales f s) = part s) ->
  (forall f s, part (set_analytics_summary f s) = part s) ->
  keeps part (transform_clean_data run_id clean).
Proof.
  intros A C S.
  unfold transform_clean_data, _save_clean_data,
    _generate_analytics_summaries, log_transformation.
  destruct clean; keeping; try apply C; try apply S.
  now apply keeps_log_to_db.
Qed.

Lemma keeps_basic_analytics raw clean invalid :
  (forall f s, part (set_analytics_summary f s) = part s) ->
  keeps part (_generate_basic_analytics run_id raw clean invalid).
Proof.
  intros S. unfold _generate_basic_analytics. keeping; [apply S|].
  match goal with a : list SummaryRow |- _ => destruct a end; keeping.
  apply S.
Qed.

Lemma keeps_generate_validation_summary vr :
  keeps part (generate_validation_summary run_id vr).
Proof. unfold generate_validation_summary. keeping. Qed.

Lemma keeps_fallback source_file :
  (forall f s, part (set_analytics_summary f s) = part s) ->
  keeps part (fallback_analytics run_id source_file).
Proof.
  intros S. unfold fallback_analytics. keeping.
  - match goal with f : option CsvFile |- _ => destruct f end; keeping.
    apply keeps_read_csv.
  - now apply keeps_basic_analytics.
Qed.

(** What the handler of [run_pipeline] does after a failure. *)
Lemma keeps_failure_handler source_file e :
  (forall f s, part (set_audit_log f s) = part s) ->
  (forall f s, part (set_analytics_summary f s) = part s) ->
  keeps part
    (log_exception run_id e 0 ;;
     try_except (fallback_analytics run_id source_file) (fun _ => ret tt) ;;
     ret (Failure run_id e)).
Proof.
  intros A S. unfold log_exception. keeping.
  - now apply keeps_log_to_db.
  - now apply keeps_fallback.
Qed.

End KeepsStages.

Lemma log_to_db_tables run_id event description count w w' :
  _log_to_db run_id event description count w = (Ok tt, w') ->
  raw_sales (db w') = raw_sales (db w) /\
  validation_results (db w') = validation_results (db w) /\
  clean_sales (db w') = clean_sales (db w) /\
  exceptions (db w') = exceptions (db w) /\
  analytics_summary (db w') = analytics_summary (db w).
Proof.
  intros E.
  assert (K : forall T (part : Store -> T),
            (forall f s, part (set_audit_log f s) = part s) ->
            part (db w') = part (db w)).
  { intros T part I.
    pose proof (keeps_log_to_db part run_id event description count I w) as K.
    now rewrite E in K. }
  repeat split; now apply K.
Qed.


(** ** A run in a world where no operation fails *)

Lemma log_to_db_ok run_id event description count w :
  faults w = [] ->
  _log_to_db run_id event description count w
  = (Ok tt,
     mkWorld
       (set_audit_log
          (fun t => t ++ [mkAuditEvent run_id event description count
                            (clock w 0%nat)]) (db w))
       (fs w) (fun n => clock w (S n)) []).
Proof.
  intros F.
  unfold _log_to_db, try_except, bind, external, with_clock, update_db, ret,
    now.
  rewrite F. cbn. now rewrite F.
Qed.


Lemma bind_ok {A B} (m : M A) (k : A -> M B) w a w1 :
  m w = (Ok a, w1) -> bind m k w = k a w1.
Proof. intros E. unfold bind. now rewrite E. Qed.

Lemma try_ok {A} (m : M A) h w a w1 :
  m w = (Ok a, w1) -> try_except m h w = (Ok a, w1).
Proof. intros E. unfold try_except. now rewrite E. Qed.

Lemma with_clock_run {A} (f : Clock -> A * Clock) w :
  with_clock f w
  = (Ok (fst (f (clock w))), mkWorld (db w) (fs w) (snd (f (clock w))) (faults w)).
Proof. unfold with_clock. now destruct (f (clock w)). Qed.

Section FaultFree.

Context `{PandasOps}.
Variable run_id : string.

Lemma log_to_db_total event description count w :
  faults w = [] ->
  exists w',
    _log_to_db run_id event description count w = (Ok tt, w') /\ calm w w'.
Proof.
  intros F. eexists. split; [now apply log_to_db_ok|]. now split.
Qed.

Lemma fallback_ok source_file w :
  faults w = [] ->
  exists w' out,
    fallback_analytics run_id source_file w = (Ok tt, w') /\
    fst (basic_summaries run_id [] (clock w)) = Ok out /\
    analytics_summary (db w')
    = delete_run s_run_id run_id (analytics_summary (db w)) ++ out /\
    raw_sales (db w') = raw_sales (db w) /\
    validation_results (db w') = validation_results (db w) /\
    clean_sales (db w') = clean_sales (db w) /\
    exceptions (db w') = exceptions (db w).
Proof.
  intros F. unfold fallback_analytics.
  destruct (basic_summaries_runs run_id [] (clock w) eq_refl) as (out & O).
  erewrite bind_ok by reflexivity.
  destruct (fs w source_file) as [file|] eqn:S.
  - erewrite bind_ok; cycle 1.
    { erewrite bind_ok; cycle 1.
      { unfold read_csv, bind, lookup_file. rewrite S, (external_ok w F).
        reflexivity. }
      reflexivity. }
    rewrite basic_analytics_calm by exact F. rewrite O.
    eexists _, out. now repeat split.
  - erewrite bind_ok by reflexivity.
    rewrite basic_analytics_calm by exact F. rewrite O.
    eexists _, out. now repeat split.
Qed.

Lemma bind_raise {A B} (m : M A) (k : A -> M B) w e w1 :
  m w = (Raise e, w1) -> bind m k w = (Raise e, w1).
Proof. intros E. unfold bind. now rewrite E. Qed.

Lemma try_raise {A} (m : M A) h w e w1 :
  m w = (Raise e, w1) -> try_except m h w = h e w1.
Proof. intros E. unfold try_except. now rewrite E. Qed.




Lemma ingest_missing_column source_file file w :
  faults w = [] -> fs w source_file = Some file ->
  existsb (fun col => negb (in_list col (columns file))) original_columns
  = true ->
  exists w',
    _ingest_data run_id source_file w
    = (Raise (index_error original_columns (ingested_columns file)), w')
    /\ calm w w' /\
    raw_sales (db w')
    = raw_sales (db w)
      ++ map (mkRawRow run_id (clock w 0%nat) source_file) (records file) /\
    validation_results (db w') = validation_results (db w) /\
    clean_sales (db w') = clean_sales (db w) /\
    exceptions (db w') = exceptions (db w) /\
    analytics_summary (db w') = analytics_summary (db w).
Proof.
  intros F S E. unfold _ingest_data.
  assert (E' : exists m ms,
             filter (fun col => negb (in_list col (columns file)))
               original_columns = m :: ms).
  { apply existsb_exists in E as (col & I & N).
    destruct (filter _ original_columns) as [|m ms] eqn:Fl; [|now eexists _, _].
    exfalso. assert (J : In col []); [|exact J].
    rewrite <- Fl. apply filter_In. now split. }
  destruct E' as (m & ms & E').
  eexists. split.
  - erewrite try_raise; cycle 1.
    { erewrite bind_ok; cycle 1.
      { unfold read_csv, bind, lookup_file. rewrite S, (external_ok w F).
        reflexivity. }
      cbv zeta.
      erewrite bind_ok by apply with_clock_run.
      erewrite bind_ok by (apply external_ok; exact F).
      erewrite bind_ok by reflexivity.
      erewrite bind_ok by (apply log_to_db_ok; exact F).
      rewrite E'. reflexivity. }
    unfold log_exception.
    erewrite bind_ok by (apply log_to_db_ok; reflexivity). reflexivity.
  - cbn. repeat split. f_equal. unfold range_index.
    generalize 0%nat at 2. induction (records file) as [|r l IH]; intros n;
      cbn; [reflexivity|]. now rewrite IH.
Qed.

(** X14. With a database that refuses nothing, a run over a file that the
    raw table can take but that lacks a required column returns a FAILED
    summary carrying the error of the column selection. The raw rows of the
    file are in the raw table all the same, stored before the columns were
    selected; nothing is written to the validation, clean or exception
    tables, and the run's summaries are the eleven zero rows of the
    fallback. *)
Theorem run_on_missing_column_fails (source_file : string) (file : CsvFile)
    (w : World) :
  faults w = [] -> fs w source_file = Some file ->
  storable_file run_id source_file file = true ->
  existsb (fun col => negb (in_list col (columns file))) original_columns
  = true ->
  exists ts w',
    run_pipeline run_id source_file w
    = (Ok (Failure run_id
             (index_error original_columns (ingested_columns file))), w') /\
    raw_sales (db w')
    = raw_sales (db w) ++ map (mkRawRow run_id ts source_file) (records file)
    /\
    map summary_values
      (rows_of_run s_run_id run_id (analytics_summary (db w')))
    = basic_values run_id [] /\
    validation_results (db w') = validation_results (db w) /\
    clean_sales (db w') = clean_sales (db w) /\
    exceptions (db w') = exceptions (db w).
Proof.
  intros F S _ E.
  destruct (log_to_db_total "PIPELINE_START"
              ("Pipeline started - Run ID: " ++ run_id)%string 0 w F)
    as (w0 & E0 & F0 & S0).
  destruct (log_to_db_tables _ _ _ _ _ _ E0) as (R0 & V0 & C0 & X0 & _).
  destruct (ingest_missing_column source_file file w0 F0
              ltac:(congruence) E)
    as (w1 & E1 & (F1 & S1) & R1 & V1 & C1 & X1 & _).
  set (msg := index_error original_columns (ingested_columns file)) in *.
  destruct (log_to_db_total "SYSTEM_ERROR"
              ("Exception occurred: " ++ msg)%string 0 w1 F1)
    as (w2 & E2 & F2 & S2).
  destruct (log_to_db_tables _ _ _ _ _ _ E2) as (R2 & V2 & C2 & X2 & _).
  destruct (fallback_ok source_file w2 F2)
    as (w3 & out & E3 & O3 & A3 & R3 & V3 & C3 & X3).
  exists (clock w0 0%nat), w3. split.
  - unfold run_pipeline.
    erewrite try_raise; cycle 1.
    { unfold pipeline_steps, log_pipeline_start.
      erewrite bind_ok by exact E0. apply bind_raise. exact E1. }
    unfold log_exception. erewrite bind_ok by exact E2.
    erewrite bind_ok by (apply try_ok; exact E3). reflexivity.
  - rewrite A3, rows_of_run_replace
      by apply (basic_summaries_run_id _ _ _ _ O3).
    split; [congruence|].
    split; [apply (basic_summaries_inv _ _ _ _ O3)|].
    repeat split; congruence.
Qed.

End FaultFree.

Lemma run_on_missing_column_fails_witness :
  exists ts w',
    @run_pipeline iso_pandas "run1" "sales.csv"
      (world_of (mkCsvFile ["order_id"; "order_date"; "region"; "product";
                            "quantity"] [north_row]) [])
    = (Ok (Failure "run1" (dquote ++ "['revenue'] not in index" ++ dquote)),
       w') /\
    raw_sales (db w') = [mkRawRow "run1" ts "sales.csv" north_row].
Proof.
  destruct (@run_on_missing_column_fails iso_pandas "run1" "sales.csv"
              (mkCsvFile ["order_id"; "order_date"; "region"; "product";
                          "quantity"] [north_row])
              (world_of (mkCsvFile ["order_id"; "order_date"; "region";
                                    "product"; "quantity"] [north_row]) [])
              eq_refl eq_refl eq_refl eq_refl) as (ts & w' & E & R & _).
  exists ts, w'. split; [exact E|exact R].
Defined.


(** ** Saving the validation log *)

Section SaveValidation.

Context `{PandasOps}.

(** X15. Saving the validation log: an empty log is not sent to the
    database at all, so nothing can fail; a log with entries is stored as
    one row per entry, in order, under the run identifier; and when the
    database refuses, the error is raised and the table is as before. *)
Theorem save_validation_results_rows (run_id : string) (vr : Log) (w : World) :
  match vr with
  | [] => save_validation_results run_id vr w = (Ok tt, w)
  | _ :: _ =>
      match faults w with
      | Some e :: _ =>
          fst (save_validation_results run_id vr w) = Raise e /\
          validation_results (db (snd (save_validation_results run_id vr w)))
          = validation_results (db w)
      | _ =>
          fst (save_validation_results run_id vr w) = Ok tt /\
          exists rows,
            validation_results
              (db (snd (save_validation_results run_id vr w)))
            = validation_results (db w) ++ rows /\
            map v_result rows = vr /\
            Forall (fun r => v_run_id r = run_id) rows
      end
  end.
Proof.
  destruct vr as [|r vr]; [reflexivity|].
  unfold save_validation_results, bind, external.
  set (f := fun (r : ValidationResult) (c : Clock) =>
              let '(ts, c) := now c in (mkValidationRow run_id r ts, c)).
  assert (V : forall c, map v_result (fst (map_clock f (r :: vr) c)) = r :: vr).
  { intros c. rewrite (map_clock_fst f v_result (fun x => x)) by reflexivity.
    apply map_id. }
  assert (R : forall c, Forall (fun x => v_run_id x = run_id)
                          (fst (map_clock f (r :: vr) c))).
  { intros c. apply (map_clock_forall f). reflexivity. }
  destruct (faults w) as [|[e|] rest]; cbn [fst snd db]; [|now split|];
    rewrite with_clock_run; cbn [fst snd db validation_results update_db
                                   set_validation_results];
    (split; [reflexivity|]); eexists; (split; [reflexivity|]);
    (split; [apply V|apply R]).
Qed.

End SaveValidation.

(** ** The validation log and the populations *)

Lemma filter_length_map {A} (p : A -> bool) l :
  List.length (filter p l) = List.length (filter (fun b => b) (map p l)).
Proof.
  induction l as [|x l IH]; [reflexivity|].
  cbn. destruct (p x); cbn; now rewrite IH.
Qed.

Lemma filter_repeat_true n : filter (fun b : bool => b) (repeat true n)
                             = repeat true n.
Proof. induction n as [|n IH]; cbn; now rewrite ?IH. Qed.

Lemma filter_negb_length {A} (p : A -> bool) l :
  (List.length (filter (fun x => negb (p x)) l) + List.length (filter p l)
   = List.length l)%nat.
Proof.
  induction l as [|x l IH]; [reflexivity|].
  cbn. destruct (p x); cbn; lia.
Qed.

Lemma filter_all_length {A B} (p : B -> bool) (f : A -> B) l :
  (forall x, p (f x) = true) ->
  List.length (filter p (map f l)) = List.length l.
Proof.
  intros T. induction l as [|x l IH]; [reflexivity|].
  cbn [map filter]. rewrite T. cbn [List.length]. now rewrite IH.
Qed.

Section LogPopulations.

Context `{PandasOps}.

Lemma row_entries_failed idx row :
  List.length (filter is_failed (row_entries idx row))
  = List.length (violated_rules row).
Proof.
  destruct (accepted row) eqn:A.
  - rewrite (row_entries_accepted idx row A).
    rewrite accepted_spec in A. now destruct (violated_rules row).
  - rewrite filter_length_map, (row_entries_rejected idx row A).
    now rewrite filter_repeat_true, repeat_length.
Qed.

Lemma flat_map_entries_failed df :
  List.length
    (filter is_failed (flat_map (fun ir => row_entries (fst ir) (snd ir)) df))
  = list_sum (map (fun ir => List.length (violated_rules (snd ir))) df).
Proof.
  induction df as [|[idx row] df IH]; [reflexivity|].
  cbn [flat_map map fst snd]. rewrite filter_app, length_app, list_sum_cons.
  now rewrite row_entries_failed, IH.
Qed.

(** X17. The validation log of a batch and its populations: the FAILED
    entries are the rule violations of the batch plus one entry per record
    whose identifier occurs more than once among the accepted records; the
    PASSED entries are the accepted records, that is the kept records plus
    those dropped as duplicates. So the summary's passed checks count the
    dropped duplicates too. *)
Theorem validation_log_populations (rows : list SalesRecord)
    (run_id : string) (ts : DateTime) :
  let df := range_index rows in
  let clean := fst (fst (validate_records df [])) in
  let kept := fst (fst (validate_and_dedup df [])) in
  let summary :=
    validation_summary_of run_id (snd (validate_and_dedup df [])) ts in
  failed_checks summary
  = (list_sum (map (fun ir => List.length (violated_rules (snd ir))) df)
     + List.length (select clean (duplicated_all clean)))%nat /\
  passed_checks summary
  = (List.length kept + List.length (dropped_duplicates clean))%nat.
Proof.
  intros df clean kept summary.
  assert (V : snd (validate_and_dedup df [])
              = flat_map (fun ir => row_entries (fst ir) (snd ir)) df
                ++ map (fun ir =>
                          mkValidationResult (fst ir) "DUPLICATE_CHECK"
                            "DUPLICATE_ORDER_ID" FAILED
                            (Some ("Duplicate order ID: "
                                   ++ fmt_str (order_id (snd ir)))%string))
                     (select clean (duplicated_all clean))).
  { rewrite validate_and_dedup_spec. cbn [snd]. subst clean.
    rewrite validate_records_spec. cbn [fst snd].
    unfold check_duplicates. cbn [snd]. now rewrite duplicate_log. }
  assert (Fl : failed_checks summary
               = (list_sum (map (fun ir => List.length
                                             (violated_rules (snd ir))) df)
                  + List.length (select clean (duplicated_all clean)))%nat).
  { subst summary. cbn [validation_summary_of failed_checks]. rewrite V.
    rewrite filter_app, length_app, flat_map_entries_failed. f_equal.
    apply filter_all_length. reflexivity. }
  split; [exact Fl|].
  assert (P : (passed_checks summary + failed_checks summary
               = List.length (snd (validate_and_dedup df [])))%nat).
  { subst summary. cbn [validation_summary_of passed_checks failed_checks].
    pose proof (filter_length_le is_failed (snd (validate_and_dedup df []))).
    lia. }
  rewrite Fl, V, length_app, length_map, flat_map_entries_length in P.
  assert (K : (List.length kept + List.length (dropped_duplicates clean)
               = List.length clean)%nat).
  { subst kept. rewrite validate_and_dedup_spec. cbn [fst]. fold df clean.
    rewrite <- length_app.
    symmetry. apply Permutation_length, drop_duplicates_partition. }
  assert (C : clean = filter (fun ir => accepted (snd ir)) df).
  { subst clean. now rewrite validate_records_spec. }
  rewrite <- C in P. lia.
Qed.

End LogPopulations.

(** ** The two aggregations on the same batch *)

Lemma string_compare_eqb a b :
  match String.compare a b with Eq => true | _ => false end = String.eqb b a.
Proof.
  destruct (String.compare a b) eqn:C.
  - apply String.compare_eq_iff in C. subst. now rewrite String.eqb_refl.
  - destruct (String.eqb b a) eqn:E; [|reflexivity].
    apply String.eqb_eq in E. subst.
    pose proof (String.compare_antisym a a) as A. rewrite C in A. discriminate.
  - destruct (String.eqb b a) eqn:E; [|reflexivity].
    apply String.eqb_eq in E. subst.
    pose proof (String.compare_antisym a a) as A. rewrite C in A. discriminate.
Qed.

Section TwoAggregations.

Context `{PandasOps}.

(** A group of the transformed rows by region against the rows of that
    region in the clean frame. *)
Lemma region_group_agrees (kept : DataFrame) (tdf : TransformedFrame) k :
  Forall (fun ir => accepted (snd ir) = true) kept ->
  map transformed_cells tdf
  = map (fun ir => copied_cells (fst ir) (snd ir)) kept ->
  sum_cells (map t_revenue
               (filter (in_group String.compare t_region k) (map snd tdf)))
  = frame_revenue (region_rows kept k) /\
  count_cells (map t_order_id
                 (filter (in_group String.compare t_region k) (map snd tdf)))
  = List.length (region_rows kept k).
Proof.
  intros A. revert tdf.
  induction A as [|[idx row] kept Ar _ IH]; intros [|[i t] tdf] E;
    try discriminate E; [split; reflexivity|].
  cbn [map] in E. unfold transformed_cells at 1, copied_cells at 1 in E.
  cbn [fst snd] in E. injection E as _ Eo Er _ _ Ev E.
  destruct (IH tdf E) as [IHs IHn].
  pose proof (accepted_no_violation row IdentifierPresent Ar) as Ni.
  cbn [violates missing_or_empty] in Ni.
  assert (G : in_group String.compare t_region k t
              = cell_eq (region row) k).
  { unfold in_group, cell_eq. rewrite Er.
    destruct (region row); [apply string_compare_eqb|reflexivity]. }
  cbn [map snd filter]. rewrite region_rows_cons, G. cbn [snd].
  destruct (cell_eq (region row) k); [|now split].
  cbn [map]. rewrite frame_revenue_cons. cbn [snd List.length].
  rewrite Ev, Eo. unfold count_cells in *. cbn [filter sum_cells fold_right].
  destruct (order_id row) as [o|]; [|discriminate Ni].
  cbn [notna isna negb List.length].
  fold (sum_cells (map t_revenue
                     (filter (in_group String.compare t_region k)
                        (map snd tdf)))).
  rewrite IHs, IHn. split; [|reflexivity]. now destruct (revenue row).
Qed.

Lemma kept_transforms (rows : list SalesRecord) (vr0 : Log) run_id c tdf :
  fst (transform_frame run_id
         (fst (fst (validate_and_dedup (range_index rows) vr0))) c)
  = Ok tdf ->
  map transformed_cells tdf
  = map (fun ir => copied_cells (fst ir) (snd ir))
      (fst (fst (validate_and_dedup (range_index rows) vr0))).
Proof.
  set (kept := fst (fst (validate_and_dedup (range_index rows) vr0))).
  intros E.
  assert (A : Forall (fun ir => accepted (snd ir) = true) kept).
  { apply Forall_forall. intros ir. apply kept_accepted. }
  apply transform_frame_ok in E as (dates & _ & L & _ & ->).
  apply (transform_rows_cells run_id (c 0%nat) kept A dates L).
Qed.

(** X18. The orchestrator's aggregation, which replaces the transformer's,
    agrees with it on the batch kept by validation and the duplicate check,
    whenever both are computed (the transformer has built its frame and the
    orchestrator's product loop has run): the two grand totals are the same
    row values, and every row the transformer wrote for a region is among
    the orchestrator's rows with the same revenue and order count. *)
Theorem aggregations_agree (rows : list SalesRecord) (vr0 : Log)
    (run_id : string) (c c1 c2 : Clock) (transformed : TransformedFrame)
    (out : list SummaryRow) :
  let kept := fst (fst (validate_and_dedup (range_index rows) vr0)) in
  fst (transform_frame run_id kept c) = Ok transformed ->
  fst (basic_summaries run_id kept c2) = Ok out ->
  let by_transformer :=
    map summary_values (fst (analytics_summaries run_id transformed c1)) in
  let by_orchestrator := map summary_values out in
  hd_error by_transformer = hd_error by_orchestrator /\
  Forall (fun v : string * string * string * Z * nat * Z =>
            String.eqb (snd (fst (fst (fst (fst v))))) "ALL" = true
            \/ In v by_orchestrator) by_transformer.
Proof.
  intros kept E O. rename transformed into tdf.
  pose proof (kept_transforms rows vr0 run_id c tdf E) as C.
  fold kept in C.
  assert (A : Forall (fun ir => accepted (snd ir) = true) kept).
  { apply Forall_forall. intros ir. apply kept_accepted. }
  cbv zeta.
  rewrite analytics_summaries_values.
  rewrite (proj1 (basic_summaries_inv run_id kept c2 out O)).
  assert (L : List.length tdf = List.length kept).
  { rewrite <- (length_map transformed_cells), C. apply length_map. }
  assert (T : sum_cells (map t_revenue (map snd tdf)) = frame_revenue kept).
  { unfold frame_revenue. f_equal. rewrite !map_map.
    transitivity (map (fun v : nat * option string * option string
                               * option string * option Z * option Z => snd v)
                    (map transformed_cells tdf)); [now rewrite map_map|].
    now rewrite C, map_map. }
  split.
  - unfold analytics_values, basic_values. cbn [hd_error]. now rewrite T, L.
  - unfold analytics_values. constructor; [now left|].
    repeat (apply Forall_app; split).
    + apply Forall_forall. intros v I.
      apply in_map_iff in I as ([[k r] n] & <- & I). cbn [fst snd].
      unfold groupby_agg in I. apply in_map_iff in I as (k' & G & I).
      injection G as -> <- <-.
      destruct (region_group_agrees kept tdf k A C) as [-> ->].
      apply (group_keys_elements String.compare t_region
               String.compare_eq_iff) in I as (t & It & Kt).
      right. unfold basic_values. right. apply in_or_app. left.
      apply in_map_iff. exists k. split; [reflexivity|].
      apply in_map_iff in It as ([i t'] & <- & It).
      assert (Ic : In (transformed_cells (i, t'))
                     (map (fun ir => copied_cells (fst ir) (snd ir)) kept))
        by (rewrite <- C; now apply in_map).
      apply in_map_iff in Ic as ([j row] & Ec & Ik).
      unfold transformed_cells, copied_cells in Ec. cbn [fst snd] in Ec.
      injection Ec as _ _ Er _ _ _. cbn [snd] in Kt.
      rewrite Forall_forall in A. specialize (A _ Ik). cbn [snd] in A.
      destruct (accepted_region row A) as (s & Rs & Is).
      assert (s = k) by congruence. subst s. exact Is.
    + apply Forall_forall. intros v I.
      apply in_map_iff in I as ([[k r] n] & <- & _). now left.
    + apply Forall_forall. intros v I.
      apply in_map_iff in I as ([[k r] n] & <- & _). now left.
Qed.

End TwoAggregations.

Lemma aggregations_agree_witness :
  (exists transformed out,
     fst (@transform_frame iso_pandas "run1"
            (fst (fst (@validate_and_dedup iso_pandas
                         (range_index (records scenario_file)) [])))
            example_clock) = Ok transformed /\
     fst (@basic_summaries iso_pandas "run1"
            (fst (fst (@validate_and_dedup iso_pandas
                         (range_index (records scenario_file)) [])))
            example_clock) = Ok out /\
     hd_error
       (map summary_values
          (fst (analytics_summaries "run1" transformed example_clock)))
     = hd_error (map summary_values out)) /\
  hd_error
    (basic_values "run1"
       (fst (fst (@validate_and_dedup iso_pandas
                    (range_index (records scenario_file)) []))))
  = Some ("run1", "ALL", "ALL", 10000%Z, 1%nat, 10000%Z).
Proof.
  split; [|reflexivity].
  eexists _, _. split; [reflexivity|]. split; [reflexivity|].
  apply (@aggregations_agree iso_pandas (records scenario_file) [] "run1"
           example_clock example_clock example_clock _ _ eq_refl eq_refl).
Defined.

(** ** Failures while exceptions are stored *)

Section ExceptionFailures.

Context `{PandasOps}.

(** X19. The exception handler stores the exception records in the table
    before it writes the CSV file. When the database refuses the insert the
    error is raised and the table is as before; when the insert succeeds
    and the CSV write fails the error is raised although the records are in
    the table; otherwise the records are in the table and the handler
    returns. *)
Theorem handle_exceptions_failures (run_id : string) (ir : nat * SalesRecord)
    (l : DataFrame) (w : World) :
  let result := handle_exceptions run_id (ir :: l) w in
  let data := fst (exception_data run_id "VALIDATION" (ir :: l) (clock w)) in
  match faults w with
  | Some e :: _ =>
      fst result = Raise e /\ exceptions (db (snd result)) = exceptions (db w)
  | None :: Some e :: _ =>
      fst result = Raise e /\
      exceptions (db (snd result)) = exceptions (db w) ++ data
  | _ =>
      fst result = Ok tt /\
      exceptions (db (snd result)) = exceptions (db w) ++ data
  end.
Proof.
  cbv zeta. unfold handle_exceptions.
  erewrite bind_ok by apply with_clock_run.
  pose proof (map_clock_length (exception_record run_id "VALIDATION")
                (ir :: l) (clock w)) as L.
  unfold exception_data in *.
  destruct (map_clock (exception_record run_id "VALIDATION") (ir :: l)
              (clock w)) as [[|e es] c'] eqn:M; [discriminate L|].
  cbn [fst snd].
  unfold _save_exceptions_to_db, _save_exceptions_to_csv, bind, external,
    update_db, with_clock, now.
  cbn [faults db fs clock].
  destruct (faults w) as [|[x|] [|[y|] rest]]; cbn; now split.
Qed.

End ExceptionFailures.

(** ** What a stage has done when it returns *)

Lemma log_to_db_files run_id event description count w :
  fs (snd (_log_to_db run_id event description count w)) = fs w.
Proof.
  unfold _log_to_db, try_except, bind, external, with_clock, update_db, ret,
    now.
  now destruct (faults w) as [|[e|] rest].
Qed.

Section Returns.

Context `{PandasOps}.
Variable run_id : string.

Lemma read_csv_inv path w file w' :
  read_csv path w = (Ok file, w') -> fs w path = Some file.
Proof.
  unfold read_csv, bind, lookup_file.
  destruct (fs w path) as [f|]; [|discriminate].
  destruct (external w) as [[[]|e] w1]; [|discriminate].
  unfold ret. now intros [= -> _].
Qed.

Lemma ingest_data_inv source_file w raw_df w' :
  _ingest_data run_id source_file w = (Ok raw_df, w') ->
  exists file,
    fs w source_file = Some file /\
    raw_df = range_index (records file) /\
    (forall col, In col original_columns -> In col (columns file)).
Proof.
  unfold _ingest_data, try_except.
  match goal with |- context [match ?m w with _ => _ end] =>
    destruct (m w) as [[df|e] w1] eqn:E
  end.
  - intros [= <- <-].
    apply bind_ok_inv in E as (file & w2 & R & E).
    apply read_csv_inv in R. exists file. split; [exact R|].
    cbv zeta in E.
    apply bind_ok_inv in E as (ts & w3 & _ & E).
    apply bind_ok_inv in E as (_ & w4 & _ & E).
    apply bind_ok_inv in E as (_ & w5 & _ & E).
    apply bind_ok_inv in E as (_ & w6 & _ & E).
    destruct (filter _ original_columns) as [|m ms] eqn:Fl;
      [|discriminate E].
    unfold ret in E. injection E as <- _. split; [reflexivity|].
    intros col I. apply in_list_In.
    destruct (in_list col (columns file)) eqn:N; [reflexivity|].
    exfalso. assert (J : In col []); [|exact J].
    rewrite <- Fl. apply filter_In. split; [exact I|now rewrite N].
  - unfold bind. destruct (log_exception _ _ _ w1) as [[[]|e'] w2];
      discriminate.
Qed.

Lemma validate_data_inv df w r w' :
  _validate_data run_id original_columns df [] w = (Ok r, w') ->
  r = validate_and_dedup df [].
Proof.
  unfold _validate_data, try_except, validate_and_dedup.
  change (validate_schema original_columns [])
    with (true, @nil ValidationResult).
  cbv beta iota. cbn [negb].
  destruct (validate_records df []) as [[clean invalid] vr].
  destruct (check_duplicates clean vr) as [kept vr'].
  match goal with |- context [match ?m w with _ => _ end] =>
    destruct (m w) as [[x|e] w1] eqn:E
  end.
  - intros [= <- <-].
    apply bind_ok_inv in E as (_ & w2 & _ & E).
    apply bind_ok_inv in E as (_ & w3 & _ & E).
    unfold ret in E. now injection E as <- _.
  - unfold bind. destruct (log_exception _ _ _ w1) as [[[]|e'] w2];
      discriminate.
Qed.

(** The exception handler has stored nothing or the records of all the
    rows it was given, and all of them when it returns. *)
Lemma handle_exceptions_cases invalid w :
  let result := handle_exceptions run_id invalid w in
  let data := fst (exception_data run_id "VALIDATION" invalid (clock w)) in
  (exceptions (db (snd result)) = exceptions (db w)
   \/ exceptions (db (snd result)) = exceptions (db w) ++ data) /\
  (fst result = Ok tt ->
   exceptions (db (snd result)) = exceptions (db w) ++ data).
Proof.
  cbv zeta. destruct invalid as [|ir l].
  - cbn. rewrite app_nil_r. now split; [left|].
  - unfold handle_exceptions.
    erewrite bind_ok by apply with_clock_run.
    pose proof (map_clock_length (exception_record run_id "VALIDATION")
                  (ir :: l) (clock w)) as L.
    unfold exception_data in *.
    destruct (map_clock (exception_record run_id "VALIDATION") (ir :: l)
                (clock w)) as [[|e es] c'] eqn:M; [discriminate L|].
    cbn [fst snd].
    unfold _save_exceptions_to_db, _save_exceptions_to_csv, bind, external,
      update_db, with_clock, now.
    cbn [faults db fs clock].
    destruct (faults w) as [|[x|] [|[y|] rest]]; cbn;
      (split; [auto|]); try discriminate; auto.
Qed.

End Returns.

(** ** The rejected records of a run *)

Section RejectedRecords.

Context `{PandasOps}.
Variable run_id : string.

Lemma rule_rejected_invalid rows :
  snd (fst (validate_and_dedup (range_index rows) [])) = rule_rejected rows.
Proof.
  rewrite validate_and_dedup_spec, validate_records_spec. cbn [fst snd].
  unfold rule_rejected. apply filter_ext. intros ir.
  rewrite accepted_spec. now destruct (violated_rules (snd ir)).
Qed.

Lemma duplicate_dropped_labels rows :
  Forall (fun ir => ~ In (fst ir) (map fst (rule_rejected rows)))
    (duplicate_dropped rows).
Proof.
  apply Forall_forall. intros [i r] D I. cbn [fst] in I.
  apply in_map_iff in I as ([j q] & J & I). cbn in J. subst j.
  unfold duplicate_dropped in D. apply select_incl in D.
  unfold rule_rejected in I.
  apply filter_In in D as [D A], I as [I R]. cbn [snd] in A, R.
  assert (r = q).
  { apply (unique_label (range_index rows) i); [|exact D|exact I].
    unfold range_index. rewrite range_index_labels. apply seq_NoDup. }
  subst q. now destruct (violated_rules r).
Qed.

(** The steps after the exception handler leave the exception table as it
    is. *)
Lemma keeps_later_steps raw_df clean_df invalid_df vr :
  keeps exceptions
    (final_df <- transform_clean_data run_id clean_df ;;
     _generate_basic_analytics run_id raw_df clean_df invalid_df ;;
     validation_summary <- generate_validation_summary run_id vr ;;
     log_pipeline_end run_id (List.length raw_df) ;;
     ret (Success run_id (List.length raw_df) (List.length clean_df)
            (List.length invalid_df) validation_summary)).
Proof.
  unfold log_pipeline_end. keeping.
  - now apply keeps_transform_clean_data.
  - now apply keeps_basic_analytics.
  - apply keeps_generate_validation_summary.
  - now apply keeps_log_to_db.
Qed.

(** The steps of a run store nothing in the exception table, or the
    exception records of the rule-rejected rows of the file; the latter
    when they all return. *)
Lemma pipeline_steps_exceptions source_file file w :
  fs w source_file = Some file ->
  let result := pipeline_steps run_id source_file w in
  exists c,
    let data :=
      fst (exception_data run_id "VALIDATION" (rule_rejected (records file))
             c) in
    (exceptions (db (snd result)) = exceptions (db w)
     \/ exceptions (db (snd result)) = exceptions (db w) ++ data) /\
    (forall s, fst result = Ok s ->
     exceptions (db (snd result)) = exceptions (db w) ++ data).
Proof.
  intros S. cbv zeta. unfold pipeline_steps, log_pipeline_start.
  destruct (_log_to_db_total run_id "PIPELINE_START"
              ("Pipeline started - Run ID: " ++ run_id)%string 0 w)
    as (w0 & E0).
  pose proof (keeps_log_to_db exceptions run_id "PIPELINE_START"
                ("Pipeline started - Run ID: " ++ run_id)%string 0
                (fun _ _ => eq_refl) w) as K0.
  pose proof (log_to_db_files run_id "PIPELINE_START"
                ("Pipeline started - Run ID: " ++ run_id)%string 0 w) as S0.
  rewrite E0 in K0, S0. cbn [snd] in K0, S0.
  rewrite (bind_ok _ _ _ _ _ E0).
  pose proof (keeps_ingest_data exceptions run_id source_file
                (fun _ _ => eq_refl) (fun _ _ => eq_refl) w0) as K1.
  destruct (_ingest_data run_id source_file w0) as [[raw|e] w1] eqn:E1;
    cbn [snd] in K1.
  2:{ rewrite (bind_raise _ _ _ _ _ E1). cbn [fst snd]. exists (clock w).
      split; [left; congruence|discriminate]. }
  apply ingest_data_inv in E1 as I1. destruct I1 as (file' & S1 & -> & _).
  assert (file' = file) by congruence. subst file'.
  rewrite (bind_ok _ _ _ _ _ E1).
  pose proof (keeps_validate_data exceptions run_id original_columns
                (range_index (records file)) []
                (fun _ _ => eq_refl) (fun _ _ => eq_refl) w1) as K2.
  destruct (_validate_data run_id original_columns
              (range_index (records file)) [] w1)
    as [[[[clean invalid] vr]|e] w2] eqn:E2; cbn [snd] in K2.
  2:{ rewrite (bind_raise _ _ _ _ _ E2). cbn [fst snd]. exists (clock w).
      split; [left; congruence|discriminate]. }
  apply validate_data_inv in E2 as I2.
  assert (invalid = rule_rejected (records file)).
  { rewrite <- rule_rejected_invalid, <- I2. reflexivity. }
  subst invalid.
  rewrite (bind_ok _ _ _ _ _ E2). cbv beta iota.
  destruct (handle_exceptions_cases run_id (rule_rejected (records file)) w2)
    as [C3 O3]. cbv zeta in C3, O3.
  exists (clock w2).
  destruct (handle_exceptions run_id (rule_rejected (records file)) w2)
    as [[[]|e] w3] eqn:E3; cbn [fst snd] in C3, O3.
  - rewrite (bind_ok _ _ _ _ _ E3).
    rewrite (keeps_later_steps _ _ _ _ w3).
    rewrite (O3 eq_refl). split; [right|intros s _]; congruence.
  - rewrite (bind_raise _ _ _ _ _ E3). cbn [fst snd].
    split; [|discriminate]. destruct C3 as [C3|C3]; [left|right]; congruence.
Qed.

(** C5 (as the code has it). In a run over a file the pipeline hands the
    rule-rejected records of the batch, and no other record, to the
    exception handler. Whatever the environment does, the exception table
    gains either nothing (the run failed before the records were stored) or
    exactly one record for each rule-rejected record, in batch order, with
    the index and the raw field values of the record, its one category, its
    detail text and the stage VALIDATION; and it gains them in every run
    that ends in SUCCESS. No exception record carries the index of a record
    dropped as a duplicate. *)
Theorem exceptions_of_rule_rejected (source_file : string) (file : CsvFile)
    (w : World) :
  fs w source_file = Some file ->
  let result := run_pipeline run_id source_file w in
  exists data,
    exceptions (db (snd result)) = exceptions (db w) ++ data /\
    (data = []
     \/ map (fun e => (original_record_id e, raw_data e)) data
        = rule_rejected (records file)) /\
    ((exists s, fst result = Ok s /\ rs_status s = "SUCCESS") ->
     map (fun e => (original_record_id e, raw_data e)) data
     = rule_rejected (records file)) /\
    Forall (fun e =>
              e_run_id e = run_id
              /\ error_category e = _categorize_error (raw_data e)
              /\ error_details e = _generate_error_details (raw_data e)
              /\ pipeline_stage e = "VALIDATION") data /\
    Forall (fun ir => ~ In (fst ir) (map original_record_id data))
      (duplicate_dropped (records file)).
Proof.
  intros S. cbv zeta.
  destruct (pipeline_steps_exceptions source_file file w S) as (c & C & O).
  cbv zeta in C, O.
  set (full := fst (exception_data run_id "VALIDATION"
                      (rule_rejected (records file)) c)) in *.
  assert (R : map (fun e => (original_record_id e, raw_data e)) full
              = rule_rejected (records file))
    by apply exception_data_rows.
  assert (G : Forall (fun ir => ~ In (fst ir) (map original_record_id full))
                (duplicate_dropped (records file))).
  { replace (map original_record_id full)
      with (map fst (rule_rejected (records file)));
      [apply duplicate_dropped_labels|].
    rewrite <- R at 1. now rewrite map_map. }
  unfold run_pipeline, try_except.
  destruct (pipeline_steps run_id source_file w) as [[s|e] w1] eqn:P;
    cbn [fst snd] in *.
  - exists full. split; [now apply (O s)|]. split; [now right|].
    split; [now intros _|]. split; [apply exception_data_fields|exact G].
  - rewrite (keeps_failure_handler exceptions run_id source_file e
               (fun _ _ => eq_refl) (fun _ _ => eq_refl) w1).
    assert (N : ~ exists s,
                  fst ((log_exception run_id e 0 ;;
                        try_except (fallback_analytics run_id source_file)
                          (fun _ => ret tt) ;;
                        ret (Failure run_id e)) w1) = Ok s
                  /\ rs_status s = "SUCCESS").
    { intros (s & E & St). unfold bind in E.
      destruct (log_exception run_id e 0 w1) as [[[]|e1] w2];
        [|discriminate E].
      destruct (try_except _ _ w2) as [[[]|e2] w3]; [|discriminate E].
      unfold ret in E. cbn in E.
      assert (Es : s = Failure run_id e) by congruence.
      rewrite Es in St. discriminate St. }
    destruct C as [C|C].
    + exists []. rewrite app_nil_r. split; [exact C|]. split; [now left|].
      split; [intros E; now destruct (N E)|]. split; [constructor|].
      apply Forall_forall. intros ir _ [].
    + exists full. split; [exact C|]. split; [now right|].
      split; [intros E; now destruct (N E)|].
      split; [apply exception_data_fields|exact G].
Qed.

End RejectedRecords.

Lemma exceptions_of_rule_rejected_witness :
  fs (world_of scenario_file []) "sales.csv" = Some scenario_file /\
  map (fun e => (original_record_id e, raw_data e))
    (exceptions
       (db (snd (@run_pipeline iso_pandas "run1" "sales.csv"
                   (world_of scenario_file [])))))
  = [(2%nat,
      mkSalesRecord None (Some "2024-01-05") (Some "South")
        (Some "Paneer 200g") (Some 2%Z) (Some 2000%Z))].
Proof.
  split; [reflexivity|].
  destruct (@exceptions_of_rule_rejected iso_pandas "run1" "sales.csv"
              scenario_file (world_of scenario_file []) eq_refl)
    as (data & E & _ & R & _).
  cbv zeta in E, R. rewrite E. cbn [world_of db exceptions empty_store app].
  rewrite R; [reflexivity|].
  eexists. split; [vm_compute; reflexivity|reflexivity].
Defined.

(** C5, as stated, fails: in a run over two valid records with the same
    identifier the second is dropped as a duplicate and no exception record
    is written for it. *)
Lemma duplicate_dropped_without_exception :
  let result := @run_pipeline iso_pandas "run1" "sales.csv"
                  (world_of duplicate_file []) in
  option_map rs_status
    (match fst result with Ok s => Some s | Raise _ => None end)
  = Some "SUCCESS" /\
  map fst (@duplicate_dropped iso_pandas (records duplicate_file))
  = [1%nat] /\
  exceptions (db (snd result)) = [].
Proof. vm_compute. repeat split. Qed.

(** ** The orchestrator and its fallback *)


Section Fallback.

Context `{PandasOps}.
Variable run_id : string.




End Fallback.

(** ** The transformer and the database *)

Section TransformStore.

Context `{PandasOps}.
Variable run_id : string.

Lemma save_clean_data_inv df w w' :
  _save_clean_data run_id df w = (Ok tt, w') ->
  db w'
  = set_clean_sales (fun t => delete_run t_run_id run_id t ++ map snd df)
      (db w)
  /\ clock w' = clock w.
Proof.
  unfold _save_clean_data, bind, update_db, external.
  destruct (faults w) as [|[e|] rest] eqn:F;
    cbn [fst snd db fs clock faults]; try discriminate.
  - rewrite ?F. now intros [= <-].
  - destruct rest as [|[e|] rest]; cbn [fst snd db fs clock faults];
      try discriminate; now intros [= <-].
Qed.

Lemma analytics_summaries_inv df w w' :
  _generate_analytics_summaries run_id df w = (Ok tt, w') ->
  db w'
  = set_analytics_summary
      (fun t => delete_run s_run_id run_id t
                ++ fst (analytics_summaries run_id df (clock w))) (db w).
Proof.
  unfold _generate_analytics_summaries, bind, update_db, external, with_clock.
  destruct (analytics_summaries run_id df (clock w)) as [rows c'].
  cbn [fst snd db fs clock faults].
  destruct (faults w) as [|[e|] rest] eqn:F;
    cbn [fst snd db fs clock faults]; try discriminate.
  - rewrite ?F. now intros [= <-].
  - destruct rest as [|[e|] rest]; cbn [fst snd db fs clock faults];
      try discriminate; now intros [= <-].
Qed.

(** X16. The transformer and the database. An empty clean frame is
    returned as an empty frame and nothing is touched. When building the
    frame raises (the date conversion, or the title-casing of a region
    column without strings), that error is raised and the database is as
    before. And whenever the transformer returns, it returns the frame it
    built, the rows of the run in the clean-sales table are exactly the
    rows of that frame (the rows of other runs stay), and the run's
    summaries are those computed from it. *)
Theorem transform_clean_data_store (clean : DataFrame) (w : World) :
  match clean with
  | [] => transform_clean_data run_id clean w = (Ok [], w)
  | _ :: _ =>
      match fst (transform_frame run_id clean (clock w)) with
      | Raise e =>
          fst (transform_clean_data run_id clean w) = Raise e /\
          db (snd (transform_clean_data run_id clean w)) = db w
      | Ok transformed =>
          forall returned w',
            transform_clean_data run_id clean w = (Ok returned, w') ->
            returned = transformed /\
            rows_of_run t_run_id run_id (clean_sales (db w'))
            = map snd transformed /\
            delete_run t_run_id run_id (clean_sales (db w'))
            = delete_run t_run_id run_id (clean_sales (db w)) /\
            map summary_values
              (rows_of_run s_run_id run_id (analytics_summary (db w')))
            = analytics_values run_id transformed
      end
  end.
Proof.
  destruct clean as [|ir l]; [reflexivity|].
  unfold transform_clean_data.
  destruct (fst (transform_frame run_id (ir :: l) (clock w)))
    as [tdf|e] eqn:E.
  - intros returned w' R.
    pose proof (transform_frame_run_id run_id _ _ _ E) as T.
    assert (T' : Forall (fun r => t_run_id r = run_id) (map snd tdf))
      by now apply Forall_map.
    apply bind_ok_inv in R as (tdf' & w1 & R1 & R).
    unfold with_clock_try in R1.
    destruct (transform_frame run_id (ir :: l) (clock w)) as [r c'].
    cbn [fst] in E. subst r. injection R1 as <- <-.
    apply bind_ok_inv in R as ([] & w2 & R2 & R).
    apply save_clean_data_inv in R2 as [D2 C2]. cbn [db clock] in D2, C2.
    apply bind_ok_inv in R as ([] & w3 & R3 & R).
    apply analytics_summaries_inv in R3.
    apply bind_ok_inv in R as ([] & w4 & R4 & R).
    unfold ret in R. injection R as <- <-.
    pose proof (keeps_log_to_db clean_sales run_id "DATA_TRANSFORMATION"
                  ("Data transformation completed - "
                   ++ string_of_nat (List.length tdf)
                   ++ " records processed")%string (List.length tdf)
                  (fun _ _ => eq_refl) w3) as K4.
    pose proof (keeps_log_to_db analytics_summary run_id "DATA_TRANSFORMATION"
                  ("Data transformation completed - "
                   ++ string_of_nat (List.length tdf)
                   ++ " records processed")%string (List.length tdf)
                  (fun _ _ => eq_refl) w3) as K4'.
    unfold log_transformation in R4. rewrite R4 in K4, K4'.
    cbn [snd] in K4, K4'.
    rewrite K4, K4', R3, D2.
    cbn [clean_sales analytics_summary set_clean_sales set_analytics_summary].
    rewrite rows_of_run_replace by exact T'.
    rewrite delete_run_replace by exact T'.
    rewrite rows_of_run_replace by apply analytics_summaries_run_id.
    rewrite analytics_summaries_values. now repeat split.
  - unfold bind, with_clock_try.
    destruct (transform_frame run_id (ir :: l) (clock w)) as [r c'].
    cbn [fst] in E. subst r. now split.
Qed.

End TransformStore.

Lemma transform_clean_data_store_witness :
  exists w',
    @transform_clean_data iso_pandas "run1" [(0%nat, north_row)]
      (world_of north_file [])
    = (Ok [(0%nat,
            mkTransformedRecord (Some "A") (Some (mkDate 2024 1 5))
              (Some "North") (Some "Tomato Ketchup 500g") (Some 5%Z)
              (Some 10000%Z) (Fin 2000) "run1"
              (mkDateTime (mkDate 2024 6 1) 0))], w') /\
    map t_order_id (rows_of_run t_run_id "run1" (clean_sales (db w')))
    = [Some "A"].
Proof.
  eexists. split; [reflexivity|].
  destruct (@transform_clean_data_store iso_pandas "run1"
              [(0%nat, north_row)] (world_of north_file []) _ _ eq_refl)
    as (_ & R & _).
  rewrite R. reflexivity.
Defined.

(** ** A run that ends in SUCCESS *)

Section SuccessfulRun.

Context `{PandasOps}.
Variable run_id : string.



End SuccessfulRun.

